(** * ExpenseTracker Pro: the account and authentication model

    A shallow embedding of the backend's user model
    ([backend/models/User.js]), the authentication middleware
    ([backend/middleware/auth.js]), the authentication routes
    ([backend/routes/auth.js]) and the Passport strategies
    ([backend/config/passport.js]), followed by the properties of the
    authentication specification that they decide.

    Conventions.  A MongoDB collection is the list of its documents in
    insertion order; [findOne] returns the first document that satisfies the
    query.  [Date.now()] is read once per request and passed as [now]
    (milliseconds).  Library functions that are not part of the repository
    (bcrypt, sha256, jsonwebtoken, express-validator's [isEmail] and
    [normalizeEmail]) are section variables. *)

From Stdlib Require Import ZArith Bool Ascii String List Lia.
From Stdlib Require Import DecimalString.
From stdpp Require Import base option list strings gmap.

Local Open Scope string_scope.
Local Open Scope Z_scope.

(** ** Regular expressions of the source, matched by derivatives *)

Module Regex.

Inductive re : Type :=
| Empty : re                       (* matches nothing *)
| Eps : re                         (* matches the empty string *)
| Class : (ascii -> bool) -> re    (* one character of a class *)
| Cat : re -> re -> re
| Alt : re -> re -> re
| Star : re -> re.

Fixpoint nullable (r : re) : bool :=
  match r with
  | Empty => false
  | Eps => true
  | Class _ => false
  | Cat r1 r2 => nullable r1 && nullable r2
  | Alt r1 r2 => nullable r1 || nullable r2
  | Star _ => true
  end.

Fixpoint deriv (c : ascii) (r : re) : re :=
  match r with
  | Empty => Empty
  | Eps => Empty
  | Class p => if p c then Eps else Empty
  | Cat r1 r2 =>
      if nullable r1
      then Alt (Cat (deriv c r1) r2) (deriv c r2)
      else Cat (deriv c r1) r2
  | Alt r1 r2 => Alt (deriv c r1) (deriv c r2)
  | Star r1 => Cat (deriv c r1) (Star r1)
  end.

(** Smart constructors keep the derivatives small. *)
Definition is_empty (r : re) : bool :=
  match r with Empty => true | _ => false end.

Fixpoint simp (r : re) : re :=
  match r with
  | Cat r1 r2 =>
      let s1 := simp r1 in
      let s2 := simp r2 in
      if is_empty s1 || is_empty s2 then Empty
      else match s1 with Eps => s2 | _ => Cat s1 s2 end
  | Alt r1 r2 =>
      let s1 := simp r1 in
      let s2 := simp r2 in
      if is_empty s1 then s2 else if is_empty s2 then s1 else Alt s1 s2
  | _ => r
  end.

Fixpoint matches (r : re) (s : list ascii) : bool :=
  match s with
  | [] => nullable r
  | c :: s' => matches (simp (deriv c r)) s'
  end.

(** The language of a regular expression, as a relation. *)
Inductive lang : re -> list ascii -> Prop :=
| L_eps : lang Eps []
| L_class p c : p c = true -> lang (Class p) [c]
| L_cat r1 r2 s1 s2 : lang r1 s1 -> lang r2 s2 -> lang (Cat r1 r2) (s1 ++ s2)
| L_alt_l r1 r2 s : lang r1 s -> lang (Alt r1 r2) s
| L_alt_r r1 r2 s : lang r2 s -> lang (Alt r1 r2) s
| L_star_nil r : lang (Star r) []
| L_star_cons r s1 s2 : lang r s1 -> lang (Star r) s2 -> lang (Star r) (s1 ++ s2).

(** Derived forms used by the source's patterns. *)
Definition plus (r : re) : re := Cat r (Star r).
Definition opt (r : re) : re := Alt Eps r.
Definition chr (c : ascii) : re := Class (Ascii.eqb c).

(** [RegExp.prototype.test] for a pattern anchored with [^] and [$]. *)
Definition test (r : re) (s : string) : bool :=
  matches r (list_ascii_of_string s).

End Regex.

(** ** Character classes of JavaScript regular expressions *)

Definition in_range (lo hi c : ascii) : bool :=
  (nat_of_ascii lo <=? nat_of_ascii c)%nat && (nat_of_ascii c <=? nat_of_ascii hi)%nat.

Definition is_lower (c : ascii) : bool := in_range "a" "z" c.
Definition is_upper (c : ascii) : bool := in_range "A" "Z" c.
Definition is_digit (c : ascii) : bool := in_range "0" "9" c.

(** [\w] *)
Definition is_word (c : ascii) : bool :=
  is_lower c || is_upper c || is_digit c || Ascii.eqb c "_".

(** [[.-]] *)
Definition is_dot_or_dash (c : ascii) : bool :=
  Ascii.eqb c "." || Ascii.eqb c "-".

(** The [match] pattern of the schema's [email] path:
    [/^\w+([.-]?\w+)*@\w+([.-]?\w+)*(\.\w{2,3})+$/]. *)
Definition email_pattern : Regex.re :=
  let w := Regex.Class is_word in
  let words := Regex.Cat (Regex.plus w)
                 (Regex.Star (Regex.Cat (Regex.opt (Regex.Class is_dot_or_dash)) (Regex.plus w))) in
  let tld := Regex.Cat (Regex.chr ".") (Regex.Cat w (Regex.Cat w (Regex.opt w))) in
  Regex.Cat words (Regex.Cat (Regex.chr "@") (Regex.Cat words (Regex.plus tld))).

(** ** JavaScript strings and values *)

(** Strings are taken to be ASCII. *)
Definition truthy (s : option string) : bool :=
  match s with
  | None => false
  | Some s => negb (String.eqb s "")
  end.

Definition includes (needle : ascii) (s : string) : bool :=
  existsb (Ascii.eqb needle) (list_ascii_of_string s).

Definition lower_ascii (c : ascii) : ascii :=
  if is_upper c then ascii_of_nat (nat_of_ascii c + 32) else c.

Definition toLowerCase (s : string) : string :=
  string_of_list_ascii (map lower_ascii (list_ascii_of_string s)).

Definition is_space (c : ascii) : bool :=
  let n := nat_of_ascii c in
  ((9 <=? n) && (n <=? 13) || (n =? 32) || (n =? 160))%nat.

Fixpoint trimStart (l : list ascii) : list ascii :=
  match l with
  | c :: l' => if is_space c then trimStart l' else l
  | [] => []
  end.

Definition trim (s : string) : string :=
  string_of_list_ascii (rev (trimStart (rev (trimStart (list_ascii_of_string s))))).

(** Template-literal rendering of a number such as [Date.now()]. *)
Definition number_to_string (n : Z) : string :=
  NilZero.string_of_int (Z.to_int n).

#[warnings="-register-all"]
Inductive JsVal : Type :=
| JNull : JsVal
| JBool : bool -> JsVal
| JNum : Z -> JsVal
| JStr : string -> JsVal
| JDate : Z -> JsVal
| JId : nat -> JsVal                 (* an ObjectId *)
| JObj : list (string * JsVal) -> JsVal.

(** A plain object: own enumerable properties. *)
Abbreviation JsObject := (gmap string JsVal).

(** [obj.key = v] when [v] is defined; an undefined value leaves no key in
    the serialized object. *)
Definition set_opt (k : string) (v : option JsVal) (o : JsObject) : JsObject :=
  match v with
  | Some v => <[k := v]> o
  | None => o
  end.

(** ** The user model ([userSchema])

    The paths that no modelled operation reads or writes ([phone],
    [dateOfBirth], [gender], [address], the notification flags and the
    schema timestamps) keep their defaults and are left out.  An [option]
    field is [None] when the path is [null] or [undefined]. *)

Record GuestData : Type := mkGuestData {
  gd_currency : option string;
  gd_theme : option string
}.

(** The argument of [createGuestUser], [req.body.guestData]: absent, [null]
    or an object.  The default parameter stands in for an absent argument
    only. *)
Inductive GuestArg : Type :=
| GuestUndefined : GuestArg
| GuestNull : GuestArg
| GuestObject : GuestData -> GuestArg.

Record User : Type := mkUser {
  _id : nat;
  name : option string;
  email : string;
  password : option string;
  avatar : option string;
  isEmailVerified : bool;
  emailVerificationToken : option string;
  emailVerificationExpires : option Z;
  passwordResetToken : option string;
  passwordResetExpires : option Z;
  googleId : option string;
  facebookId : option string;
  currency : string;
  theme : string;
  language : string;
  lastLogin : Z;
  loginAttempts : Z;
  lockUntil : option Z;
  isActive : bool;
  isGuest : bool;
  guestData : option GuestData
}.

(** Field updates ([user.path = value]). *)
Definition set_password (v : option string) (u : User) : User :=
  mkUser (_id u) (name u) (email u) v (avatar u) (isEmailVerified u)
    (emailVerificationToken u) (emailVerificationExpires u)
    (passwordResetToken u) (passwordResetExpires u) (googleId u) (facebookId u)
    (currency u) (theme u) (language u) (lastLogin u) (loginAttempts u)
    (lockUntil u) (isActive u) (isGuest u) (guestData u).

Definition set_avatar (v : option string) (u : User) : User :=
  mkUser (_id u) (name u) (email u) (password u) v (isEmailVerified u)
    (emailVerificationToken u) (emailVerificationExpires u)
    (passwordResetToken u) (passwordResetExpires u) (googleId u) (facebookId u)
    (currency u) (theme u) (language u) (lastLogin u) (loginAttempts u)
    (lockUntil u) (isActive u) (isGuest u) (guestData u).

Definition set_isEmailVerified (v : bool) (u : User) : User :=
  mkUser (_id u) (name u) (email u) (password u) (avatar u) v
    (emailVerificationToken u) (emailVerificationExpires u)
    (passwordResetToken u) (passwordResetExpires u) (googleId u) (facebookId u)
    (currency u) (theme u) (language u) (lastLogin u) (loginAttempts u)
    (lockUntil u) (isActive u) (isGuest u) (guestData u).

Definition set_emailVerification (tok : option string) (exp : option Z) (u : User) : User :=
  mkUser (_id u) (name u) (email u) (password u) (avatar u) (isEmailVerified u)
    tok exp
    (passwordResetToken u) (passwordResetExpires u) (googleId u) (facebookId u)
    (currency u) (theme u) (language u) (lastLogin u) (loginAttempts u)
    (lockUntil u) (isActive u) (isGuest u) (guestData u).

Definition set_passwordReset (tok : option string) (exp : option Z) (u : User) : User :=
  mkUser (_id u) (name u) (email u) (password u) (avatar u) (isEmailVerified u)
    (emailVerificationToken u) (emailVerificationExpires u)
    tok exp (googleId u) (facebookId u)
    (currency u) (theme u) (language u) (lastLogin u) (loginAttempts u)
    (lockUntil u) (isActive u) (isGuest u) (guestData u).

Definition set_googleId (v : option string) (u : User) : User :=
  mkUser (_id u) (name u) (email u) (password u) (avatar u) (isEmailVerified u)
    (emailVerificationToken u) (emailVerificationExpires u)
    (passwordResetToken u) (passwordResetExpires u) v (facebookId u)
    (currency u) (theme u) (language u) (lastLogin u) (loginAttempts u)
    (lockUntil u) (isActive u) (isGuest u) (guestData u).

Definition set_facebookId (v : option string) (u : User) : User :=
  mkUser (_id u) (name u) (email u) (password u) (avatar u) (isEmailVerified u)
    (emailVerificationToken u) (emailVerificationExpires u)
    (passwordResetToken u) (passwordResetExpires u) (googleId u) v
    (currency u) (theme u) (language u) (lastLogin u) (loginAttempts u)
    (lockUntil u) (isActive u) (isGuest u) (guestData u).

Definition set_lastLogin (v : Z) (u : User) : User :=
  mkUser (_id u) (name u) (email u) (password u) (avatar u) (isEmailVerified u)
    (emailVerificationToken u) (emailVerificationExpires u)
    (passwordResetToken u) (passwordResetExpires u) (googleId u) (facebookId u)
    (currency u) (theme u) (language u) v (loginAttempts u)
    (lockUntil u) (isActive u) (isGuest u) (guestData u).

Definition set_lockout (attempts : Z) (until : option Z) (u : User) : User :=
  mkUser (_id u) (name u) (email u) (password u) (avatar u) (isEmailVerified u)
    (emailVerificationToken u) (emailVerificationExpires u)
    (passwordResetToken u) (passwordResetExpires u) (googleId u) (facebookId u)
    (currency u) (theme u) (language u) (lastLogin u) attempts
    until (isActive u) (isGuest u) (guestData u).

(** The virtual [isLocked]: [!!(this.lockUntil && this.lockUntil > Date.now())]. *)
Definition isLocked (now : Z) (u : User) : bool :=
  match lockUntil u with
  | Some t => now <? t
  | None => false
  end.

(** ** Schema validation

    The validators declared in the schema, run by [save()] and [create()]
    unless the caller passes [validateBeforeSave: false].  Each failure is
    a pair of the path and the schema's message. *)

Definition one_of (allowed : list string) (s : string) : bool :=
  existsb (String.eqb s) allowed.

Definition enum_error (path : string) (allowed : list string) (v : string)
  : list (string * string) :=
  if one_of allowed v then []
  else [(path, "`" ++ v ++ "` is not a valid enum value for path `" ++ path ++ "`.")].

Definition validation_errors (u : User) : list (string * string) :=
  (match name u with
   | None => [("name", "Name is required")]
   | Some n =>
       if String.eqb n "" then [("name", "Name is required")]
       else if (100 <? String.length n)%nat
            then [("name", "Name cannot exceed 100 characters")]
            else []
   end)
  ++ (if String.eqb (email u) "" then [("email", "Email is required")]
      else if Regex.test email_pattern (email u) then []
           else [("email", "Please enter a valid email")])
  ++ (match password u with
      | Some p =>
          if (String.length p <? 8)%nat
          then [("password", "Password must be at least 8 characters")]
          else []
      | None => []
      end)
  ++ enum_error "preferences.currency"
       ["USD"; "INR"; "EUR"; "GBP"; "JPY"; "CAD"; "AUD"] (currency u)
  ++ enum_error "preferences.theme" ["light"; "dark"; "auto"] (theme u)
  ++ enum_error "preferences.language" ["en"; "hi"; "es"; "fr"; "de"] (language u).

(** ** Errors *)

Inductive Error : Type :=
| ValidationFailed : list (string * string) -> Error   (* mongoose ValidationError *)
| DuplicateKey : string -> Error                       (* E11000 on a unique index *)
| TypeError : string -> Error
| PlainError : string -> Error.                        (* [new Error(message)] *)

Fixpoint join_errors (l : list (string * string)) : string :=
  match l with
  | [] => ""
  | [(p, m)] => p ++ ": " ++ m
  | (p, m) :: l' => p ++ ": " ++ m ++ ", " ++ join_errors l'
  end.

Definition error_message (e : Error) : string :=
  match e with
  | ValidationFailed l => "User validation failed: " ++ join_errors l
  | DuplicateKey f => "E11000 duplicate key error: " ++ f
  | TypeError m => m
  | PlainError m => m
  end.

Inductive JwtKind : Type := AccessToken | RefreshToken.

(** The claims of a token: [{ userId, email, isGuest }]. *)
Record Payload : Type := mkPayload {
  userId : option JsVal;
  payload_email : option JsVal;
  payload_isGuest : bool
}.

(** ** Requests, responses and external collaborators *)

(** The JSON body of a response; [data.user] and [data.tokens] are
    flattened into [user] and [tokens]. *)
Record Body : Type := mkBody {
  status : string;
  message : option string;
  error : option string;
  errors : list (string * string);       (* [errors.array()] of the validators *)
  user : option JsObject;
  tokens : option (string * string)
}.

Record Response : Type := mkResponse {
  statusCode : Z;
  body : Body
}.

Definition json_error (code : Z) (msg : string) : Response :=
  mkResponse code (mkBody "error" (Some msg) None [] None None).

Definition json_validation_failed (errs : list (string * string)) : Response :=
  mkResponse 400 (mkBody "error" (Some "Validation failed") None errs None None).

(** The argument of [sanitizeUser] and [generateTokens]: a Mongoose
    document or a plain object. *)
Inductive UserArg : Type :=
| Document : User -> UserArg
| PlainObject : JsObject -> UserArg.

(** The options passed to [sendEmail]. *)
Record MailOptions : Type := mkMailOptions {
  mail_email : string;
  mail_subject : string;
  mail_template : string;
  mail_name : option string;
  mail_resetURL : string
}.

(** What the route module's name [sendEmail] is bound to.  The result of a
    function tells whether the promise it returns resolves. *)
Inductive Binding : Type :=
| Function : (MailOptions -> bool) -> Binding
| ModuleExports : (MailOptions -> bool) -> Binding.
    (* the object [{ sendEmail, testEmailConfig, emailTemplates }] *)

(** [const sendEmail = require('../utils/email');] in the route module:
    the name is bound to the module's exports object. *)
Definition require_utils_email (mailer : MailOptions -> bool) : Binding :=
  ModuleExports mailer.

(** [await sendEmail(options)]. *)
Definition call_sendEmail (sendEmail : Binding) (o : MailOptions) : Error + unit :=
  match sendEmail with
  | Function f => if f o then inr tt else inl (PlainError "Email sending failed")
  | ModuleExports _ => inl (TypeError "sendEmail is not a function")
  end.

(** The result of [jwt.verify]. *)
Inductive Verified : Type :=
| Claims : Payload -> Verified
| JsonWebTokenError : Verified
| TokenExpiredError : Verified.

(** A Passport profile. *)
Record Profile : Type := mkProfile {
  profile_id : string;
  displayName : option string;
  givenName : option string;
  familyName : option string;
  emails : option (list string);            (* [profile.emails[i].value] *)
  photos : option (list (option string))    (* [profile.photos[i].value] *)
}.

(** ** Library functions and configuration *)



Record Libs : Type := mkLibs {
  bcrypt_hash : string -> string;
  bcrypt_compare : string -> string -> bool;     (* candidate, stored hash *)
  sha256_hex : string -> string;
  jwt_sign : JwtKind -> Payload -> string;
  jwt_verify : string -> Verified;               (* with JWT_SECRET *)
  isEmail : string -> bool;                      (* express-validator *)
  normalizeEmail : string -> string;             (* express-validator *)
  development : bool;                            (* NODE_ENV === 'development' *)
  FRONTEND_URL : string
}.

(** ** The collection *)

Record Db : Type := mkDb {
  docs : list User;
  nextId : nat          (* the ObjectId the next [new User] receives *)
}.

(** Queries leave out [password] ([select: false]) unless the caller adds
    [.select('+password')]. *)
Definition findOne (q : User -> bool) (db : Db) : option User :=
  set_password None <$> find q (docs db).

Definition findOne_with_password (q : User -> bool) (db : Db) : option User :=
  find q (docs db).

(** The schema's setters: [trim] on [name], [lowercase] and [trim] on
    [email]. *)
Definition name_setter (n : option string) : option string := trim <$> n.
Definition email_setter (e : string) : string := trim (toLowerCase e).

(** The query [{ email: e }]; a query value is cast with the setters of its
    path. *)
Definition by_email (e : string) (u : User) : bool :=
  String.eqb (email u) (email_setter e).

Definition same_email (e : string) (u : User) : bool := String.eqb (email u) e.

Definition opt_is (v : string) (o : option string) : bool :=
  match o with
  | Some s => String.eqb s v
  | None => false
  end.

(** [doc.updateOne(update)]: the update is applied to the stored document
    with the document's [_id]; the document in memory is not changed. *)
Definition updateOne (id : nat) (f : User -> User) (db : Db) : Db :=
  mkDb (map (fun d => if Nat.eqb (_id d) id then f d else d) (docs db)) (nextId db).

(** [save()] writes the modified paths only: a path whose value in memory
    still is the loaded one keeps its stored value. *)
Definition pick {A : Type} `{EqDecision A} (loaded doc cur : A) : A :=
  if decide (loaded = doc) then cur else doc.

Definition write_modified (loaded doc cur : User) : User :=
  mkUser (_id cur)
    (pick (name loaded) (name doc) (name cur))
    (pick (email loaded) (email doc) (email cur))
    (pick (password loaded) (password doc) (password cur))
    (pick (avatar loaded) (avatar doc) (avatar cur))
    (pick (isEmailVerified loaded) (isEmailVerified doc) (isEmailVerified cur))
    (pick (emailVerificationToken loaded) (emailVerificationToken doc) (emailVerificationToken cur))
    (pick (emailVerificationExpires loaded) (emailVerificationExpires doc) (emailVerificationExpires cur))
    (pick (passwordResetToken loaded) (passwordResetToken doc) (passwordResetToken cur))
    (pick (passwordResetExpires loaded) (passwordResetExpires doc) (passwordResetExpires cur))
    (pick (googleId loaded) (googleId doc) (googleId cur))
    (pick (facebookId loaded) (facebookId doc) (facebookId cur))
    (pick (currency loaded) (currency doc) (currency cur))
    (pick (theme loaded) (theme doc) (theme cur))
    (pick (language loaded) (language doc) (language cur))
    (pick (lastLogin loaded) (lastLogin doc) (lastLogin cur))
    (pick (loginAttempts loaded) (loginAttempts doc) (loginAttempts cur))
    (pick (lockUntil loaded) (lockUntil doc) (lockUntil cur))
    (pick (isActive loaded) (isActive doc) (isActive cur))
    (pick (isGuest loaded) (isGuest doc) (isGuest cur))
    (guestData cur).

Section Model.

Variable L : Libs.

(** The two [pre('save')] hooks: hash a modified password; clear the
    reset token of an existing document whose password changed; clear the
    verification token once the email is verified. *)
Definition pre_save (isNew password_modified verified_modified : bool) (doc : User)
  : Error + User :=
  let hashed :=
    if password_modified then
      match password doc with
      | Some p => inr (set_password (Some (bcrypt_hash L p)) doc)
      | None => inl (PlainError "Illegal arguments: undefined, number")
      end
    else inr doc in
  match hashed with
  | inl e => inl e
  | inr d1 =>
      let d2 := if password_modified && negb isNew
                then set_passwordReset None None d1 else d1 in
      let d3 := if verified_modified && isEmailVerified d2
                then set_emailVerification None None d2 else d2 in
      inr d3
  end.

(** [doc.save(options)] on a document loaded as [loaded] and since
    changed in memory to [doc].  Returns the collection and the document
    in memory after the hooks. *)
Definition save (validateBeforeSave : bool) (loaded doc : User) (db : Db)
  : Error + (Db * User) :=
  match (if validateBeforeSave then validation_errors doc else []) with
  | (_ :: _) as errs => inl (ValidationFailed errs)
  | [] =>
      match pre_save false
              (negb (bool_decide (password loaded = password doc)))
              (negb (bool_decide (isEmailVerified loaded = isEmailVerified doc)))
              doc with
      | inl e => inl e
      | inr doc' => inr (updateOne (_id doc') (write_modified loaded doc') db, doc')
      end
  end.

(** [save()] of a document made by [new User(...)], and [User.create]:
    validation, hooks, then the insert, which the unique index on [email]
    refuses when the email is already stored. *)
Definition insert (doc : User) (db : Db) : Error + (Db * User) :=
  match validation_errors doc with
  | (_ :: _) as errs => inl (ValidationFailed errs)
  | [] =>
      match pre_save true (bool_decide (is_Some (password doc))) true doc with
      | inl e => inl e
      | inr doc' =>
          if existsb (same_email (email doc')) (docs db)
          then inl (DuplicateKey "email")
          else inr (mkDb (docs db ++ [doc']) (S (nextId db)), doc')
      end
  end.


(** *** Instance and static methods of the model *)

(** [comparePassword]: [false] without a stored password, else
    [bcrypt.compare]. *)
Definition comparePassword (u : User) (candidatePassword : string) : bool :=
  if truthy (password u) then
    match password u with
    | Some h => bcrypt_compare L candidatePassword h
    | None => false
    end
  else false.

(** [createPasswordResetToken]; [resetToken] is the hex string of
    [crypto.randomBytes(32)]. *)
Definition createPasswordResetToken (resetToken : string) (now : Z) (u : User)
  : User * string :=
  (set_passwordReset (Some (sha256_hex L resetToken)) (Some (now + 10 * 60 * 1000)) u,
   resetToken).

(** [incLoginAttempts].  The conditions read the document in memory; the
    update acts on the stored document. *)
Definition incLoginAttempts (now : Z) (u : User) (db : Db) : Db :=
  if match lockUntil u with Some t => t <? now | None => false end
  then updateOne (_id u) (set_lockout 1 None) db
  else
    let lock := (5 <=? loginAttempts u + 1) && negb (isLocked now u) in
    updateOne (_id u)
      (fun d => set_lockout (loginAttempts d + 1)
                  (if lock then Some (now + 2 * 60 * 60 * 1000) else lockUntil d) d)
      db.

(** [resetLoginAttempts]: both paths are unset; an absent [loginAttempts]
    reads back as its default [0]. *)
Definition resetLoginAttempts (u : User) (db : Db) : Db :=
  updateOne (_id u) (set_lockout 0 None) db.

Definition InvalidCredentials : Error := PlainError "Invalid credentials".
Definition AccountLocked : Error :=
  PlainError "Account is temporarily locked due to too many failed login attempts".
Definition AccountDeactivated : Error := PlainError "Account is deactivated".

(** [findByCredentials(identifier, password)]. *)
Definition findByCredentials (identifier : string) (pw : option string)
           (now : Z) (db : Db) : Db * (Error + User) :=
  let found :=
    if includes "@" identifier
    then findOne_with_password (by_email identifier) db
    else findOne_with_password
           (fun u => opt_is identifier (googleId u) || opt_is identifier (facebookId u)) db in
  match found with
  | None => (db, inl InvalidCredentials)
  | Some u =>
      if isLocked now u then (db, inl AccountLocked)
      else if negb (isActive u) then (db, inl AccountDeactivated)
      else if truthy pw && negb (comparePassword u (default "" pw))
      then (incLoginAttempts now u db, inl InvalidCredentials)
      else
        let db1 := if 0 <? loginAttempts u then resetLoginAttempts u db else db in
        match save false u (set_lastLogin now u) db1 with
        | inl e => (db1, inl e)
        | inr (db2, u') => (db2, inr u')
        end
  end.

(** [a || b] on strings. *)
Definition or_else (a : option string) (b : string) : string :=
  if truthy a then default b a else b.

Definition guest_email (now : Z) : string :=
  "guest_" ++ number_to_string now ++ "@expensetracker.local".

(** The parameter [guestData = {}]: [null] is passed on as it is. *)
Definition guest_parameter (guestData : GuestArg) : option GuestData :=
  match guestData with
  | GuestUndefined => Some (mkGuestData None None)
  | GuestNull => None
  | GuestObject gd => Some gd
  end.

(** [createGuestUser(guestData = {})].  Reading [guestData.currency] of
    [null] throws before the model is called. *)
Definition createGuestUser (guestData : GuestArg) (now : Z) (db : Db)
  : Error + (Db * User) :=
  match guest_parameter guestData with
  | None => inl (TypeError "Cannot read properties of null (reading 'currency')")
  | Some gd =>
      insert
        (mkUser (nextId db)
           (name_setter (Some "Guest User"))
           (email_setter (guest_email now))
           None None
           true                               (* isEmailVerified *)
           None None None None None None
           (or_else (gd_currency gd) "INR")
           (or_else (gd_theme gd) "light")
           "en"
           now 0 None true
           true                               (* isGuest *)
           (Some gd))
        db
  end.

(** *** The authentication middleware *)

Definition opt_str (o : option string) : JsVal :=
  match o with Some s => JStr s | None => JNull end.

Definition opt_date (o : option Z) : JsVal :=
  match o with Some t => JDate t | None => JNull end.

(** [doc.toObject()] with [virtuals: true]. *)
Definition toObject (now : Z) (u : User) : JsObject :=
  set_opt "name" (JStr <$> name u)
    (set_opt "password" (JStr <$> password u)
       (list_to_map
          [("_id", JId (_id u));
           ("id", JId (_id u));
           ("email", JStr (email u));
           ("avatar", opt_str (avatar u));
           ("isEmailVerified", JBool (isEmailVerified u));
           ("emailVerificationToken", opt_str (emailVerificationToken u));
           ("emailVerificationExpires", opt_date (emailVerificationExpires u));
           ("passwordResetToken", opt_str (passwordResetToken u));
           ("passwordResetExpires", opt_date (passwordResetExpires u));
           ("googleId", opt_str (googleId u));
           ("facebookId", opt_str (facebookId u));
           ("preferences",
             JObj [("currency", JStr (currency u)); ("theme", JStr (theme u));
                   ("language", JStr (language u))]);
           ("lastLogin", JDate (lastLogin u));
           ("loginAttempts", JNum (loginAttempts u));
           ("lockUntil", opt_date (lockUntil u));
           ("isActive", JBool (isActive u));
           ("isGuest", JBool (isGuest u));
           ("guestData",
             match guestData u with
             | Some gd => JObj [("currency", opt_str (gd_currency gd));
                                ("theme", opt_str (gd_theme gd))]
             | None => JNull
             end);
           ("isLocked", JBool (isLocked now u))])).

(** [sanitizeUser]. *)
Definition sanitizeUser (now : Z) (user : UserArg) : JsObject :=
  let userObj :=
    match user with
    | Document u => toObject now u
    | PlainObject o => o
    end in
  delete "lockUntil"
    (delete "loginAttempts"
       (delete "emailVerificationExpires"
          (delete "emailVerificationToken"
             (delete "passwordResetExpires"
                (delete "passwordResetToken"
                   (delete "password" userObj)))))).

Definition js_truthy (v : option JsVal) : bool :=
  match v with
  | None | Some JNull | Some (JBool false) => false
  | Some (JNum n) => negb (n =? 0)
  | Some (JStr s) => negb (String.eqb s "")
  | Some _ => true
  end.

(** [generateTokens]. *)
Definition generateTokens (user : UserArg) : string * string :=
  let payload :=
    match user with
    | Document u => mkPayload (Some (JId (_id u))) (Some (JStr (email u))) (isGuest u)
    | PlainObject o => mkPayload (o !! "_id") (o !! "email") (js_truthy (o !! "isGuest"))
    end in
  (jwt_sign L AccessToken payload, jwt_sign L RefreshToken payload).

Definition json_success (code : Z) (msg : option string) (now : Z) (user : UserArg)
           (toks : option (string * string)) : Response :=
  mkResponse code (mkBody "success" msg None [] (Some (sanitizeUser now user)) toks).

(** [authHeader && authHeader.split(' ')[1]]. *)
Fixpoint split_on (sep : ascii) (l : list ascii) : list (list ascii) :=
  match l with
  | [] => [[]]
  | c :: l' =>
      if Ascii.eqb c sep then [] :: split_on sep l'
      else match split_on sep l' with
           | w :: ws => (c :: w) :: ws
           | [] => [[c]]
           end
  end.

Definition bearer_token (authorization : option string) : option string :=
  match authorization with
  | None => None
  | Some h =>
      if String.eqb h "" then None
      else string_of_list_ascii <$> nth_error (split_on " " (list_ascii_of_string h)) 1
  end.

(** [authenticateToken]: a response, or the user attached to the request. *)
Definition authenticateToken (authorization : option string) (db : Db)
  : Response + User :=
  if negb (truthy (bearer_token authorization))
  then inl (json_error 401 "Access token required")
  else
    match jwt_verify L (default "" (bearer_token authorization)) with
    | JsonWebTokenError => inl (json_error 401 "Invalid token")
    | TokenExpiredError => inl (json_error 401 "Token expired")
    | Claims decoded =>
        match userId decoded with
        | Some (JId id) =>
            match findOne (fun u => Nat.eqb (_id u) id) db with
            | None => inl (json_error 401 "Invalid token - user not found")
            | Some u =>
                if negb (isActive u) then inl (json_error 401 "Account is deactivated")
                else inr u
            end
        | None | Some JNull =>            (* [findById] of undefined or null finds nothing *)
            inl (json_error 401 "Invalid token - user not found")
        | Some _ => inl (json_error 500 "Authentication error")   (* CastError *)
        end
    end.

(** *** The routes *)

(** The [error] member of a 500 body. *)
Definition error_detail (e : Error) : option string :=
  Some (if development L then error_message e else "Internal server error").

(** [POST /register].  The handler does not use the model. *)
Definition register_handler (name email password : option string) (now : Z) (db : Db)
  : Db * Response :=
  if negb (truthy name) || negb (truthy email) || negb (truthy password)
  then (db, json_error 400 "Name, email, and password are required")
  else
    let demoUser : JsObject :=
      list_to_map
        [("_id", JStr ("demo_" ++ number_to_string now));
         ("name", opt_str name);
         ("email", opt_str email);
         ("isEmailVerified", JBool true);
         ("isActive", JBool true);
         ("createdAt", JDate now)] in
    (db, json_success 201
           (Some "Demo account created successfully! (MongoDB not connected)")
           now (PlainObject demoUser) (Some (generateTokens (PlainObject demoUser)))).

(** [email.split('@')[0]]. *)
Definition before_at (e : string) : string :=
  string_of_list_ascii (default [] (head (split_on "@" (list_ascii_of_string e)))).

(** The validation chains of [POST /login]. *)
Definition login_validation (email password : option string) : list (string * string) :=
  (if isEmail L (default "" email) then [] else [("email", "Please provide a valid email")])
  ++ (if truthy password then [] else [("password", "Password is required")]).

(** [POST /login]; [connected] is [mongoose.connection.readyState]. *)
Definition login_handler (connected : bool) (email password : option string)
           (now : Z) (db : Db) : Db * Response :=
  match login_validation email password with
  | (_ :: _) as errs => (db, json_validation_failed errs)
  | [] =>
      let body_email := normalizeEmail L (default "" email) in
      if negb connected then
        let demoUser : JsObject :=
          list_to_map
            [("_id", JStr ("demo_" ++ number_to_string now));
             ("name", JStr (before_at body_email));
             ("email", JStr body_email);
             ("isEmailVerified", JBool true);
             ("isActive", JBool true);
             ("createdAt", JDate now)] in
        (db, json_success 200 (Some "Demo login successful! (MongoDB not connected)")
               now (PlainObject demoUser) (Some (generateTokens (PlainObject demoUser))))
      else
        match findByCredentials body_email password now db with
        | (db', inr u) =>
            (db', json_success 200 (Some "Login successful") now (Document u)
                    (Some (generateTokens (Document u))))
        | (db', inl e) =>
            (db', json_error 401
                    (if String.eqb (error_message e) "" then "Login failed"
                     else error_message e))
        end
  end.

(** [POST /guest]. *)
Definition guest_handler (guestData : GuestArg) (now : Z) (db : Db)
  : Db * Response :=
  match createGuestUser guestData now db with
  | inr (db', u) =>
      (db', json_success 201 (Some "Guest access granted") now (Document u)
              (Some (generateTokens (Document u))))
  | inl e =>
      (db, mkResponse 500
             (mkBody "error" (Some "Guest access failed") (error_detail e) [] None None))
  end.

Definition reset_message : string :=
  "If an account with that email exists, a password reset link has been sent.".

Definition json_message (code : Z) (st msg : string) : Response :=
  mkResponse code (mkBody st (Some msg) None [] None None).

(** The options of the reset email. *)
Definition reset_mail (u : User) (resetToken : string) : MailOptions :=
  let resetURL := FRONTEND_URL L ++ "/reset-password?token=" ++ resetToken in
  mkMailOptions (email u) "Reset your ExpenseTracker Pro password"
    "passwordReset" (name u) resetURL.

(** [POST /forgot-password]; [sendEmail] is the route module's binding of
    that name, [resetToken] the random token drawn for this request. *)
Definition forgot_password_handler (sendEmail : Binding) (req_email : option string)
           (resetToken : string) (now : Z) (db : Db) : Db * Response :=
  if negb (isEmail L (default "" req_email))
  then (db, json_validation_failed [("email", "Please provide a valid email")])
  else
    let body_email := normalizeEmail L (default "" req_email) in
    match findOne (by_email body_email) db with
    | None => (db, json_message 200 "success" reset_message)
    | Some loaded =>
        let '(user1, resetToken) := createPasswordResetToken resetToken now loaded in
        match save false loaded user1 db with
        | inl _ => (db, json_error 500 "Password reset request failed")
        | inr (db1, user1) =>
            match call_sendEmail sendEmail (reset_mail user1 resetToken) with
            | inr _ => (db1, json_message 200 "success" reset_message)
            | inl _ =>
                let user2 := set_passwordReset None None user1 in
                match save false user1 user2 db1 with
                | inl _ => (db1, json_error 500 "Password reset request failed")
                | inr (db2, _) =>
                    (db2, json_error 500 "Failed to send password reset email")
                end
            end
        end
    end.

(** [.] of a JavaScript pattern: any character but a line terminator. *)
Definition is_line_terminator (c : ascii) : bool :=
  (nat_of_ascii c =? 10)%nat || (nat_of_ascii c =? 13)%nat.

Fixpoint first_line (l : list ascii) : list ascii :=
  match l with
  | [] => []
  | c :: l' => if is_line_terminator c then [] else c :: first_line l'
  end.

(** [[@$!%*?&]] *)
Definition is_special (c : ascii) : bool :=
  existsb (Ascii.eqb c) (list_ascii_of_string "@$!%*?&").

(** [/^(?=.*[a-z])(?=.*[A-Z])(?=.*\d)(?=.*[@$!%*?&])[A-Za-z\d@$!%*?&]/]:
    each look-ahead asks for a character of its class on the first line,
    and the first character is of the last class. *)
Definition strong_password (p : string) : bool :=
  let l := list_ascii_of_string p in
  let line := first_line l in
  existsb is_lower line && existsb is_upper line && existsb is_digit line
  && existsb is_special line
  && match l with
     | c :: _ => is_lower c || is_upper c || is_digit c || is_special c
     | [] => false
     end.

(** The validation chains of [POST /reset-password]. *)
Definition reset_validation (token password : option string) : list (string * string) :=
  let p := default "" password in
  (if truthy token then [] else [("token", "Reset token is required")])
  ++ (if (String.length p <? 8)%nat
      then [("password", "Password must be at least 8 characters")] else [])
  ++ (if strong_password p then []
      else [("password",
             "Password must contain uppercase, lowercase, number, and special character")]).

(** The query of [POST /reset-password]:
    [{ passwordResetToken: hashedToken, passwordResetExpires: { $gt: Date.now() } }]. *)
Definition reset_query (hashedToken : string) (now : Z) (u : User) : bool :=
  opt_is hashedToken (passwordResetToken u)
  && match passwordResetExpires u with
     | Some t => now <? t
     | None => false
     end.

(** [POST /reset-password]. *)
Definition reset_password_handler (token password : option string) (now : Z) (db : Db)
  : Db * Response :=
  match reset_validation token password with
  | (_ :: _) as errs => (db, json_validation_failed errs)
  | [] =>
      let hashedToken := sha256_hex L (default "" token) in
      match findOne (reset_query hashedToken now) db with
      | None => (db, json_error 400 "Invalid or expired reset token")
      | Some loaded =>
          let user1 := set_passwordReset None None (set_password password loaded) in
          match save true loaded user1 db with
          | inl _ => (db, json_error 500 "Password reset failed")
          | inr (db', user2) =>
              (db', json_success 200 (Some "Password reset successfully") now
                      (Document user2) (Some (generateTokens (Document user2))))
          end
      end
  end.

(** [GET /me], after [authenticateToken]. *)
Definition me_handler (authorization : option string) (now : Z) (db : Db) : Response :=
  match authenticateToken authorization db with
  | inl r => r
  | inr u => json_success 200 None now (Document u) None
  end.

(** *** The Passport strategies *)

(** [profile.photos[0]?.value]: a [TypeError] when [profile.photos] is
    undefined. *)
Definition first_photo (profile : Profile) : Error + option string :=
  match photos profile with
  | None => inl (TypeError "Cannot read properties of undefined (reading '0')")
  | Some l => inr (mjoin (head l))
  end.

(** [user.lastLogin = new Date(); await user.save({ validateBeforeSave: false });
    return done(null, user)]. *)
Definition touch_and_done (loaded doc : User) (now : Z) (db : Db) : Db * (Error + User) :=
  match save false loaded (set_lastLogin now doc) db with
  | inl e => (db, inl e)
  | inr (db', u) => (db', inr u)
  end.

Definition create_and_done (doc : User) (db : Db) : Db * (Error + User) :=
  match insert doc db with
  | inl e => (db, inl e)
  | inr (db', u) => (db', inr u)
  end.

(** [new User({ name, email, googleId, avatar, isEmailVerified: true,
    preferences })] of the Google strategy. *)
Definition google_new_user (profile : Profile) (e : string) (photo : option string)
           (now : Z) (id : nat) : User :=
  mkUser id
    (name_setter (displayName profile))
    (email_setter e)
    None photo
    true                                   (* isEmailVerified *)
    None None None None
    (Some (profile_id profile)) None
    "INR" "light" "en"
    now 0 None true false None.

(** The verify callback of the Google strategy; the result is the pair
    passed to [done]. *)
Definition google_verify (profile : Profile) (now : Z) (db : Db) : Db * (Error + User) :=
  match findOne (fun u => opt_is (profile_id profile) (googleId u)) db with
  | Some u => touch_and_done u u now db
  | None =>
      match emails profile with
      | None => (db, inl (TypeError "Cannot read properties of undefined (reading '0')"))
      | Some [] =>
          (db, inl (TypeError "Cannot read properties of undefined (reading 'value')"))
      | Some (e :: _) =>
          match findOne (by_email e) db with
          | Some u =>
              match first_photo profile with
              | inl err => (db, inl err)
              | inr photo =>
                  touch_and_done u
                    (set_isEmailVerified true
                       (set_avatar (if truthy photo then photo else avatar u)
                          (set_googleId (Some (profile_id profile)) u)))
                    now db
              end
          | None =>
              match first_photo profile with
              | inl err => (db, inl err)
              | inr photo =>
                  create_and_done (google_new_user profile e photo now (nextId db)) db
              end
          end
      end
  end.

Definition or_undefined (o : option string) : string := default "undefined" o.

(** [new User({ ... })] of the Facebook strategy; [profile_email] is the
    profile's first email, if it has one. *)
Definition facebook_new_user (profile : Profile) (profile_email : option string)
           (now : Z) (id : nat) : User :=
  mkUser id
    (name_setter
       (Some (or_else (displayName profile)
                (or_undefined (givenName profile) ++ " "
                 ++ or_undefined (familyName profile)))))
    (email_setter
       (default ("facebook_" ++ profile_id profile ++ "@facebook.local") profile_email))
    None
    (photos profile ≫= (fun l => mjoin (head l)))
    (bool_decide (is_Some profile_email))   (* isEmailVerified *)
    None None None None
    None (Some (profile_id profile))
    "INR" "light" "en"
    now 0 None true false None.

(** The verify callback of the Facebook strategy. *)
Definition facebook_verify (profile : Profile) (now : Z) (db : Db) : Db * (Error + User) :=
  match findOne (fun u => opt_is (profile_id profile) (facebookId u)) db with
  | Some u => touch_and_done u u now db
  | None =>
      let profile_email :=                (* profile.emails && profile.emails[0] *)
        match emails profile with
        | Some (e :: _) => Some e
        | _ => None
        end in
      match profile_email ≫= (fun e => findOne (by_email e) db) with
      | Some u =>
          match first_photo profile with
          | inl err => (db, inl err)
          | inr photo =>
              touch_and_done u
                (set_isEmailVerified true
                   (set_avatar (if truthy photo then photo else avatar u)
                      (set_facebookId (Some (profile_id profile)) u)))
                now db
          end
      | None =>
          create_and_done (facebook_new_user profile profile_email now (nextId db)) db
      end
  end.

End Model.

(** ** A sequence of login calls against one collection *)

(** [findByCredentials] called once per element of [calls], each with its
    password and clock reading; the outcomes are collected in call order. *)
Fixpoint login_calls (L : Libs) (identifier : string) (calls : list (string * Z)) (db : Db)
  : Db * list (Error + User) :=
  match calls with
  | [] => (db, [])
  | (pw, now) :: rest =>
      let '(db1, r) := findByCredentials L identifier (Some pw) now db in
      let '(db2, rs) := login_calls L identifier rest db1 in
      (db2, r :: rs)
  end.

(** A fixture for the library functions, used to run the model. *)
Definition fixture_libs : Libs :=
  mkLibs
    (fun p => "$2a$12$" ++ p)
    (fun candidate h => String.eqb ("$2a$12$" ++ candidate) h)
    (fun t => "sha256:" ++ t)
    (fun k _ => match k with AccessToken => "access.jwt" | RefreshToken => "refresh.jwt" end)
    (fun _ => JsonWebTokenError)
    (includes "@")
    toLowerCase
    false
    "http://localhost:3000".

(** A stored password account. *)
Definition alice : User :=
  mkUser 1 (Some "Alice") "alice@example.com" (Some "$2a$12$Secret#123") None false
    None None None None None None "INR" "light" "en" 0 0 None true false None.

Definition alice_db : Db := mkDb [alice] 2.

(** ** The rest of the middleware, the routes and the user routes *)

Section MoreModel.

Variable L : Libs.

(** [createEmailVerificationToken]; [verificationToken] is the hex string
    of [crypto.randomBytes(32)]. *)
Definition createEmailVerificationToken (verificationToken : string) (now : Z) (u : User)
  : User * string :=
  (set_emailVerification (Some (sha256_hex L verificationToken))
     (Some (now + 24 * 60 * 60 * 1000)) u,
   verificationToken).

(** [optionalAuth]: the user attached to the request, if any; the
    middleware always calls [next()]. *)
Definition optionalAuth (authorization : option string) (db : Db) : option User :=
  if truthy (bearer_token authorization) then
    match jwt_verify L (default "" (bearer_token authorization)) with
    | Claims decoded =>
        match userId decoded with
        | Some (JId id) =>
            match findOne (fun u => Nat.eqb (_id u) id) db with
            | Some u => if isActive u then Some u else None
            | None => None
            end
        | _ => None                       (* not found, or a CastError that is caught *)
        end
    | _ => None
    end
  else None.

(** The capability guards: [None] stands for [next()]. *)
Definition requireGuest (req_user : option User) : option Response :=
  match req_user with
  | Some u => if negb (isGuest u) then Some (json_error 403 "Guest access required") else None
  | None => Some (json_error 403 "Guest access required")
  end.

Definition requireAuth (req_user : option User) : option Response :=
  match req_user with
  | Some u =>
      if isGuest u then Some (json_error 403 "Authenticated user access required") else None
  | None => Some (json_error 403 "Authenticated user access required")
  end.

Definition requireEmailVerification (req_user : option User) : option Response :=
  match req_user with
  | Some u =>
      if negb (isEmailVerified u) then Some (json_error 403 "Email verification required")
      else None
  | None => Some (json_error 403 "Email verification required")
  end.

(** [verifyRefreshToken]; [verify_refresh] is [jwt.verify] with
    [JWT_REFRESH_SECRET]. *)
Definition verifyRefreshToken (verify_refresh : string -> Verified) (token : string)
  : Error + Payload :=
  match verify_refresh token with
  | Claims decoded => inr decoded
  | _ => inl (PlainError "Invalid refresh token")
  end.

(** [POST /refresh]. *)
Definition refresh_handler (verify_refresh : string -> Verified)
           (refreshToken : option string) (db : Db) : Response :=
  if negb (truthy refreshToken) then json_error 401 "Refresh token required"
  else
    match verifyRefreshToken verify_refresh (default "" refreshToken) with
    | inl _ => json_error 401 "Invalid refresh token"
    | inr decoded =>
        match userId decoded with
        | Some (JId id) =>
            match findOne (fun u => Nat.eqb (_id u) id) db with
            | Some u =>
                if negb (isActive u) then json_error 401 "Invalid refresh token"
                else mkResponse 200
                       (mkBody "success" (Some "Token refreshed successfully") None [] None
                          (Some (generateTokens L (Document u))))
            | None => json_error 401 "Invalid refresh token"
            end
        | _ => json_error 401 "Invalid refresh token"
        end
    end.

(** The query of [GET /verify-email]:
    [{ emailVerificationToken: hashedToken, emailVerificationExpires: { $gt: Date.now() } }]. *)
Definition verification_query (hashedToken : string) (now : Z) (u : User) : bool :=
  opt_is hashedToken (emailVerificationToken u)
  && match emailVerificationExpires u with
     | Some t => now <? t
     | None => false
     end.

(** [GET /verify-email]. *)
Definition verify_email_handler (token : option string) (now : Z) (db : Db)
  : Db * Response :=
  if negb (truthy token) then (db, json_error 400 "Verification token required")
  else
    let hashedToken := sha256_hex L (default "" token) in
    match findOne (verification_query hashedToken now) db with
    | None => (db, json_error 400 "Invalid or expired verification token")
    | Some loaded =>
        let user1 := set_emailVerification None None (set_isEmailVerified true loaded) in
        match save L true loaded user1 db with
        | inl _ => (db, json_error 500 "Email verification failed")
        | inr (db', _) => (db', json_message 200 "success" "Email verified successfully")
        end
    end.

(** [POST /logout], after [authenticateToken]. *)
Definition logout_handler (authorization : option string) (db : Db) : Response :=
  match authenticateToken L authorization db with
  | inl r => r
  | inr _ => json_message 200 "success" "Logout successful"
  end.

(** The validation chains of [PUT /users/password]. *)
Definition change_password_validation (currentPassword newPassword confirmPassword : option string)
  : list (string * string) :=
  let p := default "" newPassword in
  (if truthy currentPassword then [] else [("currentPassword", "Current password is required")])
  ++ (if (String.length p <? 8)%nat
      then [("newPassword", "New password must be at least 8 characters")] else [])
  ++ (if strong_password p then []
      else [("newPassword",
             "New password must contain uppercase, lowercase, number, and special character")])
  ++ (if bool_decide (confirmPassword = newPassword) then []
      else [("confirmPassword", "Passwords do not match")]).

(** [user.isActive = false]. *)
Definition set_isActive (v : bool) (u : User) : User :=
  mkUser (_id u) (name u) (email u) (password u) (avatar u) (isEmailVerified u)
    (emailVerificationToken u) (emailVerificationExpires u)
    (passwordResetToken u) (passwordResetExpires u) (googleId u) (facebookId u)
    (currency u) (theme u) (language u) (lastLogin u) (loginAttempts u)
    (lockUntil u) v (isGuest u) (guestData u).

(** [PUT /users/password]; [req_user] is the user attached by
    [authenticateToken]. *)
Definition change_password_handler (req_user : User)
           (currentPassword newPassword confirmPassword : option string) (db : Db)
  : Db * Response :=
  match change_password_validation currentPassword newPassword confirmPassword with
  | (_ :: _) as errs => (db, json_validation_failed errs)
  | [] =>
      match findOne_with_password (fun u => Nat.eqb (_id u) (_id req_user)) db with
      | None => (db, json_error 500 "Failed to change password")     (* TypeError *)
      | Some loaded =>
          if negb (comparePassword L loaded (default "" currentPassword))
          then (db, json_error 400 "Current password is incorrect")
          else
            match save L true loaded (set_password newPassword loaded) db with
            | inl _ => (db, json_error 500 "Failed to change password")
            | inr (db', _) => (db', json_message 200 "success" "Password changed successfully")
            end
      end
  end.

(** [DELETE /users/account]. *)
Definition delete_account_handler (req_user : User) (pw : option string) (db : Db)
  : Db * Response :=
  if negb (truthy pw)
  then (db, json_validation_failed [("password", "Password is required to delete account")])
  else
    match findOne_with_password (fun u => Nat.eqb (_id u) (_id req_user)) db with
    | None => (db, json_error 500 "Failed to delete account")        (* TypeError *)
    | Some loaded =>
        if negb (comparePassword L loaded (default "" pw))
        then (db, json_error 400 "Password is incorrect")
        else
          match save L true loaded (set_isActive false loaded) db with
          | inl _ => (db, json_error 500 "Failed to delete account")
          | inr (db', _) => (db', json_message 200 "success" "Account deactivated successfully")
          end
    end.

(** The validation chains of [POST /users/upgrade-guest]; the name is
    trimmed before its length is checked. *)
Definition upgrade_validation (name email password : option string)
  : list (string * string) :=
  let n := trim (default "" name) in
  let p := default "" password in
  (if (String.length n <? 2)%nat || (100 <? String.length n)%nat
   then [("name", "Name must be between 2 and 100 characters")] else [])
  ++ (if isEmail L (default "" email) then [] else [("email", "Please provide a valid email")])
  ++ (if (String.length p <? 8)%nat
      then [("password", "Password must be at least 8 characters")] else [])
  ++ (if strong_password p then []
      else [("password",
             "Password must contain uppercase, lowercase, number, and special character")]).

(** The update [{ name, email, password, isGuest: false, isEmailVerified: false }],
    cast with the setters of its paths. *)
Definition upgrade_update (n e p : string) (d : User) : User :=
  mkUser (_id d) (name_setter (Some n)) (email_setter e) (Some p) (avatar d) false
    (emailVerificationToken d) (emailVerificationExpires d)
    (passwordResetToken d) (passwordResetExpires d) (googleId d) (facebookId d)
    (currency d) (theme d) (language d) (lastLogin d) (loginAttempts d)
    (lockUntil d) (isActive d) false (guestData d).

(** [runValidators: true]: the validators of the updated paths, on the
    cast values. *)
Definition update_validation_errors (n e p : string) : list (string * string) :=
  (if String.eqb n "" then [("name", "Name is required")]
   else if (100 <? String.length n)%nat
        then [("name", "Name cannot exceed 100 characters")]
        else [])
  ++ (if String.eqb e "" then [("email", "Email is required")]
      else if Regex.test email_pattern e then []
           else [("email", "Please enter a valid email")])
  ++ (if (String.length p <? 8)%nat
      then [("password", "Password must be at least 8 characters")]
      else []).

(** [User.findByIdAndUpdate(id, update, { new: true, runValidators: true })]
    with the update above.  No [save] hook runs; the unique index on
    [email] refuses an email stored under another identifier; the updated
    document is returned, without its password, or [null] when no document
    has the identifier. *)
Definition findByIdAndUpdate (id : nat) (n e p : string) (db : Db)
  : Error + (Db * option User) :=
  match update_validation_errors (trim n) (email_setter e) p with
  | (_ :: _) as errs => inl (ValidationFailed errs)
  | [] =>
      match find (fun d => Nat.eqb (_id d) id) (docs db) with
      | None => inr (db, None)
      | Some _ =>
          if existsb (fun d => same_email (email_setter e) d && negb (Nat.eqb (_id d) id))
               (docs db)
          then inl (DuplicateKey "email")
          else
            let db' := updateOne id (upgrade_update n e p) db in
            inr (db', findOne (fun d => Nat.eqb (_id d) id) db')
      end
  end.

(** [POST /users/upgrade-guest]; [req_user] is the user attached by
    [authenticateToken]. *)
Definition upgrade_guest_handler (req_user : User) (name email password : option string)
           (verificationToken : string) (now : Z) (db : Db) : Db * Response :=
  match upgrade_validation name email password with
  | (_ :: _) as errs => (db, json_validation_failed errs)
  | [] =>
      if negb (isGuest req_user) then (db, json_error 400 "Account is already upgraded")
      else
        let n := trim (default "" name) in
        let e := normalizeEmail L (default "" email) in
        let p := default "" password in
        match findOne (by_email e) db with
        | Some _ => (db, json_error 400 "Email is already registered")
        | None =>
            match findByIdAndUpdate (_id req_user) n e p db with
            | inl _ => (db, json_error 500 "Failed to upgrade account")
            | inr (db1, None) => (db1, json_error 500 "Failed to upgrade account")  (* TypeError *)
            | inr (db1, Some loaded) =>
                let user1 := fst (createEmailVerificationToken verificationToken now loaded) in
                match save L false loaded user1 db1 with
                | inl _ => (db1, json_error 500 "Failed to upgrade account")
                | inr (db2, user2) =>
                    (db2, json_success 200
                            (Some "Account upgraded successfully. Please verify your email.")
                            now (Document user2) None)
                end
            end
        end
  end.

End MoreModel.

(** ** Vocabulary of the properties *)

Definition lock_window : Z := 2 * 60 * 60 * 1000.

(** The query [findByCredentials] runs for an identifier. *)
Definition credentials_query (identifier : string) : User -> bool :=
  if includes "@" identifier
  then by_email identifier
  else fun u => opt_is identifier (googleId u) || opt_is identifier (facebookId u).

Definition locked_message : string :=
  "Account is temporarily locked due to too many failed login attempts".

(** The failure response of [POST /login] for each cause, once the
    request passed the validators and the database is connected. *)
Definition login_outcome (L : Libs) (identifier : string) (pw : option string) (now : Z)
           (db : Db)
           (r : Response) : Prop :=
  match find (credentials_query identifier) (docs db) with
  | None => r = json_error 401 "Invalid credentials"
  | Some u =>
      if isLocked now u then r = json_error 401 locked_message
      else if negb (isActive u) then r = json_error 401 "Account is deactivated"
      else if negb (comparePassword L u (default "" pw))
           then r = json_error 401 "Invalid credentials"
           else statusCode r = 200
  end.

(** The members that must not leave the server: the password hash, and
    the hashes and expiries of the reset and verification tokens. *)
Definition secret_keys : list string :=
  ["password"; "passwordResetToken"; "passwordResetExpires";
   "emailVerificationToken"; "emailVerificationExpires"].

Definition has_no_secret (o : JsObject) : Prop :=
  Forall (fun k => o !! k = None) secret_keys.

(** A response exposes no secret when the user object it carries, if
    any, has none of the secret members. *)
Definition exposes_no_secret (r : Response) : Prop :=
  match user (body r) with
  | Some o => has_no_secret o
  | None => True
  end.

(** The outcome of the third tier for the record [doc]: the account is
    appended to the collection when the record passes the schema and its
    email is not stored yet; a record the schema rejects is not stored
    and the callback reports the validation error. *)
Definition creation_outcome (doc : User) (db : Db) (res : Db * (Error + User)) : Prop :=
  (validation_errors doc = [] ->
   existsb (same_email (email doc)) (docs db) = false ->
   res = (mkDb (docs db ++ [doc]) (S (nextId db)), inr doc))
  /\ (validation_errors doc <> [] ->
      res = (db, inl (ValidationFailed (validation_errors doc)))).

(** What the first two tiers return for the stored account [u]: the same
    account, its [lastLogin] stamped, and no account added. *)
Definition resolves_to (u : User) (now : Z) (db : Db) (res : Db * (Error + User)) : Prop :=
  exists db' u',
    res = (db', inr u')
    /\ _id u' = _id u /\ email u' = email u /\ lastLogin u' = now
    /\ length (docs db') = length (docs db).

(** The first email of a profile, if it has one. *)
Definition first_email (profile : Profile) : option string :=
  match emails profile with
  | Some (e :: _) => Some e
  | _ => None
  end.

(** What the second tier returns when it links the provider identifier
    [id] to the stored account [u] found by the email [e]: the same
    account, now carrying the identifier and verified, in memory and in
    the collection, and no account added. *)
Definition links (provider_id : User -> option string) (id e : string) (u : User)
           (now : Z) (db : Db) (res : Db * (Error + User)) : Prop :=
  exists db' u' stored,
    res = (db', inr u')
    /\ _id u' = _id u /\ provider_id u' = Some id /\ isEmailVerified u' = true
    /\ lastLogin u' = now
    /\ find (by_email e) (docs db') = Some stored
    /\ _id stored = _id u /\ provider_id stored = Some id /\ isEmailVerified stored = true
    /\ length (docs db') = length (docs db).

(** A string ends in a top-level domain of the pattern's shape when its
    last dot is followed by two or three more characters. *)
Definition ends_with_short_tld (s : list ascii) : Prop :=
  exists pre a b rest,
    s = (pre ++ "."%char :: a :: b :: rest)%list /\ (length rest <= 1)%nat.

(** [(\.\w{2,3})] *)
Definition tld_pattern : Regex.re :=
  Regex.Cat (Regex.chr ".")
    (Regex.Cat (Regex.Class is_word)
       (Regex.Cat (Regex.Class is_word) (Regex.opt (Regex.Class is_word)))).

(** ** The validation middleware: [sanitizeInput] *)

(** A request body or query, as parsed JSON.  An object is the list of its
    own enumerable properties, in property order. *)
#[warnings="-register-all"]
Inductive Json : Type :=
| JsonNull : Json
| JsonBool : bool -> Json
| JsonNumber : Z -> Json
| JsonString : string -> Json
| JsonArray : list Json -> Json
| JsonObject : list (string * Json) -> Json.

(** [Object.entries] of an array: its elements under their indices. *)
Fixpoint index_entries (i : nat) (l : list Json) : list (string * Json) :=
  match l with
  | [] => []
  | v :: l' => (number_to_string (Z.of_nat i), v) :: index_entries (S i) l'
  end.

(** [sanitized[key] = value] on an object literal defines an own property,
    except for the key [__proto__]: that assignment goes to the accessor
    of [Object.prototype] and leaves the own properties as they are. *)
Definition defines_own_property (entry : string * Json) : bool :=
  negb (String.eqb (fst entry) "__proto__").

(** The inner function [sanitize]: a string is trimmed; any other
    non-null object, an array included, is rebuilt as a plain object from
    its entries; everything else is returned as it is. *)
Fixpoint sanitize (obj : Json) : Json :=
  match obj with
  | JsonString s => JsonString (trim s)
  | JsonArray l => JsonObject (index_entries 0 (map sanitize l))
  | JsonObject entries =>
      JsonObject
        (List.filter defines_own_property
           (map (fun entry => (fst entry, sanitize (snd entry))) entries))
  | _ => obj
  end.

(** [sanitizeInput]: the body and the query of the request afterwards. *)
Definition sanitizeInput (body query : option Json) : option Json * option Json :=
  (sanitize <$> body, sanitize <$> query).

(** A value without arrays whose strings are all trimmed. *)
Fixpoint is_sanitized (v : Json) : Prop :=
  match v with
  | JsonString s => trim s = s
  | JsonArray _ => False
  | JsonObject entries =>
      (fix all (l : list (string * Json)) : Prop :=
         match l with
         | [] => True
         | entry :: l' => is_sanitized (snd entry) /\ all l'
         end) entries
  | _ => True
  end.

(** The own property [k] of a value: a member of an object, an element of
    an array under its index. *)
Definition own_member (k : string) (v : Json) : option Json :=
  match v with
  | JsonObject entries => snd <$> find (fun entry => String.eqb (fst entry) k) entries
  | JsonArray l => snd <$> find (fun entry => String.eqb (fst entry) k) (index_entries 0 l)
  | _ => None
  end.

(** The value reached from [v] along a path of own properties. *)
Fixpoint json_at (path : list string) (v : Json) : option Json :=
  match path with
  | [] => Some v
  | k :: path' => own_member k v ≫= json_at path'
  end.

(** ** The global error handler *)

(** [err.code]: a number (MongoDB) or a string (multer). *)
Inductive ErrCode : Type :=
| NumberCode : Z -> ErrCode
| StringCode : string -> ErrCode.

(** The members of an error that the handler reads. *)
Record Err : Type := mkErr {
  err_name : option string;
  err_code : option ErrCode;
  err_message : option string;
  err_statusCode : option Z;                  (* an own property, copied by the spread *)
  err_keyValue : option (list string);        (* the keys of [err.keyValue] *)
  err_errors : option (list (option string)); (* [val.message] of each of [err.errors] *)
  err_stack : option string
}.

(** What the handler holds in [error]. *)
Record ErrorView : Type := mkErrorView {
  view_message : option string;
  view_statusCode : option Z
}.

(** [Array.prototype.join(', ')]: an undefined element is rendered empty. *)
Fixpoint join_messages (l : list (option string)) : string :=
  match l with
  | [] => ""
  | [m] => default "" m
  | m :: l' => default "" m ++ ", " ++ join_messages l'
  end.

Definition name_is (n : string) (err : Err) : bool := opt_is n (err_name err).

(** The response of [errorHandler]: status, message and, in development,
    the stack; or the [TypeError] it throws itself. *)
Definition errorHandler (development : bool) (err : Err)
  : Error + (Z * string * option string) :=
  let error0 := mkErrorView (err_message err) (err_statusCode err) in
  let error1 :=
    if name_is "CastError" err
    then mkErrorView (Some "Resource not found") (Some 404) else error0 in
  let error2 : Error + ErrorView :=
    match err_code err with
    | Some (NumberCode 11000) =>
        match err_keyValue err with
        | None => inl (TypeError "Cannot convert undefined or null to object")
        | Some keys =>
            inr (mkErrorView (Some (default "undefined" (head keys) ++ " already exists"))
                   (Some 400))
        end
    | _ => inr error1
    end in
  match error2 with
  | inl e => inl e
  | inr error2 =>
      let error3 : Error + ErrorView :=
        if name_is "ValidationError" err then
          match err_errors err with
          | None => inl (TypeError "Cannot convert undefined or null to object")
          | Some messages => inr (mkErrorView (Some (join_messages messages)) (Some 400))
          end
        else inr error2 in
      match error3 with
      | inl e => inl e
      | inr error3 =>
          let error4 :=
            if name_is "JsonWebTokenError" err
            then mkErrorView (Some "Invalid token") (Some 401) else error3 in
          let error5 :=
            if name_is "TokenExpiredError" err
            then mkErrorView (Some "Token expired") (Some 401) else error4 in
          let error6 :=
            if name_is "TooManyRequestsError" err
            then mkErrorView (Some "Too many requests, please try again later") (Some 429)
            else error5 in
          let error7 :=
            match err_code err with
            | Some (StringCode c) =>
                if String.eqb c "LIMIT_FILE_SIZE"
                then mkErrorView (Some "File too large") (Some 400) else error6
            | _ => error6
            end in
          let statusCode :=
            match view_statusCode error7 with
            | Some c => if c =? 0 then 500 else c
            | None => 500
            end in
          let message := or_else (view_message error7) "Server Error" in
          inr (statusCode, message, if development then err_stack err else None)
      end
  end.

(** The checks the handler makes on [err.code]. *)
Definition is_duplicate_key (err : Err) : bool :=
  match err_code err with
  | Some (NumberCode n) => n =? 11000
  | _ => false
  end.

Definition is_file_too_large (err : Err) : bool :=
  match err_code err with
  | Some (StringCode c) => String.eqb c "LIMIT_FILE_SIZE"
  | _ => false
  end.

(** The names the handler knows: [CastError], and those it checks after
    the duplicate-key code. *)
Definition later_error_names : list string :=
  ["ValidationError"; "JsonWebTokenError"; "TokenExpiredError"; "TooManyRequestsError"].

Definition known_error_names : list string := "CastError" :: later_error_names.

(** The unique index on [email], as a property of the collection. *)
Definition emails_unique (db : Db) : Prop := NoDup (map email (docs db)).

(** ** More fixtures *)

(** The account of [alice], locked until 5000. *)
Definition alice_locked : User := set_lockout 5 (Some 5000) alice.

(** The account of [alice], deactivated. *)
Definition alice_deactivated : User :=
  mkUser 1 (Some "Alice") "alice@example.com" (Some "$2a$12$Secret#123") None false
    None None None None None None "INR" "light" "en" 0 0 None false false None.

(** The account of [alice] with an open reset window for the token
    ["tok"], until 600000. *)
Definition alice_resetting : User :=
  set_passwordReset (Some "sha256:tok") (Some 600000) alice.

(** A second account, known to Google as ["g-42"]. *)
Definition bob : User :=
  mkUser 2 (Some "Bob") "bob@example.com" None None true
    None None None None (Some "g-42") None "INR" "light" "en" 0 0 None true false None.

Definition two_users_db : Db := mkDb [alice; bob] 3.

Definition resetting_db : Db := mkDb [alice_resetting; bob] 3.

(** A Facebook profile without an email. *)
Definition dave_facebook : Profile :=
  mkProfile "fb-7" (Some "Dave") None None None None.

(** A Google profile with the email of [alice]. *)
Definition alice_google : Profile :=
  mkProfile "g-77" (Some "Alice") None None (Some ["alice@example.com"]) (Some []).

(** A Google profile of a new user. *)
Definition erin_google : Profile :=
  mkProfile "g-78" (Some "Erin") None None (Some ["erin@example.com"]) (Some []).

(** Google profiles without a photo list: a new user, and one with the
    email of [alice]. *)
Definition frank_google : Profile :=
  mkProfile "g-80" (Some "Frank") None None (Some ["frank@example.com"]) None.

Definition alice_google_no_photos : Profile :=
  mkProfile "g-81" (Some "Alice") None None (Some ["alice@example.com"]) None.

(** The collection with the locked account of [alice]. *)
Definition locked_db : Db := mkDb [alice_locked] 2.

(** The account of [alice] waiting for the verification token ["vtok"],
    valid until 90000000. *)
Definition alice_verifying : User :=
  set_emailVerification (Some "sha256:vtok") (Some 90000000) alice.

Definition verifying_db : Db := mkDb [alice_verifying; bob] 3.

(** A guest account. *)
Definition gina : User :=
  mkUser 3 (Some "Guest User") "guest@example.com" None None false
    None None None None None None "INR" "light" "en" 0 0 None true true None.

Definition guest_db : Db := mkDb [alice; gina] 4.

(** Library functions whose [jwt.verify] returns the claims of [alice]. *)
Definition alice_session_libs : Libs :=
  mkLibs
    (bcrypt_hash fixture_libs)
    (bcrypt_compare fixture_libs)
    (sha256_hex fixture_libs)
    (jwt_sign fixture_libs)
    (fun _ => Claims (mkPayload (Some (JId 1)) (Some (JStr "alice@example.com")) false))
    (isEmail fixture_libs)
    (normalizeEmail fixture_libs)
    false
    (FRONTEND_URL fixture_libs).

(** A body with padded strings, an array and a [__proto__] member. *)
Definition padded_body : Json :=
  JsonObject
    [("name", JsonString "  Alice ");
     ("tags", JsonArray [JsonString " a"; JsonNumber 2]);
     ("__proto__", JsonObject [("isAdmin", JsonBool true)])].

(** A duplicate-key error without [keyValue], and an error without any
    member but its stack. *)
Definition duplicate_key_error : Err :=
  mkErr (Some "MongoServerError") (Some (NumberCode 11000)) (Some "E11000 duplicate key")
    None None None None.

Definition bare_error : Err := mkErr None None None None None None (Some "at handler").

(** [new Error('boom')]. *)
Definition plain_error : Err :=
  mkErr (Some "Error") None (Some "boom") None None None (Some "at handler").

(** * Properties *)

(** ** The model on small inputs *)

Example email_pattern_accepts : Regex.test email_pattern "john.doe@example.com" = true.
Proof. vm_compute. reflexivity. Qed.

Example email_pattern_rejects_long_tld : Regex.test email_pattern "john@example.info" = false.
Proof. vm_compute. reflexivity. Qed.

Example number_to_string_ex : number_to_string 1700000000000 = "1700000000000".
Proof. vm_compute. reflexivity. Qed.

Section Store.

Lemma pick_same {A : Type} `{EqDecision A} (x c : A) : pick x x c = c.
Proof. unfold pick. destruct (decide (x = x)); [reflexivity | contradiction]. Qed.

Lemma pick_changed {A : Type} `{EqDecision A} (x y c : A) : x <> y -> pick x y c = y.
Proof. intros Hne. unfold pick. destruct (decide (x = y)); [contradiction | reflexivity]. Qed.

(** An update that leaves the query's verdict alone lands on the document
    the query finds. *)
Lemma find_updateOne (q : User -> bool) (f : User -> User) (db : Db) (u : User) :
  (forall d, q (f d) = q d) ->
  find q (docs db) = Some u ->
  find q (docs (updateOne (_id u) f db)) = Some (f u).
Proof.
  intros Hq. destruct db as [ds n]. simpl.
  induction ds as [|d ds IH]; simpl; intros Hfind; [discriminate|].
  destruct (q d) eqn:Hd.
  - injection Hfind as ->. rewrite Nat.eqb_refl. simpl. rewrite Hq, Hd. reflexivity.
  - destruct (Nat.eqb (_id d) (_id u)); simpl.
    + rewrite Hq, Hd. apply IH, Hfind.
    + rewrite Hd. apply IH, Hfind.
Qed.

Lemma find_some_true (q : User -> bool) (l : list User) (u : User) :
  find q l = Some u -> q u = true.
Proof. intros H. apply find_some in H. tauto. Qed.

End Store.

(** ** Lockout *)

Section Lockout.

Variable L : Libs.

(** A wrong password against an active, unlocked account fails with
    "Invalid credentials" and increments the stored counter. *)
Lemma findByCredentials_wrong_password identifier pw now db u :
  includes "@" identifier = true ->
  find (by_email identifier) (docs db) = Some u ->
  isLocked now u = false ->
  isActive u = true ->
  pw <> "" ->
  comparePassword L u pw = false ->
  findByCredentials L identifier (Some pw) now db
  = (incLoginAttempts now u db, inl InvalidCredentials).
Proof.
  intros Hat Hfind Hlock Hact Hpw Hcmp.
  unfold findByCredentials, findOne_with_password.
  rewrite Hat, Hfind, Hlock, Hact. simpl.
  apply String.eqb_neq in Hpw. rewrite Hpw. simpl. rewrite Hcmp. reflexivity.
Qed.

(** On an account without a lock, the k-th consecutive failure stores
    k, and the fifth also stores the lock. *)
Lemma failed_attempt_counts identifier pw now db u :
  includes "@" identifier = true ->
  find (by_email identifier) (docs db) = Some u ->
  lockUntil u = None ->
  isActive u = true ->
  pw <> "" ->
  comparePassword L u pw = false ->
  exists db',
    findByCredentials L identifier (Some pw) now db = (db', inl InvalidCredentials)
    /\ find (by_email identifier) (docs db')
       = Some (set_lockout (loginAttempts u + 1)
                 (if 5 <=? loginAttempts u + 1 then Some (now + lock_window) else None) u).
Proof.
  intros Hat Hfind Hnone Hact Hpw Hcmp.
  assert (Hlock : isLocked now u = false) by (unfold isLocked; rewrite Hnone; reflexivity).
  eexists. split.
  - apply findByCredentials_wrong_password; eassumption.
  - unfold incLoginAttempts. rewrite Hnone, Hlock, andb_true_r.
    erewrite find_updateOne; [| intros d; reflexivity | exact Hfind].
    simpl. rewrite Hnone. reflexivity.
Qed.

(** A locked account rejects every call, whatever the password, and
    nothing is written. *)
Lemma findByCredentials_locked identifier pw now db u :
  includes "@" identifier = true ->
  find (by_email identifier) (docs db) = Some u ->
  isLocked now u = true ->
  findByCredentials L identifier pw now db = (db, inl AccountLocked).
Proof.
  intros Hat Hfind Hlock.
  unfold findByCredentials, findOne_with_password.
  rewrite Hat, Hfind, Hlock. reflexivity.
Qed.

(** What [save] writes when only [lastLogin] was assigned. *)
Lemma save_lastLogin now u db :
  save L false u (set_lastLogin now u) db
  = inr (updateOne (_id u) (write_modified u (set_lastLogin now u)) db,
         set_lastLogin now u).
Proof.
  unfold save, pre_save. simpl.
  rewrite !bool_decide_eq_true_2 by reflexivity. reflexivity.
Qed.

Lemma write_modified_lastLogin now u cur :
  write_modified u (set_lastLogin now u) cur
  = set_lastLogin (pick (lastLogin u) now (lastLogin cur)) cur.
Proof.
  destruct cur. unfold write_modified, set_lastLogin. simpl.
  rewrite !pick_same. reflexivity.
Qed.

Lemma credentials_query_lockout identifier a b d :
  credentials_query identifier (set_lockout a b d) = credentials_query identifier d.
Proof. unfold credentials_query. destruct (includes "@" identifier); reflexivity. Qed.

Lemma credentials_query_lastLogin identifier t d :
  credentials_query identifier (set_lastLogin t d) = credentials_query identifier d.
Proof. unfold credentials_query. destruct (includes "@" identifier); reflexivity. Qed.

(** A call that passes the password check (or skips it) on an active,
    unlocked account returns the account, clears the stored counter and
    lock, and stamps [lastLogin]. *)
Lemma findByCredentials_accepts identifier pw now db u :
  find (credentials_query identifier) (docs db) = Some u ->
  isLocked now u = false ->
  isActive u = true ->
  truthy pw && negb (comparePassword L u (default "" pw)) = false ->
  exists db',
    findByCredentials L identifier pw now db = (db', inr (set_lastLogin now u))
    /\ (0 < loginAttempts u ->
        exists t, find (credentials_query identifier) (docs db')
                  = Some (set_lastLogin t (set_lockout 0 None u)))
    /\ (loginAttempts u <= 0 ->
        exists t, find (credentials_query identifier) (docs db')
                  = Some (set_lastLogin t u)).
Proof.
  intros Hfind Hlock Hact Hpw.
  assert (Hrun : findByCredentials L identifier pw now db
                 = let db1 := if 0 <? loginAttempts u then resetLoginAttempts u db else db in
                   (updateOne (_id u) (write_modified u (set_lastLogin now u)) db1,
                    inr (set_lastLogin now u))).
  { unfold findByCredentials, findOne_with_password, credentials_query in *.
    destruct (includes "@" identifier);
      rewrite Hfind, Hlock, Hact; simpl; rewrite Hpw, save_lastLogin; reflexivity. }
  rewrite Hrun. eexists. split; [reflexivity|].
  assert (Hkeep : forall d, credentials_query identifier
                              (write_modified u (set_lastLogin now u) d)
                            = credentials_query identifier d).
  { intros d. rewrite write_modified_lastLogin. apply credentials_query_lastLogin. }
  split; intros Hn.
  - apply Z.ltb_lt in Hn. rewrite Hn. unfold resetLoginAttempts.
    pose proof (find_updateOne (credentials_query identifier) (set_lockout 0 None) db u
                  (credentials_query_lockout identifier 0 None) Hfind) as Hreset.
    pose proof (find_updateOne (credentials_query identifier)
                  (write_modified u (set_lastLogin now u)) _ (set_lockout 0 None u)
                  Hkeep Hreset) as Hsave.
    change (_id (set_lockout 0 None u)) with (_id u) in Hsave.
    rewrite Hsave, write_modified_lastLogin. eexists. reflexivity.
  - assert (Hn' : (0 <? loginAttempts u) = false) by (apply Z.ltb_ge; exact Hn).
    rewrite Hn'.
    rewrite (find_updateOne (credentials_query identifier) _ db u Hkeep Hfind).
    rewrite write_modified_lastLogin. eexists. reflexivity.
Qed.

Lemma credentials_query_email identifier :
  includes "@" identifier = true -> credentials_query identifier = by_email identifier.
Proof. intros H. unfold credentials_query. rewrite H. reflexivity. Qed.

(** C1.  On an active password account whose failure counter is fresh
    (no failures counted, no lock), five consecutive login calls with the
    right email and a wrong password all fail with "Invalid credentials"
    and the fifth stores the lock timestamp, two hours after it.  A sixth
    call inside that window fails with the account-locked error even with
    the correct password and writes nothing; a call with the correct
    password once the window has elapsed succeeds and leaves the stored
    failure counter at 0 with the lock cleared. *)
Theorem lockout_after_five_failures
        identifier wrong correct (t1 t2 t3 t4 t5 t6 t7 : Z) db u :
  includes "@" identifier = true ->
  find (by_email identifier) (docs db) = Some u ->
  isActive u = true ->
  loginAttempts u = 0 ->
  lockUntil u = None ->
  wrong <> "" ->
  comparePassword L u wrong = false ->
  correct <> "" ->
  comparePassword L u correct = true ->
  t6 < t5 + lock_window ->
  t5 + lock_window <= t7 ->
  exists db5 db7 u7,
    login_calls L identifier
      [(wrong, t1); (wrong, t2); (wrong, t3); (wrong, t4); (wrong, t5)] db
    = (db5, repeat (inl InvalidCredentials) 5)
    /\ lockUntil <$> find (by_email identifier) (docs db5) = Some (Some (t5 + lock_window))
    /\ findByCredentials L identifier (Some correct) t6 db5 = (db5, inl AccountLocked)
    /\ findByCredentials L identifier (Some correct) t7 db5 = (db7, inr u7)
    /\ _id u7 = _id u
    /\ loginAttempts <$> find (by_email identifier) (docs db7) = Some 0
    /\ lockUntil <$> find (by_email identifier) (docs db7) = Some None.
Proof.
  intros Hat Hfind Hact Hzero Hnone Hw Hwrong Hc Hcorrect H6 H7.
  destruct (failed_attempt_counts identifier wrong t1 db u Hat Hfind Hnone Hact Hw Hwrong)
    as (db1 & E1 & F1).
  rewrite Hzero in F1. simpl in F1.
  destruct (failed_attempt_counts identifier wrong t2 db1 _ Hat F1 eq_refl Hact Hw Hwrong)
    as (db2 & E2 & F2).
  simpl in F2.
  destruct (failed_attempt_counts identifier wrong t3 db2 _ Hat F2 eq_refl Hact Hw Hwrong)
    as (db3 & E3 & F3).
  simpl in F3.
  destruct (failed_attempt_counts identifier wrong t4 db3 _ Hat F3 eq_refl Hact Hw Hwrong)
    as (db4 & E4 & F4).
  simpl in F4.
  destruct (failed_attempt_counts identifier wrong t5 db4 _ Hat F4 eq_refl Hact Hw Hwrong)
    as (db5 & E5 & F5).
  simpl in F5.
  assert (Hlocked : isLocked t6 (set_lockout 5 (Some (t5 + lock_window)) u) = true).
  { unfold isLocked. simpl. apply Z.ltb_lt. exact H6. }
  assert (Hopen : isLocked t7 (set_lockout 5 (Some (t5 + lock_window)) u) = false).
  { unfold isLocked. simpl. apply Z.ltb_ge. exact H7. }
  assert (Hpass : truthy (Some correct)
                  && negb (comparePassword L (set_lockout 5 (Some (t5 + lock_window)) u)
                             (default "" (Some correct))) = false).
  { change (comparePassword L (set_lockout 5 (Some (t5 + lock_window)) u)
              (default "" (Some correct)))
      with (comparePassword L u correct).
    rewrite Hcorrect. apply andb_false_r. }
  rewrite <- (credentials_query_email identifier Hat) in F5.
  destruct (findByCredentials_accepts identifier (Some correct) t7 db5 _ F5 Hopen Hact Hpass)
    as (db7 & E7 & Hreset & _).
  rewrite (credentials_query_email identifier Hat) in F5, Hreset.
  destruct (Hreset ltac:(simpl; lia)) as (t & F7).
  exists db5, db7, (set_lastLogin t7 (set_lockout 5 (Some (t5 + lock_window)) u)).
  repeat split.
  - simpl. rewrite E1, E2, E3, E4, E5. reflexivity.
  - rewrite F5. reflexivity.
  - apply findByCredentials_locked with (u := set_lockout 5 (Some (t5 + lock_window)) u);
      assumption.
  - exact E7.
  - rewrite F7. reflexivity.
  - rewrite F7. reflexivity.
Qed.

(** C10.  For a stored account that is active and not locked, and whose
    counter is not negative, [findByCredentials] called with a falsy
    password (absent, or the empty string) returns the account and leaves
    the stored login-attempt counter at 0.  No assumption is made on what
    [bcrypt.compare] would answer, and the outcome is the same for every
    choice of the library functions: the password is never compared. *)
Theorem falsy_password_skips_comparison identifier pw now db u :
  find (credentials_query identifier) (docs db) = Some u ->
  isActive u = true ->
  isLocked now u = false ->
  0 <= loginAttempts u ->
  truthy pw = false ->
  exists db',
    findByCredentials L identifier pw now db = (db', inr (set_lastLogin now u))
    /\ loginAttempts <$> find (credentials_query identifier) (docs db') = Some 0
    /\ forall L', findByCredentials L' identifier pw now db
                  = findByCredentials L identifier pw now db.
Proof.
  intros Hfind Hact Hlock Hnonneg Hpw.
  assert (Hskip : forall L', truthy pw && negb (comparePassword L' u (default "" pw)) = false)
    by (intros L'; rewrite Hpw; reflexivity).
  destruct (findByCredentials_accepts identifier pw now db u Hfind Hlock Hact (Hskip L))
    as (db' & E & Hpos & Hzero).
  exists db'. split; [exact E|]. split.
  - destruct (Z.eq_dec (loginAttempts u) 0) as [H0|Hne].
    + destruct (Hzero ltac:(lia)) as (t & F). rewrite F. simpl. rewrite H0. reflexivity.
    + destruct (Hpos ltac:(lia)) as (t & F). rewrite F. reflexivity.
  - intros L'. rewrite E.
    unfold findByCredentials, findOne_with_password, credentials_query in *.
    destruct (includes "@" identifier);
      rewrite Hfind, Hlock, Hact in *; simpl in *;
      rewrite Hpw in *; simpl in *;
      unfold save, pre_save in *; simpl in *;
      rewrite !bool_decide_eq_true_2 in * by reflexivity; simpl in *; exact E.
Qed.

End Lockout.

(** ** Sanitized responses *)

Section Sanitization.

Variable L : Libs.

Lemma sanitizeUser_has_no_secret now (ua : UserArg) : has_no_secret (sanitizeUser now ua).
Proof.
  unfold has_no_secret, secret_keys, sanitizeUser.
  repeat constructor; simplify_map_eq; reflexivity.
Qed.

Lemma json_success_exposes_no_secret code msg now ua toks :
  exposes_no_secret (json_success code msg now ua toks).
Proof. apply sanitizeUser_has_no_secret. Qed.

Lemma json_error_exposes_no_secret code msg : exposes_no_secret (json_error code msg).
Proof. exact I. Qed.

Lemma register_exposes_no_secret name email pw now db :
  exposes_no_secret (snd (register_handler L name email pw now db)).
Proof.
  unfold register_handler.
  destruct (negb (truthy name) || negb (truthy email) || negb (truthy pw)); simpl.
  - exact I.
  - apply sanitizeUser_has_no_secret.
Qed.

Lemma login_exposes_no_secret connected email pw now db :
  exposes_no_secret (snd (login_handler L connected email pw now db)).
Proof.
  unfold login_handler.
  destruct (login_validation L email pw); [| exact I].
  destruct (negb connected); [apply sanitizeUser_has_no_secret|].
  destruct (findByCredentials L _ pw now db) as [db' [e|u]]; simpl.
  - exact I.
  - apply sanitizeUser_has_no_secret.
Qed.

Lemma guest_exposes_no_secret gd now db :
  exposes_no_secret (snd (guest_handler L gd now db)).
Proof.
  unfold guest_handler.
  destruct (createGuestUser L gd now db) as [e|[db' u]]; simpl.
  - exact I.
  - apply sanitizeUser_has_no_secret.
Qed.

Lemma reset_password_exposes_no_secret token pw now db :
  exposes_no_secret (snd (reset_password_handler L token pw now db)).
Proof.
  unfold reset_password_handler.
  destruct (reset_validation token pw); [| exact I].
  destruct (findOne _ db) as [loaded|]; [| exact I].
  destruct (save L true loaded _ db) as [e|[db' u]]; simpl.
  - exact I.
  - apply sanitizeUser_has_no_secret.
Qed.

Lemma me_exposes_no_secret authorization now db :
  exposes_no_secret (me_handler L authorization now db).
Proof.
  unfold me_handler.
  destruct (authenticateToken L authorization db) as [r|u] eqn:Hgate.
  - unfold authenticateToken in Hgate.
    repeat case_match; try discriminate; injection Hgate as <-; exact I.
  - apply sanitizeUser_has_no_secret.
Qed.

(** C3.  On every response path that returns a user (register, login,
    guest, reset-password, /me), whatever the request and the stored
    state, the user object of the response has no password hash, no
    reset-token hash or expiry and no verification-token hash or expiry:
    the object always comes out of [sanitizeUser], which deletes them
    unconditionally. *)
Theorem responses_never_expose_secrets :
  (forall name email pw now db,
      exposes_no_secret (snd (register_handler L name email pw now db)))
  /\ (forall connected email pw now db,
        exposes_no_secret (snd (login_handler L connected email pw now db)))
  /\ (forall guestData now db,
        exposes_no_secret (snd (guest_handler L guestData now db)))
  /\ (forall token pw now db,
        exposes_no_secret (snd (reset_password_handler L token pw now db)))
  /\ (forall authorization now db,
        exposes_no_secret (me_handler L authorization now db))
  /\ (forall now ua, has_no_secret (sanitizeUser now ua)).
Proof.
  split; [intros; apply register_exposes_no_secret|].
  split; [intros; apply login_exposes_no_secret|].
  split; [intros; apply guest_exposes_no_secret|].
  split; [intros; apply reset_password_exposes_no_secret|].
  split; [intros; apply me_exposes_no_secret|].
  intros; apply sanitizeUser_has_no_secret.
Qed.

End Sanitization.

(** ** Status codes of the login route *)

Section LoginCodes.

Variable L : Libs.

(** C4 (amended).  Every login request that passes the validators is
    answered, when it fails, with status 401 whatever the cause: unknown
    email and wrong password give the same body ("Invalid credentials"),
    a locked account gives 401 with the lock message and a deactivated
    account 401 with "Account is deactivated"; the cause shows in the
    message only, and no login failure is answered with 403. *)
Theorem login_failures_are_401 email pw now db :
  login_validation L email pw = [] ->
  let r := snd (login_handler L true email pw now db) in
  login_outcome L (normalizeEmail L (default "" email)) pw now db r
  /\ statusCode r <> 403.
Proof.
  intros Hval r. subst r.
  assert (Hpw : truthy pw = true).
  { unfold login_validation in Hval.
    destruct (isEmail L (default "" email)), (truthy pw); simpl in Hval;
      try discriminate; reflexivity. }
  unfold login_handler, login_outcome. rewrite Hval. simpl.
  set (identifier := normalizeEmail L (default "" email)).
  assert (Hrun : findByCredentials L identifier pw now db
                 = match find (credentials_query identifier) (docs db) with
                   | None => (db, inl InvalidCredentials)
                   | Some u =>
                       if isLocked now u then (db, inl AccountLocked)
                       else if negb (isActive u) then (db, inl AccountDeactivated)
                       else if negb (comparePassword L u (default "" pw))
                            then (incLoginAttempts now u db, inl InvalidCredentials)
                            else
                              (updateOne (_id u) (write_modified u (set_lastLogin now u))
                                 (if 0 <? loginAttempts u
                                  then resetLoginAttempts u db else db),
                               inr (set_lastLogin now u))
                   end).
  { unfold findByCredentials, findOne_with_password, credentials_query.
    destruct (includes "@" identifier);
      (destruct (find _ (docs db)) as [u|]; [| reflexivity]);
      rewrite Hpw; simpl;
      destruct (isLocked now u); try reflexivity;
      destruct (isActive u); try reflexivity; simpl;
      destruct (comparePassword L u (default "" pw)); simpl; try reflexivity;
      rewrite save_lastLogin; reflexivity. }
  rewrite Hrun.
  destruct (find (credentials_query identifier) (docs db)) as [u|]; simpl.
  - destruct (isLocked now u); simpl; [split; [reflexivity | discriminate]|].
    destruct (isActive u); simpl; [| split; [reflexivity | discriminate]].
    destruct (comparePassword L u (default "" pw)); simpl;
      split; try reflexivity; discriminate.
  - split; [reflexivity | discriminate].
Qed.

End LoginCodes.

(** ** Password reset *)

Section PasswordReset.

Variable L : Libs.

Lemma opt_is_true v o : opt_is v o = true <-> o = Some v.
Proof.
  destruct o as [x|]; simpl.
  - rewrite String.eqb_eq. split; [intros ->; reflexivity | intros [= ->]; reflexivity].
  - split; discriminate.
Qed.

Lemma find_unique (q : User -> bool) (l : list User) (u : User) :
  In u l -> q u = true -> (forall d, In d l -> q d = true -> d = u) ->
  find q l = Some u.
Proof.
  intros Hin Hq Huniq. destruct (find q l) as [d|] eqn:Hfind.
  - apply find_some in Hfind as [Hd Hqd]. f_equal. apply Huniq; assumption.
  - rewrite (find_none q l Hfind u Hin) in Hq. discriminate.
Qed.

Lemma find_all_false (q : User -> bool) (l : list User) :
  (forall d, In d l -> q d = false) -> find q l = None.
Proof.
  induction l as [|d l IH]; intros Hall; [reflexivity|]. simpl.
  rewrite (Hall d (or_introl eq_refl)). apply IH. intros x Hx. apply Hall. right. exact Hx.
Qed.

(** The validators of the route leave only passwords of eight characters
    or more, and a non-empty token. *)
Lemma reset_validation_ok token pw :
  reset_validation token pw = [] ->
  exists p, pw = Some p /\ (String.length p <? 8)%nat = false /\ truthy token = true.
Proof.
  unfold reset_validation. intros Hval.
  destruct (truthy token); [| discriminate Hval]. simpl in Hval.
  destruct (String.length (default "" pw) <? 8)%nat eqn:Hlen; [discriminate Hval|].
  destruct pw as [p|]; [| discriminate Hlen].
  exists p. repeat split. exact Hlen.
Qed.

(** The password is the only path the reset assigns that the schema
    validates. *)
Lemma validation_errors_new_password p u :
  (String.length p <? 8)%nat = false ->
  validation_errors (set_password None u) = [] ->
  validation_errors (set_passwordReset None None (set_password (Some p) (set_password None u)))
  = [].
Proof.
  intros Hlen Hvalid. unfold validation_errors in *.
  cbn [name email password currency theme language
       set_password set_passwordReset] in *.
  rewrite Hlen. exact Hvalid.
Qed.

(** What the successful reset writes on a stored document. *)
Lemma write_modified_reset h tok t u cur :
  passwordResetToken u = Some tok ->
  passwordResetExpires u = Some t ->
  write_modified (set_password None u)
    (set_passwordReset None None (set_password (Some h) (set_password None u))) cur
  = set_passwordReset None None (set_password (Some h) cur).
Proof.
  intros Htok Hexp. destruct cur. unfold write_modified, set_passwordReset, set_password.
  cbn. rewrite Htok, Hexp, !pick_same.
  rewrite !pick_changed by discriminate. reflexivity.
Qed.

Lemma save_new_password p u db :
  (String.length p <? 8)%nat = false ->
  validation_errors (set_password None u) = [] ->
  save L true (set_password None u)
    (set_passwordReset None None (set_password (Some p) (set_password None u))) db
  = let doc := set_passwordReset None None
                 (set_password (Some (bcrypt_hash L p)) (set_password None u)) in
    inr (updateOne (_id u) (write_modified (set_password None u) doc) db, doc).
Proof.
  intros Hlen Hvalid. unfold save.
  rewrite (validation_errors_new_password p u Hlen Hvalid).
  unfold pre_save. cbn [password isEmailVerified set_password set_passwordReset].
  rewrite bool_decide_eq_false_2 by discriminate.
  rewrite bool_decide_eq_true_2 by reflexivity.
  reflexivity.
Qed.

(** C5.  Let [u] be the one stored account that carries the hash of
    [token], with expiry [t], and let the request pass the validators.
    When the expiry is not in the future the reset fails with 400
    "Invalid or expired reset token" and the collection is unchanged.
    When the expiry is in the future (and the stored record is
    schema-valid) the reset succeeds: the account gets the hash of the new
    password and its reset token and expiry are cleared, no stored account
    carries the token's hash any more, and a second call with the same
    token, at any time and with any acceptable password, fails with 400
    and changes nothing. *)
Theorem reset_token_single_use token pw pw2 (now now2 t : Z) db u :
  reset_validation token pw = [] ->
  reset_validation token pw2 = [] ->
  In u (docs db) ->
  passwordResetToken u = Some (sha256_hex L (default "" token)) ->
  passwordResetExpires u = Some t ->
  (forall d, In d (docs db) ->
             passwordResetToken d = Some (sha256_hex L (default "" token)) -> d = u) ->
  validation_errors (set_password None u) = [] ->
  (t <= now ->
   reset_password_handler L token pw now db
   = (db, json_error 400 "Invalid or expired reset token"))
  /\ (now < t ->
      exists db' u',
        reset_password_handler L token pw now db
        = (db', json_success 200 (Some "Password reset successfully") now (Document u')
                  (Some (generateTokens L (Document u'))))
        /\ In (set_passwordReset None None
                 (set_password (Some (bcrypt_hash L (default "" pw))) u)) (docs db')
        /\ (forall d, In d (docs db') ->
                      passwordResetToken d = None /\ passwordResetExpires d = None
                      \/ In d (docs db) /\ d <> u)
        /\ (forall d, In d (docs db') ->
                      passwordResetToken d <> Some (sha256_hex L (default "" token)))
        /\ reset_password_handler L token pw2 now2 db'
           = (db', json_error 400 "Invalid or expired reset token")).
Proof.
  intros Hval Hval2 Hin Htok Hexp Huniq Hvalid.
  set (hash := sha256_hex L (default "" token)) in *.
  split.
  - intros Hpast. unfold reset_password_handler. rewrite Hval.
    unfold findOne. fold hash. rewrite find_all_false; [reflexivity|].
    intros d Hd. unfold reset_query.
    destruct (opt_is hash (passwordResetToken d)) eqn:Hd_tok; [| reflexivity].
    apply opt_is_true in Hd_tok. rewrite (Huniq d Hd Hd_tok), Hexp. simpl.
    apply Z.ltb_ge. exact Hpast.
  - intros Hfuture.
    destruct (reset_validation_ok token pw Hval) as (p & -> & Hlen & _).
    assert (Hfind : find (reset_query hash now) (docs db) = Some u).
    { apply find_unique; [exact Hin | |].
      - unfold reset_query. rewrite Htok, Hexp. simpl.
        rewrite String.eqb_refl. apply Z.ltb_lt. exact Hfuture.
      - intros d Hd Hq. unfold reset_query in Hq. apply andb_true_iff in Hq as [Hq _].
        apply opt_is_true in Hq. apply Huniq; assumption. }
    set (doc := set_passwordReset None None
                  (set_password (Some (bcrypt_hash L p)) (set_password None u))).
    set (db' := updateOne (_id u) (write_modified (set_password None u) doc) db).
    assert (Hrun : forall q n, reset_validation token q = [] ->
              find (reset_query hash n) (docs db) = Some u ->
              (String.length (default "" q) <? 8)%nat = false ->
              q = Some p ->
              reset_password_handler L token q n db
              = (db', json_success 200 (Some "Password reset successfully") n (Document doc)
                        (Some (generateTokens L (Document doc))))).
    { intros q n Hq Hfq Hlq ->. unfold reset_password_handler. rewrite Hq.
      unfold findOne. fold hash. rewrite Hfq. simpl.
      rewrite (save_new_password p u db Hlen Hvalid). reflexivity. }
    assert (Hcleared : forall d, In d (docs db') ->
              passwordResetToken d = None /\ passwordResetExpires d = None
              \/ In d (docs db) /\ d <> u).
    { intros d Hd. unfold db', updateOne in Hd. simpl in Hd.
      apply in_map_iff in Hd as (d0 & <- & Hd0).
      destruct (Nat.eqb (_id d0) (_id u)) eqn:Hid.
      - left. unfold doc. rewrite (write_modified_reset _ _ _ u d0 Htok Hexp).
        split; reflexivity.
      - right. split; [exact Hd0|]. intros ->. rewrite Nat.eqb_refl in Hid. discriminate. }
    assert (Hgone : forall d, In d (docs db') -> passwordResetToken d <> Some hash).
    { intros d Hd Hcarry. destruct (Hcleared d Hd) as [[Hnone _]|[Hold Hne]].
      - rewrite Hnone in Hcarry. discriminate.
      - apply Hne, Huniq; assumption. }
    exists db', doc. repeat split.
    + apply Hrun; try assumption; reflexivity.
    + unfold db', updateOne. simpl. apply in_map_iff. exists u.
      rewrite Nat.eqb_refl. split; [| exact Hin].
      unfold doc. rewrite (write_modified_reset _ _ _ u u Htok Hexp). reflexivity.
    + exact Hcleared.
    + exact Hgone.
    + unfold reset_password_handler. rewrite Hval2.
      unfold findOne. fold hash. rewrite find_all_false; [reflexivity|].
      intros d Hd. unfold reset_query.
      destruct (opt_is hash (passwordResetToken d)) eqn:Hd_tok; [| reflexivity].
      apply opt_is_true in Hd_tok. exfalso. exact (Hgone d Hd Hd_tok).
Qed.

End PasswordReset.

(** ** Requesting a password reset *)

Section ForgotPassword.

Variable L : Libs.

(** [save] without validation, when neither the password nor the
    verification flag was assigned. *)
Lemma save_unvalidated loaded doc db :
  password loaded = password doc ->
  isEmailVerified loaded = isEmailVerified doc ->
  save L false loaded doc db
  = inr (updateOne (_id doc) (write_modified loaded doc) db, doc).
Proof.
  intros Hpw Hver. unfold save, pre_save. simpl.
  rewrite !bool_decide_eq_true_2 by assumption. reflexivity.
Qed.

Lemma by_email_write_modified e loaded doc d :
  email loaded = email doc ->
  by_email e (write_modified loaded doc d) = by_email e d.
Proof.
  intros He. unfold by_email, write_modified. cbn [email].
  rewrite He, pick_same. reflexivity.
Qed.

(** The module's exports object is not callable: with the binding the
    route module makes, every dispatch throws. *)
Lemma require_utils_email_not_callable mailer o :
  call_sendEmail (require_utils_email mailer) o
  = inl (TypeError "sendEmail is not a function").
Proof. reflexivity. Qed.

(** The request for an unknown email. *)
Lemma forgot_password_unknown sendEmail req_email resetToken now db :
  isEmail L (default "" req_email) = true ->
  find (by_email (normalizeEmail L (default "" req_email))) (docs db) = None ->
  forgot_password_handler L sendEmail req_email resetToken now db
  = (db, json_message 200 "success" reset_message).
Proof.
  intros Hvalid Hfind. unfold forgot_password_handler, findOne.
  rewrite Hvalid, Hfind. reflexivity.
Qed.

(** The request for a stored email, up to the dispatch. *)
Lemma forgot_password_known sendEmail req_email resetToken now db u :
  isEmail L (default "" req_email) = true ->
  find (by_email (normalizeEmail L (default "" req_email))) (docs db) = Some u ->
  let loaded := set_password None u in
  let user1 := set_passwordReset (Some (sha256_hex L resetToken))
                 (Some (now + 10 * 60 * 1000)) loaded in
  let db1 := updateOne (_id u) (write_modified loaded user1) db in
  forgot_password_handler L sendEmail req_email resetToken now db
  = match call_sendEmail sendEmail (reset_mail L user1 resetToken) with
    | inr _ => (db1, json_message 200 "success" reset_message)
    | inl _ =>
        (updateOne (_id u) (write_modified user1 (set_passwordReset None None user1)) db1,
         json_error 500 "Failed to send password reset email")
    end.
Proof.
  intros Hvalid Hfind loaded user1 db1. unfold forgot_password_handler, findOne.
  rewrite Hvalid, Hfind.
  change (set_password None <$> Some u) with (Some loaded).
  unfold createPasswordResetToken. cbv beta iota zeta delta [negb]. fold user1.
  rewrite (save_unvalidated loaded user1 db) by reflexivity.
  change (_id user1) with (_id u). fold db1.
  destruct (call_sendEmail sendEmail (reset_mail L user1 resetToken)); [| reflexivity].
  rewrite (save_unvalidated user1 (set_passwordReset None None user1) db1) by reflexivity.
  reflexivity.
Qed.

(** C7.  When a reset is requested for a stored account and the dispatch
    of the email fails, the request is answered with 500 and the stored
    account is left with neither a reset-token hash nor an expiry: the
    token persisted before the dispatch is rolled back. *)
Theorem failed_dispatch_clears_reset_token sendEmail req_email resetToken now db u err :
  isEmail L (default "" req_email) = true ->
  find (by_email (normalizeEmail L (default "" req_email))) (docs db) = Some u ->
  call_sendEmail sendEmail
    (reset_mail L
       (set_passwordReset (Some (sha256_hex L resetToken)) (Some (now + 10 * 60 * 1000))
          (set_password None u))
       resetToken)
  = inl err ->
  exists db' u',
    forgot_password_handler L sendEmail req_email resetToken now db
    = (db', json_error 500 "Failed to send password reset email")
    /\ find (by_email (normalizeEmail L (default "" req_email))) (docs db') = Some u'
    /\ _id u' = _id u
    /\ passwordResetToken u' = None
    /\ passwordResetExpires u' = None.
Proof.
  intros Hvalid Hfind Hfail.
  rewrite (forgot_password_known sendEmail req_email resetToken now db u Hvalid Hfind).
  cbv zeta. rewrite Hfail.
  set (e := normalizeEmail L (default "" req_email)) in *.
  set (loaded := set_password None u).
  set (user1 := set_passwordReset _ _ loaded).
  set (f1 := write_modified loaded user1).
  set (f2 := write_modified user1 (set_passwordReset None None user1)).
  pose proof (find_updateOne (by_email e) f1 db u
                (fun d => by_email_write_modified e loaded user1 d eq_refl) Hfind) as H1.
  pose proof (find_updateOne (by_email e) f2 _ (f1 u)
                (fun d => by_email_write_modified e user1 _ d eq_refl) H1) as H2.
  change (_id (f1 u)) with (_id u) in H2.
  eexists. exists (f2 (f1 u)). split; [reflexivity|].
  split; [exact H2|]. split; [reflexivity|].
  unfold f2, write_modified. cbn [passwordResetToken passwordResetExpires].
  unfold user1. cbn [passwordResetToken passwordResetExpires set_passwordReset].
  rewrite !pick_changed by discriminate. split; reflexivity.
Qed.

(** What the handler would answer had [sendEmail] been bound to the
    function and the dispatch succeeded: for two reset requests that pass
    the validator, one for a stored email and one for an email that is not
    stored, the same response (status 200 and the same body). *)
Lemma forgot_password_same_response_when_dispatched
        sendEmail known unknown token1 token2 now1 now2 db u :
  isEmail L (default "" known) = true ->
  isEmail L (default "" unknown) = true ->
  find (by_email (normalizeEmail L (default "" known))) (docs db) = Some u ->
  find (by_email (normalizeEmail L (default "" unknown))) (docs db) = None ->
  call_sendEmail sendEmail
    (reset_mail L
       (set_passwordReset (Some (sha256_hex L token1)) (Some (now1 + 10 * 60 * 1000))
          (set_password None u))
       token1)
  = inr tt ->
  snd (forgot_password_handler L sendEmail known token1 now1 db)
  = snd (forgot_password_handler L sendEmail unknown token2 now2 db)
  /\ snd (forgot_password_handler L sendEmail known token1 now1 db)
     = json_message 200 "success" reset_message.
Proof.
  intros Hk Hu Hfound Hmissing Hsent.
  rewrite (forgot_password_known sendEmail known token1 now1 db u Hk Hfound).
  rewrite (forgot_password_unknown sendEmail unknown token2 now2 db Hu Hmissing).
  cbv zeta. rewrite Hsent. split; reflexivity.
Qed.

(** C6 (the code departs from the claim).  The route module binds
    [sendEmail] to the exports object of [utils/email], which is not
    callable, so every dispatch throws.  Of two reset requests that pass
    the validator, the one for a stored email is answered with 500
    "Failed to send password reset email" and the one for an email that is
    not stored with 200 and the neutral message: the responses differ in
    status and in body, and so tell whether the email is registered. *)
Theorem forgot_password_reveals_stored_email
        mailer known unknown token1 token2 now1 now2 db u :
  isEmail L (default "" known) = true ->
  isEmail L (default "" unknown) = true ->
  find (by_email (normalizeEmail L (default "" known))) (docs db) = Some u ->
  find (by_email (normalizeEmail L (default "" unknown))) (docs db) = None ->
  snd (forgot_password_handler L (require_utils_email mailer) known token1 now1 db)
  = json_error 500 "Failed to send password reset email"
  /\ snd (forgot_password_handler L (require_utils_email mailer) unknown token2 now2 db)
     = json_message 200 "success" reset_message
  /\ statusCode (snd (forgot_password_handler L (require_utils_email mailer)
                        known token1 now1 db))
     <> statusCode (snd (forgot_password_handler L (require_utils_email mailer)
                           unknown token2 now2 db))
  /\ body (snd (forgot_password_handler L (require_utils_email mailer)
                  known token1 now1 db))
     <> body (snd (forgot_password_handler L (require_utils_email mailer)
                     unknown token2 now2 db)).
Proof.
  intros Hk Hu Hfound Hmissing.
  rewrite (forgot_password_known (require_utils_email mailer) known token1 now1 db u
             Hk Hfound).
  rewrite (forgot_password_unknown (require_utils_email mailer) unknown token2 now2 db
             Hu Hmissing).
  cbv zeta. rewrite require_utils_email_not_callable. cbn [snd].
  split; [reflexivity|]. split; [reflexivity|]. split; discriminate.
Qed.

End ForgotPassword.

(** ** OAuth account resolution *)

Section OAuth.

Variable L : Libs.

Lemma pick_self {A : Type} `{EqDecision A} (x y : A) : pick x y x = y.
Proof. unfold pick. destruct (decide (x = y)); [assumption | reflexivity]. Qed.

Lemma find_none_existsb (q : User -> bool) (l : list User) :
  find q l = None -> existsb q l = false.
Proof.
  induction l as [|d l IH]; [reflexivity|]. simpl.
  destruct (q d); [discriminate | exact IH].
Qed.

Lemma length_updateOne id f db : length (docs (updateOne id f db)) = length (docs db).
Proof. unfold updateOne. simpl. apply length_map. Qed.

Lemma touch_and_done_resolves u doc now db :
  password doc = None ->
  _id doc = _id u -> email doc = email u ->
  exists u',
    touch_and_done L (set_password None u) doc now db
    = (updateOne (_id u) (write_modified (set_password None u) u') db, inr u')
    /\ (u' = set_lastLogin now doc
        \/ u' = set_emailVerification None None (set_lastLogin now doc)).
Proof.
  intros Hpw Hid Hemail. unfold touch_and_done, save, pre_save.
  cbn [password isEmailVerified set_password set_lastLogin].
  rewrite Hpw. rewrite bool_decide_eq_true_2 by reflexivity.
  cbn [negb andb].
  destruct (negb (bool_decide (isEmailVerified u = isEmailVerified doc)) && _).
  - eexists. split; [| right; reflexivity].
    cbn [_id set_emailVerification set_lastLogin]. rewrite Hid. reflexivity.
  - eexists. split; [| left; reflexivity].
    cbn [_id set_lastLogin]. rewrite Hid. reflexivity.
Qed.

Lemma touch_and_done_resolves_to u doc now db :
  password doc = None ->
  _id doc = _id u -> email doc = email u ->
  resolves_to u now db (touch_and_done L (set_password None u) doc now db).
Proof.
  intros Hpw Hid Hemail.
  destruct (touch_and_done_resolves u doc now db Hpw Hid Hemail) as (u' & -> & Hu').
  exists (updateOne (_id u) (write_modified (set_password None u) u') db), u'.
  split; [reflexivity|].
  rewrite length_updateOne.
  destruct Hu' as [-> | ->]; cbn [_id email lastLogin set_lastLogin set_emailVerification];
    rewrite Hid, Hemail; repeat split.
Qed.

(** Inserting a record that has no password and no verification token:
    the hooks leave it as it is. *)
Lemma insert_outcome doc db :
  password doc = None ->
  emailVerificationToken doc = None ->
  emailVerificationExpires doc = None ->
  creation_outcome doc db (create_and_done L doc db).
Proof.
  intros Hpw Htok Hexp.
  assert (Hhooks : pre_save L true (bool_decide (is_Some (password doc))) true doc = inr doc).
  { unfold pre_save. rewrite Hpw.
    rewrite bool_decide_eq_false_2 by (intros [x Hx]; discriminate).
    cbn [andb negb]. destruct (isEmailVerified doc); [| reflexivity].
    destruct doc. cbn in Htok, Hexp. subst. reflexivity. }
  unfold creation_outcome, create_and_done, insert. split.
  - intros Hvalid Hfree. rewrite Hvalid, Hhooks, Hfree. reflexivity.
  - intros Hinvalid. destruct (validation_errors doc); [contradiction | reflexivity].
Qed.

Ltac link_account u doc now db e Hfind :=
  let u' := fresh "u'" in
  let Hrun := fresh "Hrun" in
  let Hu' := fresh "Hu'" in
  destruct (touch_and_done_resolves u doc now db eq_refl eq_refl eq_refl)
    as (u' & Hrun & Hu');
  rewrite Hrun;
  exists (updateOne (_id u) (write_modified (set_password None u) u') db), u',
         (write_modified (set_password None u) u' u);
  split; [reflexivity|];
  rewrite length_updateOne;
  rewrite (find_updateOne (by_email e) (write_modified (set_password None u) u') db u);
  [ destruct Hu' as [-> | ->]; cbn; rewrite ?pick_self; repeat split
  | intros d; apply by_email_write_modified;
    destruct Hu' as [-> | ->]; reflexivity
  | exact Hfind ].

Lemma google_links profile e rest ph u now db :
  find (fun d => opt_is (profile_id profile) (googleId d)) (docs db) = None ->
  emails profile = Some (e :: rest) ->
  photos profile = Some ph ->
  find (by_email e) (docs db) = Some u ->
  links googleId (profile_id profile) e u now db (google_verify L profile now db).
Proof.
  intros Hid Hemails Hphotos Hfind.
  unfold google_verify, findOne, first_photo.
  rewrite Hid, Hemails, Hfind, Hphotos. cbn [fmap option_fmap option_map].
  unfold links.
  match goal with
  | |- context [touch_and_done L _ ?doc now db] => link_account u doc now db e Hfind
  end.
Qed.

Lemma facebook_links profile e rest ph u now db :
  find (fun d => opt_is (profile_id profile) (facebookId d)) (docs db) = None ->
  emails profile = Some (e :: rest) ->
  photos profile = Some ph ->
  find (by_email e) (docs db) = Some u ->
  links facebookId (profile_id profile) e u now db (facebook_verify L profile now db).
Proof.
  intros Hid Hemails Hphotos Hfind.
  unfold facebook_verify, findOne, first_photo.
  rewrite Hid, Hemails, Hphotos. cbn [fmap option_fmap option_map mbind option_bind].
  rewrite Hfind. cbn [fmap option_fmap option_map].
  unfold links.
  match goal with
  | |- context [touch_and_done L _ ?doc now db] => link_account u doc now db e Hfind
  end.
Qed.

Lemma google_first_tier profile u now db :
  find (fun d => opt_is (profile_id profile) (googleId d)) (docs db) = Some u ->
  resolves_to u now db (google_verify L profile now db).
Proof.
  intros Hid. unfold google_verify, findOne. rewrite Hid.
  cbn [fmap option_fmap option_map].
  apply touch_and_done_resolves_to; reflexivity.
Qed.

Lemma facebook_first_tier profile u now db :
  find (fun d => opt_is (profile_id profile) (facebookId d)) (docs db) = Some u ->
  resolves_to u now db (facebook_verify L profile now db).
Proof.
  intros Hid. unfold facebook_verify, findOne. rewrite Hid.
  cbn [fmap option_fmap option_map].
  apply touch_and_done_resolves_to; reflexivity.
Qed.

(** The order of the three tiers, where the callbacks get through them.
    (1) A stored account with the profile's provider identifier is
    returned, whatever the profile's email.  (2) Without one, for a profile
    that carries an email and a photo list, a stored account with the
    profile's first email is returned, with the provider identifier linked
    to it and [isEmailVerified] set.  (3) When neither lookup matches, a
    new account is built from the profile and inserted: it is stored and
    returned when the record passes the schema's validation, and when the
    schema rejects the record the callback reports the validation error
    and no account is created. *)
Lemma oauth_resolution_order profile now db :
  (forall u,
      find (fun d => opt_is (profile_id profile) (googleId d)) (docs db) = Some u ->
      resolves_to u now db (google_verify L profile now db))
  /\ (forall e rest ph u,
        find (fun d => opt_is (profile_id profile) (googleId d)) (docs db) = None ->
        emails profile = Some (e :: rest) ->
        photos profile = Some ph ->
        find (by_email e) (docs db) = Some u ->
        links googleId (profile_id profile) e u now db (google_verify L profile now db))
  /\ (forall e rest ph,
        find (fun d => opt_is (profile_id profile) (googleId d)) (docs db) = None ->
        emails profile = Some (e :: rest) ->
        photos profile = Some ph ->
        find (by_email e) (docs db) = None ->
        creation_outcome
          (google_new_user profile e (mjoin (head ph)) now (nextId db)) db
          (google_verify L profile now db)
        /\ existsb (same_email (email_setter e)) (docs db) = false)
  /\ (forall u,
        find (fun d => opt_is (profile_id profile) (facebookId d)) (docs db) = Some u ->
        resolves_to u now db (facebook_verify L profile now db))
  /\ (forall e rest ph u,
        find (fun d => opt_is (profile_id profile) (facebookId d)) (docs db) = None ->
        emails profile = Some (e :: rest) ->
        photos profile = Some ph ->
        find (by_email e) (docs db) = Some u ->
        links facebookId (profile_id profile) e u now db (facebook_verify L profile now db))
  /\ (find (fun d => opt_is (profile_id profile) (facebookId d)) (docs db) = None ->
      first_email profile ≫= (fun e => find (by_email e) (docs db)) = None ->
      creation_outcome
        (facebook_new_user profile (first_email profile) now (nextId db)) db
        (facebook_verify L profile now db)
      /\ forall e, first_email profile = Some e ->
                   existsb (same_email (email_setter e)) (docs db) = false).
Proof.
  split; [intros u; apply google_first_tier|].
  split; [intros e rest ph u; apply google_links|].
  split.
  { intros e rest ph Hid Hemails Hphotos Hfind.
    unfold google_verify, findOne, first_photo.
    rewrite Hid, Hemails, Hfind, Hphotos. cbn [fmap option_fmap option_map].
    split; [apply insert_outcome; reflexivity|].
    apply (find_none_existsb (by_email e)), Hfind. }
  split; [intros u; apply facebook_first_tier|].
  split; [intros e rest ph u; apply facebook_links|].
  intros Hid Hfind.
  unfold facebook_verify, findOne. rewrite Hid. cbn [fmap option_fmap option_map].
  fold (first_email profile).
  assert (Hnone : first_email profile
                  ≫= (fun e => set_password None <$> find (by_email e) (docs db)) = None).
  { destruct (first_email profile) as [e|]; [| reflexivity].
    cbn in Hfind |- *. rewrite Hfind. reflexivity. }
  rewrite Hnone. split; [apply insert_outcome; reflexivity|].
  intros e He. rewrite He in Hfind. cbn in Hfind.
  apply (find_none_existsb (by_email e)), Hfind.
Qed.

End OAuth.


(** ** The pattern matcher against the language of a pattern *)

Section RegexSoundness.

Import Regex.

Lemma nullable_sound r : nullable r = true -> lang r [].
Proof.
  induction r; simpl; intros H; try discriminate.
  - constructor.
  - apply andb_true_iff in H as [H1 H2].
    apply (L_cat r1 r2 [] []); auto.
  - apply orb_true_iff in H as [H|H]; [apply L_alt_l | apply L_alt_r]; auto.
  - constructor.
Qed.

Lemma deriv_sound c r : forall s, lang (deriv c r) s -> lang r (c :: s).
Proof.
  induction r; simpl; intros s H.
  - inversion H.
  - inversion H.
  - destruct (b c) eqn:Hb; inversion H; subst. constructor. exact Hb.
  - destruct (nullable r1) eqn:Hn.
    + inversion H; subst.
      * match goal with
        | Hc : lang (Cat _ _) _ |- _ => inversion Hc; subst
        end.
        apply (L_cat r1 r2 (c :: _) _); auto.
      * apply (L_cat r1 r2 [] (c :: s)); auto. apply nullable_sound, Hn.
    + inversion H; subst. apply (L_cat r1 r2 (c :: _) _); auto.
  - inversion H; subst; [apply L_alt_l | apply L_alt_r]; auto.
  - inversion H; subst. apply (L_star_cons r (c :: _) _); auto.
Qed.

Lemma lang_empty s : ~ lang Empty s.
Proof. intros H. inversion H. Qed.

Lemma is_empty_true r : is_empty r = true -> r = Empty.
Proof. destruct r; simpl; intros H; try discriminate; reflexivity. Qed.

Lemma simp_sound r : forall s, lang (simp r) s -> lang r s.
Proof.
  induction r; simpl; intros s H; try exact H.
  - destruct (is_empty (simp r1) || is_empty (simp r2)) eqn:He;
      [exfalso; exact (lang_empty s H)|].
    assert (Hcat : lang (Cat (simp r1) (simp r2)) s -> lang (Cat r1 r2) s).
    { intros Hc. inversion Hc; subst. constructor; auto. }
    destruct (simp r1) eqn:H1; try (apply Hcat; exact H).
    apply (L_cat r1 r2 [] s); [apply IHr1; constructor | apply IHr2; exact H].
  - destruct (is_empty (simp r1)) eqn:H1; [apply L_alt_r, IHr2, H|].
    destruct (is_empty (simp r2)) eqn:H2; [apply L_alt_l, IHr1, H|].
    inversion H; subst; [apply L_alt_l | apply L_alt_r]; auto.
Qed.

(** Soundness of the matcher: what it accepts is in the language. *)
Lemma matches_sound s : forall r, matches r s = true -> lang r s.
Proof.
  induction s as [|c s IH]; simpl; intros r H.
  - apply nullable_sound, H.
  - apply deriv_sound, simp_sound, IH, H.
Qed.

End RegexSoundness.

(** ** Emails the schema's pattern rejects *)

Section EmailPattern.

Import Regex.
Local Open Scope list_scope.

Lemma tld_pattern_shape s :
  lang tld_pattern s -> exists a b rest, s = "."%char :: a :: b :: rest /\ (length rest <= 1)%nat.
Proof.
  unfold tld_pattern, chr, opt. intros H.
  inversion H as [| | ? ? s1 t1 Hdot Hr1 | | | |]; subst; clear H.
  inversion Hdot as [| ? c Hc | | | | |]; subst; clear Hdot.
  apply Ascii.eqb_eq in Hc. subst c.
  inversion Hr1 as [| | ? ? s2 t2 Ha Hr2 | | | |]; subst; clear Hr1.
  inversion Ha; subst; clear Ha.
  inversion Hr2 as [| | ? ? s3 t3 Hb Hr3 | | | |]; subst; clear Hr2.
  inversion Hb; subst; clear Hb.
  inversion Hr3 as [| | | ? ? ? He | ? ? ? Hw | |]; subst; clear Hr3.
  - inversion He; subst. eexists _, _, []. split; [reflexivity | simpl; lia].
  - inversion Hw; subst. eexists _, _, [_]. split; [reflexivity | simpl; lia].
Qed.

Lemma ends_with_short_tld_app pre s :
  ends_with_short_tld s -> ends_with_short_tld (pre ++ s).
Proof.
  intros (p & a & b & rest & -> & Hlen).
  exists (pre ++ p), a, b, rest. split; [| exact Hlen].
  rewrite <- app_assoc. reflexivity.
Qed.

Lemma star_tld_shape r s :
  lang r s -> r = Star tld_pattern -> s = [] \/ ends_with_short_tld s.
Proof.
  induction 1 as [| | | | | r' | r' s1 s2 H1 _ H2 IH2]; intros Hr; try discriminate.
  - left. reflexivity.
  - injection Hr as ->. right.
    destruct (IH2 eq_refl) as [-> | Hend].
    + rewrite app_nil_r. destruct (tld_pattern_shape s1 H1) as (a & b & rest & -> & Hlen).
      exists [], a, b, rest. split; [reflexivity | exact Hlen].
    + apply ends_with_short_tld_app, Hend.
Qed.

(** Every email the pattern accepts ends in a dot followed by two or
    three characters. *)
Lemma email_pattern_ends_with_short_tld s :
  lang email_pattern s -> ends_with_short_tld s.
Proof.
  unfold email_pattern. fold tld_pattern. intros H.
  inversion H as [| | ? ? s1 t1 _ Hr1 | | | |]; subst; clear H.
  inversion Hr1 as [| | ? ? s2 t2 _ Hr2 | | | |]; subst; clear Hr1.
  inversion Hr2 as [| | ? ? s3 t3 _ Hr3 | | | |]; subst; clear Hr2.
  unfold plus in Hr3.
  inversion Hr3 as [| | ? ? s4 t4 Htld Hstar | | | |]; subst; clear Hr3.
  do 3 apply ends_with_short_tld_app.
  destruct (star_tld_shape _ t4 Hstar eq_refl) as [-> | Hend].
  - rewrite app_nil_r. destruct (tld_pattern_shape s4 Htld) as (a & b & rest & -> & Hlen).
    exists [], a, b, rest. split; [reflexivity | exact Hlen].
  - apply ends_with_short_tld_app, Hend.
Qed.

(** A string whose third and fourth characters from the end are not dots
    does not end that way. *)
Lemma no_short_tld pre (x1 x2 x3 x4 : ascii) :
  x1 <> "."%char -> x2 <> "."%char ->
  ~ ends_with_short_tld (pre ++ [x1; x2; x3; x4]).
Proof.
  intros H1 H2 (p & a & b & rest & Heq & Hlen).
  destruct rest as [|c [|? ?]]; simpl in Hlen; try lia.
  - change (pre ++ [x1; x2; x3; x4]) with (pre ++ [x1] ++ [x2; x3; x4]) in Heq.
    rewrite app_assoc in Heq.
    change (p ++ ["."%char; a; b]) with (p ++ ["."%char; a; b]) in Heq.
    apply app_inj_2 in Heq as [_ Heq]; [| reflexivity].
    injection Heq as -> _ _. contradiction.
  - apply app_inj_2 in Heq as [_ Heq]; [| reflexivity].
    injection Heq as -> _ _ _. contradiction.
Qed.

Lemma list_ascii_of_string_app (a b : string) :
  list_ascii_of_string (a ++ b)%string = list_ascii_of_string a ++ list_ascii_of_string b.
Proof. induction a as [|c a IH]; simpl; [reflexivity | rewrite IH; reflexivity]. Qed.

Lemma trimStart_nonspace c l : is_space c = false -> trimStart (c :: l) = c :: l.
Proof. intros H. simpl. rewrite H. reflexivity. Qed.

(** The schema's setter leaves a synthetic email of the form
    [prefix<middle>@<domain>.local] in place but for the case of its
    letters: the result still ends in [ocal]. *)
Lemma local_email_shape (middle : string) (c : ascii) (tail : string) (domain : string) :
  is_space (lower_ascii c) = false ->
  exists front,
    list_ascii_of_string
      (email_setter (String c tail ++ middle ++ "@" ++ domain ++ ".local")%string)
    = front ++ ["o"; "c"; "a"; "l"]%char.
Proof.
  intros Hc. unfold email_setter, trim, toLowerCase.
  rewrite !list_ascii_of_string_of_list_ascii.
  rewrite !list_ascii_of_string_app, !map_app.
  change (list_ascii_of_string ".local") with (["."; "l"; "o"; "c"; "a"; "l"]%char).
  change (map lower_ascii ["."; "l"; "o"; "c"; "a"; "l"]%char)
    with (["."; "l"]%char ++ ["o"; "c"; "a"; "l"]%char).
  set (body := map lower_ascii (list_ascii_of_string (String c tail))).
  rewrite !app_assoc.
  set (front := (((body ++ _) ++ _) ++ _) ++ _).
  assert (Hfront : exists c' l', front = c' :: l' /\ is_space c' = false).
  { unfold front, body. simpl. eexists _, _. split; [reflexivity | exact Hc]. }
  destruct Hfront as (c' & l' & Hfront & Hc').
  assert (Htrim1 : trimStart (front ++ ["o"; "c"; "a"; "l"]%char)
                   = front ++ ["o"; "c"; "a"; "l"]%char).
  { rewrite Hfront. simpl. rewrite Hc'. reflexivity. }
  rewrite Htrim1, rev_app_distr. simpl rev at 2.
  rewrite <- !app_comm_cons. rewrite trimStart_nonspace by reflexivity.
  change ("l"%char :: ("a"%char :: ("c"%char :: ("o"%char :: [] ++ rev front))))
    with (rev ["o"; "c"; "a"; "l"]%char ++ rev front).
  rewrite <- rev_app_distr, rev_involutive.
  exists front. reflexivity.
Qed.

(** The pattern rejects such an email, whatever its middle part. *)
Lemma local_email_rejected (middle : string) (c : ascii) (tail : string) (domain : string) :
  is_space (lower_ascii c) = false ->
  Regex.test email_pattern
    (email_setter (String c tail ++ middle ++ "@" ++ domain ++ ".local")%string) = false.
Proof.
  intros Hc.
  destruct (Regex.test _ _) eqn:Htest; [exfalso | reflexivity].
  unfold Regex.test in Htest. apply matches_sound, email_pattern_ends_with_short_tld in Htest.
  destruct (local_email_shape middle c tail domain Hc) as (front & Hshape).
  rewrite Hshape in Htest. revert Htest. apply no_short_tld; discriminate.
Qed.

Lemma local_email_not_empty (middle : string) (c : ascii) (tail : string) (domain : string) :
  is_space (lower_ascii c) = false ->
  String.eqb (email_setter (String c tail ++ middle ++ "@" ++ domain ++ ".local")%string) ""
  = false.
Proof.
  intros Hc. apply String.eqb_neq. intros Hempty.
  destruct (local_email_shape middle c tail domain Hc) as (front & Hshape).
  rewrite Hempty in Hshape. destruct front; discriminate Hshape.
Qed.

End EmailPattern.

(** ** Guest access *)

Section GuestAccess.

Variable L : Libs.

(** The synthetic guest email is rejected by the schema's pattern,
    whatever the clock reads. *)
Lemma guest_email_rejected now :
  Regex.test email_pattern (email_setter (guest_email now)) = false.
Proof.
  exact (local_email_rejected (number_to_string now) "g" "uest_" "expensetracker" eq_refl).
Qed.

Lemma guest_email_not_empty now :
  String.eqb (email_setter (guest_email now)) "" = false.
Proof.
  exact (local_email_not_empty (number_to_string now) "g" "uest_" "expensetracker" eq_refl).
Qed.

Lemma createGuestUser_rejected guestData now db :
  match guestData with
  | GuestNull =>
      createGuestUser L guestData now db
      = inl (TypeError "Cannot read properties of null (reading 'currency')")
  | _ =>
      exists es,
        createGuestUser L guestData now db
        = inl (ValidationFailed (("email", "Please enter a valid email") :: es))
  end.
Proof.
  assert (Hobject : forall gd,
             guest_parameter guestData = Some gd ->
             exists es,
               createGuestUser L guestData now db
               = inl (ValidationFailed (("email", "Please enter a valid email") :: es))).
  { intros gd Hgd. unfold createGuestUser, insert. rewrite Hgd.
    match goal with
    | |- context [validation_errors ?d] => set (doc := d)
    end.
    assert (Hinvalid : exists es,
               validation_errors doc = ("email", "Please enter a valid email") :: es).
    { unfold validation_errors. cbn [email name doc].
      rewrite guest_email_rejected, guest_email_not_empty.
      eexists. reflexivity. }
    destruct Hinvalid as (es & ->). eauto. }
  destruct guestData as [| |gd]; [| reflexivity |]; eapply Hobject; reflexivity.
Qed.

Lemma createGuestUser_fails guestData now db :
  exists e, createGuestUser L guestData now db = inl e.
Proof.
  pose proof (createGuestUser_rejected guestData now db) as H.
  destruct guestData; [destruct H as (es & ->) | rewrite H | destruct H as (es & ->)];
    eexists; reflexivity.
Qed.

Lemma guest_handler_rejected guestData now db :
  fst (guest_handler L guestData now db) = db
  /\ statusCode (snd (guest_handler L guestData now db)) = 500.
Proof.
  unfold guest_handler.
  destruct (createGuestUser_fails guestData now db) as (e & ->).
  split; reflexivity.
Qed.

End GuestAccess.

(** * Scenarios on concrete collections *)

Lemma lockout_after_five_failures_witness :
  exists db5 db7 u7,
    login_calls fixture_libs "alice@example.com"
      [("wrong", 1); ("wrong", 2); ("wrong", 3); ("wrong", 4); ("wrong", 5)] alice_db
    = (db5, repeat (inl InvalidCredentials) 5)
    /\ lockUntil <$> find (by_email "alice@example.com") (docs db5)
       = Some (Some (5 + lock_window))
    /\ findByCredentials fixture_libs "alice@example.com" (Some "Secret#123") 6 db5
       = (db5, inl AccountLocked)
    /\ findByCredentials fixture_libs "alice@example.com" (Some "Secret#123") 7200005 db5
       = (db7, inr u7)
    /\ _id u7 = _id alice
    /\ loginAttempts <$> find (by_email "alice@example.com") (docs db7) = Some 0
    /\ lockUntil <$> find (by_email "alice@example.com") (docs db7) = Some None.
Proof.
  apply (lockout_after_five_failures fixture_libs "alice@example.com" "wrong" "Secret#123"
           1 2 3 4 5 6 7200005 alice_db alice);
    try reflexivity; try discriminate; unfold lock_window; lia.
Defined.

Lemma falsy_password_skips_comparison_witness :
  exists db',
    findByCredentials fixture_libs "alice@example.com" (Some "") 1000 alice_db
    = (db', inr (set_lastLogin 1000 alice))
    /\ loginAttempts <$> find (credentials_query "alice@example.com") (docs db') = Some 0
    /\ forall L', findByCredentials L' "alice@example.com" (Some "") 1000 alice_db
                  = findByCredentials fixture_libs "alice@example.com" (Some "") 1000 alice_db.
Proof.
  apply (falsy_password_skips_comparison fixture_libs "alice@example.com" (Some "") 1000
           alice_db alice); try reflexivity; simpl; lia.
Defined.

(** C4, as stated, fails: a locked account and a deactivated account are
    both answered with 401, not 403. *)
Lemma login_locked_or_deactivated_is_401 :
  isLocked 1000 alice_locked = true
  /\ snd (login_handler fixture_libs true (Some "alice@example.com") (Some "Secret#123")
            1000 (mkDb [alice_locked] 2))
     = json_error 401 locked_message
  /\ isActive alice_deactivated = false
  /\ snd (login_handler fixture_libs true (Some "alice@example.com") (Some "Secret#123")
            1000 (mkDb [alice_deactivated] 2))
     = json_error 401 "Account is deactivated"
  /\ statusCode (json_error 401 locked_message) <> 403.
Proof. repeat split; try reflexivity. discriminate. Qed.

Lemma login_failures_are_401_witness :
  login_validation fixture_libs (Some "alice@example.com") (Some "Secret#123") = []
  /\ snd (login_handler fixture_libs true (Some "alice@example.com") (Some "Secret#123")
            1000 (mkDb [alice_locked] 2))
     = json_error 401 locked_message.
Proof.
  split; [reflexivity|].
  apply (login_failures_are_401 fixture_libs (Some "alice@example.com") (Some "Secret#123")
           1000 (mkDb [alice_locked] 2)).
  reflexivity.
Defined.

Lemma reset_token_single_use_witness :
  reset_password_handler fixture_libs (Some "tok") (Some "NewPass!1") 600000 resetting_db
  = (resetting_db, json_error 400 "Invalid or expired reset token")
  /\ exists db' u',
      reset_password_handler fixture_libs (Some "tok") (Some "NewPass!1") 1000 resetting_db
      = (db', json_success 200 (Some "Password reset successfully") 1000 (Document u')
                (Some (generateTokens fixture_libs (Document u'))))
      /\ In (set_passwordReset None None
               (set_password (Some "$2a$12$NewPass!1") alice_resetting)) (docs db')
      /\ reset_password_handler fixture_libs (Some "tok") (Some "Other!Pass2") 2000 db'
         = (db', json_error 400 "Invalid or expired reset token").
Proof.
  assert (Huniq : forall d, In d (docs resetting_db) ->
            passwordResetToken d = Some (sha256_hex fixture_libs (default "" (Some "tok"))) ->
            d = alice_resetting).
  { intros d [<- | [<- | []]] Hd; [reflexivity | discriminate Hd]. }
  split.
  - apply (reset_token_single_use fixture_libs (Some "tok") (Some "NewPass!1")
             (Some "Other!Pass2") 600000 2000 600000 resetting_db alice_resetting);
      try (vm_compute; reflexivity); try exact Huniq; try lia.
    left. reflexivity.
  - destruct (reset_token_single_use fixture_libs (Some "tok") (Some "NewPass!1")
                (Some "Other!Pass2") 1000 2000 600000 resetting_db alice_resetting)
      as [_ Hfresh];
      try (vm_compute; reflexivity); try exact Huniq.
    + left. reflexivity.
    + destruct (Hfresh ltac:(lia)) as (db' & u' & Hrun & Hin & _ & _ & Hsecond).
      exists db', u'. repeat split; assumption.
Defined.

(** C6 on the collection of [alice], with the binding the route module
    makes: 500 for her email, 200 for an unknown one. *)
Lemma forgot_password_reveals_stored_email_witness :
  snd (forgot_password_handler fixture_libs (require_utils_email (fun _ => true))
         (Some "alice@example.com") "tok1" 1000 alice_db)
  = json_error 500 "Failed to send password reset email"
  /\ snd (forgot_password_handler fixture_libs (require_utils_email (fun _ => true))
            (Some "nobody@example.com") "tok2" 2000 alice_db)
     = json_message 200 "success" reset_message.
Proof.
  destruct (forgot_password_reveals_stored_email fixture_libs (fun _ => true)
              (Some "alice@example.com") (Some "nobody@example.com") "tok1" "tok2"
              1000 2000 alice_db alice) as (Hknown & Hunknown & _).
  - reflexivity.
  - reflexivity.
  - reflexivity.
  - reflexivity.
  - split; [exact Hknown | exact Hunknown].
Defined.

(** With a callable binding whose dispatch succeeds the two responses are
    the same. *)
Lemma forgot_password_same_response_when_dispatched_witness :
  snd (forgot_password_handler fixture_libs (Function (fun _ => true))
         (Some "alice@example.com") "tok1" 1000 alice_db)
  = snd (forgot_password_handler fixture_libs (Function (fun _ => true))
           (Some "nobody@example.com") "tok2" 2000 alice_db)
  /\ snd (forgot_password_handler fixture_libs (Function (fun _ => true))
            (Some "alice@example.com") "tok1" 1000 alice_db)
     = json_message 200 "success" reset_message.
Proof.
  apply (forgot_password_same_response_when_dispatched fixture_libs (Function (fun _ => true))
           (Some "alice@example.com") (Some "nobody@example.com") "tok1" "tok2" 1000 2000
           alice_db alice); reflexivity.
Defined.

Lemma failed_dispatch_clears_reset_token_witness :
  exists db' u',
    forgot_password_handler fixture_libs (require_utils_email (fun _ => true))
      (Some "alice@example.com") "tok" 1000 alice_db
    = (db', json_error 500 "Failed to send password reset email")
    /\ find (by_email (normalizeEmail fixture_libs (default "" (Some "alice@example.com"))))
         (docs db') = Some u'
    /\ _id u' = _id alice
    /\ passwordResetToken u' = None
    /\ passwordResetExpires u' = None.
Proof.
  apply (failed_dispatch_clears_reset_token fixture_libs (require_utils_email (fun _ => true))
           (Some "alice@example.com") "tok" 1000 alice_db alice
           (TypeError "sendEmail is not a function")); reflexivity.
Defined.

(** C9 (the code departs from the claim).  Profiles that the callbacks
    neither resolve, link nor create an account for; the collection is
    left as it was.  A Facebook profile without an email that matches no
    stored account is given the fallback email
    [facebook_fb-7@facebook.local], which the schema's own pattern
    rejects, so the third tier creates nothing.  A Google profile without
    a photo list makes the callback throw at [profile.photos[0]]: with an
    unknown email no account is created, with the email of a stored
    account the provider identifier is not linked. *)
Lemma oauth_profiles_left_without_account :
  find (fun d => opt_is "fb-7" (facebookId d)) (docs two_users_db) = None
  /\ first_email dave_facebook = None
  /\ facebook_verify fixture_libs dave_facebook 1000 two_users_db
     = (two_users_db, inl (ValidationFailed [("email", "Please enter a valid email")]))
  /\ find (fun d => opt_is "g-80" (googleId d)) (docs two_users_db) = None
  /\ find (by_email "frank@example.com") (docs two_users_db) = None
  /\ google_verify fixture_libs frank_google 1000 two_users_db
     = (two_users_db,
        inl (TypeError "Cannot read properties of undefined (reading '0')"))
  /\ find (fun d => opt_is "g-81" (googleId d)) (docs two_users_db) = None
  /\ find (by_email "alice@example.com") (docs two_users_db) = Some alice
  /\ google_verify fixture_libs alice_google_no_photos 1000 two_users_db
     = (two_users_db,
        inl (TypeError "Cannot read properties of undefined (reading '0')")).
Proof. repeat match goal with |- _ /\ _ => split end; vm_compute; reflexivity. Qed.

(** The three tiers on profiles that carry an email and a photo list. *)
Lemma oauth_resolution_order_witness :
  resolves_to bob 1000 two_users_db
    (google_verify fixture_libs
       (mkProfile "g-42" (Some "Bob") None None (Some ["alice@example.com"]) (Some []))
       1000 two_users_db)
  /\ links googleId "g-77" "alice@example.com" alice 1000 two_users_db
       (google_verify fixture_libs alice_google 1000 two_users_db)
  /\ google_verify fixture_libs erin_google 1000 two_users_db
     = (mkDb (docs two_users_db
              ++ [google_new_user erin_google "erin@example.com" None 1000 3]) 4,
        inr (google_new_user erin_google "erin@example.com" None 1000 3)).
Proof.
  split; [| split].
  - destruct (oauth_resolution_order fixture_libs
                (mkProfile "g-42" (Some "Bob") None None (Some ["alice@example.com"]) (Some []))
                1000 two_users_db) as (T1 & _).
    apply T1. reflexivity.
  - destruct (oauth_resolution_order fixture_libs alice_google 1000 two_users_db)
      as (_ & T2 & _).
    apply (T2 "alice@example.com" [] []); reflexivity.
  - destruct (oauth_resolution_order fixture_libs erin_google 1000 two_users_db)
      as (_ & _ & T3 & _).
    destruct (T3 "erin@example.com" [] [] eq_refl eq_refl eq_refl eq_refl)
      as [[Hcreated _] Hfree].
    apply Hcreated; vm_compute; reflexivity.
Defined.

(** ** Registration and guest access on concrete requests *)

(** C2 (the code departs from the claim).  [POST /register] answers 201
    for an email that is already stored, for a malformed email and for a
    one-character password; the stored record is untouched. *)
Lemma register_accepts_duplicate_and_malformed :
  find (by_email "alice@example.com") (docs alice_db) = Some alice
  /\ fst (register_handler fixture_libs (Some "Mallory") (Some "alice@example.com")
            (Some "x") 1000 alice_db) = alice_db
  /\ statusCode (snd (register_handler fixture_libs (Some "Mallory")
                        (Some "alice@example.com") (Some "x") 1000 alice_db)) = 201
  /\ statusCode (snd (register_handler fixture_libs (Some "Mallory")
                        (Some "not-an-email") (Some "x") 1000 alice_db)) = 201.
Proof. repeat match goal with |- _ /\ _ => split end; vm_compute; reflexivity. Qed.

(** C8 (the code departs from the claim).  Two guest-access calls at
    different times both fail with 500: the synthetic email is rejected by
    the schema's own pattern, so no guest account is created at all. *)
Lemma guest_access_creates_no_account :
  guest_email 1700000000000 = "guest_1700000000000@expensetracker.local"
  /\ createGuestUser fixture_libs GuestUndefined 1700000000000 alice_db
     = inl (ValidationFailed [("email", "Please enter a valid email")])
  /\ fst (guest_handler fixture_libs GuestUndefined 1700000000000 alice_db) = alice_db
  /\ statusCode (snd (guest_handler fixture_libs GuestUndefined 1700000000000 alice_db)) = 500
  /\ fst (guest_handler fixture_libs (GuestObject (mkGuestData (Some "USD") None))
            1700000000001 alice_db) = alice_db
  /\ statusCode (snd (guest_handler fixture_libs (GuestObject (mkGuestData (Some "USD") None))
                        1700000000001 alice_db)) = 500.
Proof.
  split; [vm_compute; reflexivity|].
  split.
  { unfold createGuestUser, insert, validation_errors. cbn [guest_parameter].
    cbn [email]. rewrite guest_email_rejected. vm_compute. reflexivity. }
  repeat match goal with |- _ /\ _ => split end;
    apply (guest_handler_rejected fixture_libs).
Qed.

(** * Further properties of the model *)

(** ** Login attempts and the lock *)

Section LockoutMore.

Variable L : Libs.

(** X1.  While the lock of an account is in force, login calls change nothing:
    each is answered with the account-locked error, the counter does not
    grow and the lock is not extended. *)
Theorem locked_account_ignores_attempts identifier (calls : list (string * Z)) db u t :
  find (credentials_query identifier) (docs db) = Some u ->
  lockUntil u = Some t ->
  Forall (fun call => snd call < t) calls ->
  login_calls L identifier calls db = (db, repeat (inl AccountLocked) (length calls)).
Proof.
  intros Hfind Hlock Hcalls.
  induction Hcalls as [|[pw now] calls Hnow _ IH]; [reflexivity|].
  simpl in Hnow. cbn [login_calls length repeat].
  assert (Hrun : findByCredentials L identifier (Some pw) now db = (db, inl AccountLocked)).
  { unfold findByCredentials, findOne_with_password, credentials_query in *.
    assert (Hl : isLocked now u = true)
      by (unfold isLocked; rewrite Hlock; apply Z.ltb_lt; exact Hnow).
    destruct (includes "@" identifier); rewrite Hfind, Hl; reflexivity. }
  rewrite Hrun, IH. reflexivity.
Qed.

Lemma wrong_password_runs identifier pw now db u :
  find (credentials_query identifier) (docs db) = Some u ->
  isLocked now u = false ->
  isActive u = true ->
  pw <> "" ->
  comparePassword L u pw = false ->
  findByCredentials L identifier (Some pw) now db
  = (incLoginAttempts now u db, inl InvalidCredentials).
Proof.
  intros Hfind Hlock Hact Hpw Hcmp.
  unfold findByCredentials, findOne_with_password, credentials_query in *.
  apply String.eqb_neq in Hpw.
  destruct (includes "@" identifier);
    rewrite Hfind, Hlock, Hact; simpl; rewrite Hpw; simpl; rewrite Hcmp; reflexivity.
Qed.

Lemma incLoginAttempts_stored identifier now db u :
  find (credentials_query identifier) (docs db) = Some u ->
  isLocked now u = false ->
  find (credentials_query identifier) (docs (incLoginAttempts now u db))
  = Some (if match lockUntil u with Some t => t <? now | None => false end
          then set_lockout 1 None u
          else set_lockout (loginAttempts u + 1)
                 (if 5 <=? loginAttempts u + 1 then Some (now + lock_window) else lockUntil u)
                 u).
Proof.
  intros Hfind Hlock. unfold incLoginAttempts.
  destruct (match lockUntil u with Some t => t <? now | None => false end).
  - apply find_updateOne; [intros d; apply credentials_query_lockout | exact Hfind].
  - rewrite Hlock, andb_true_r.
    apply (find_updateOne (credentials_query identifier)
             (fun d => set_lockout (loginAttempts d + 1)
                         (if 5 <=? loginAttempts u + 1
                          then Some (now + lock_window) else lockUntil d) d));
      [intros d; apply credentials_query_lockout | exact Hfind].
Qed.




(** X3.  Fewer than five consecutive wrong passwords never lock an account
    that has no lock: after [n] of them on a counter [c] with [c + n < 5]
    the stored counter is [c + n] and there is still no lock. *)
Theorem failures_below_threshold_do_not_lock identifier pw (times : list Z) :
  forall db u,
    find (credentials_query identifier) (docs db) = Some u ->
    lockUntil u = None ->
    isActive u = true ->
    pw <> "" ->
    comparePassword L u pw = false ->
    loginAttempts u + Z.of_nat (length times) < 5 ->
    exists db' u',
      login_calls L identifier (map (fun t => (pw, t)) times) db
      = (db', repeat (inl InvalidCredentials) (length times))
      /\ find (credentials_query identifier) (docs db') = Some u'
      /\ loginAttempts u' = loginAttempts u + Z.of_nat (length times)
      /\ lockUntil u' = None.
Proof.
  induction times as [|t times IH]; intros db u Hfind Hnone Hact Hpw Hcmp Hbelow.
  - exists db, u. cbn. rewrite Z.add_0_r. repeat split. exact Hfind. exact Hnone.
  - cbn [length map login_calls repeat].
    assert (Hlock : isLocked t u = false) by (unfold isLocked; rewrite Hnone; reflexivity).
    rewrite (wrong_password_runs identifier pw t db u Hfind Hlock Hact Hpw Hcmp).
    pose proof (incLoginAttempts_stored identifier t db u Hfind Hlock) as Hstored.
    rewrite Hnone in Hstored.
    assert (Hno : (5 <=? loginAttempts u + 1) = false).
    { apply Z.leb_gt. cbn [length] in Hbelow. lia. }
    rewrite Hno in Hstored.
    destruct (IH _ _ Hstored eq_refl Hact Hpw Hcmp) as (db' & u' & Hrun & Hfind' & Hcount & Hnone').
    { cbn [loginAttempts set_lockout]. cbn [length] in Hbelow. lia. }
    exists db', u'. rewrite Hrun. split; [reflexivity|]. split; [exact Hfind'|].
    split; [| exact Hnone'].
    rewrite Hcount. cbn [loginAttempts set_lockout length]. lia.
Qed.

End LockoutMore.

(** ** Sanitization, beyond the secrets *)

Section SanitizationMore.

(** The members [sanitizeUser] deletes. *)
Lemma sanitizeUser_lookup now ua k :
  sanitizeUser now ua !! k
  = if bool_decide (k ∈ ["password"; "passwordResetToken"; "passwordResetExpires";
                          "emailVerificationToken"; "emailVerificationExpires";
                          "loginAttempts"; "lockUntil"])
    then None
    else match ua with
         | Document u => toObject now u !! k
         | PlainObject o => o !! k
         end.
Proof.
  unfold sanitizeUser.
  case_bool_decide as Hk.
  - repeat (apply elem_of_cons in Hk as [-> | Hk]; [simplify_map_eq; reflexivity|]).
    inversion Hk.
  - rewrite !lookup_delete_ne; [destruct ua; reflexivity | ..];
      intros <-; apply Hk; set_solver.
Qed.

(** X4.  [sanitizeUser] removes the login-attempt counter and the lock
    timestamp besides the secrets, keeps every other member of the object
    as it is (for a document: its identifier, email, name, verification
    flag and guest flag among them), and sanitizing twice is sanitizing
    once. *)
Theorem sanitizeUser_keeps_public_members now ua :
  sanitizeUser now ua !! "loginAttempts" = None
  /\ sanitizeUser now ua !! "lockUntil" = None
  /\ (forall k,
        k ∉ ["password"; "passwordResetToken"; "passwordResetExpires";
             "emailVerificationToken"; "emailVerificationExpires";
             "loginAttempts"; "lockUntil"] ->
        sanitizeUser now ua !! k
        = match ua with
          | Document u => toObject now u !! k
          | PlainObject o => o !! k
          end)
  /\ (forall u, ua = Document u ->
        sanitizeUser now ua !! "_id" = Some (JId (_id u))
        /\ sanitizeUser now ua !! "email" = Some (JStr (email u))
        /\ sanitizeUser now ua !! "isEmailVerified" = Some (JBool (isEmailVerified u))
        /\ sanitizeUser now ua !! "isGuest" = Some (JBool (isGuest u)))
  /\ sanitizeUser now (PlainObject (sanitizeUser now ua)) = sanitizeUser now ua.
Proof.
  split; [rewrite sanitizeUser_lookup; reflexivity|].
  split; [rewrite sanitizeUser_lookup; reflexivity|].
  split.
  { intros k Hk. rewrite sanitizeUser_lookup. rewrite bool_decide_eq_false_2 by exact Hk.
    reflexivity. }
  split.
  { intros u ->. rewrite !sanitizeUser_lookup. cbn [bool_decide].
    unfold toObject, set_opt.
    destruct (name u), (password u); cbn [fmap option_fmap option_map];
      repeat split; simplify_map_eq; reflexivity. }
  apply map_eq. intros k.
  rewrite (sanitizeUser_lookup now (PlainObject _) k).
  case_bool_decide as Hk; [| reflexivity].
  rewrite sanitizeUser_lookup. rewrite bool_decide_eq_true_2 by exact Hk. reflexivity.
Qed.

End SanitizationMore.

(** ** The request gate *)

Section Gate.

Variable L : Libs.

(** X5.  What [authenticateToken] requires of a request it lets through, and
    how it answers the others: the attached user is a stored, active
    account named by the verified claims of the bearer token, loaded
    without its password hash; every rejection is a 401 or a 500 with an
    error body. *)
Theorem gate_admits_only_active_stored_users authorization db :
  (forall u,
      authenticateToken L authorization db = inr u ->
      exists token decoded id stored,
        bearer_token authorization = Some token
        /\ token <> ""
        /\ jwt_verify L token = Claims decoded
        /\ userId decoded = Some (JId id)
        /\ find (fun d => Nat.eqb (_id d) id) (docs db) = Some stored
        /\ isActive stored = true
        /\ u = set_password None stored)
  /\ (forall r,
        authenticateToken L authorization db = inl r ->
        (statusCode r = 401 \/ statusCode r = 500)
        /\ status (body r) = "error" /\ user (body r) = None /\ tokens (body r) = None).
Proof.
  unfold authenticateToken, findOne. split.
  - intros u H.
    destruct (bearer_token authorization) as [token|] eqn:Htok; [| discriminate H].
    cbn [truthy default from_option id] in H.
    destruct (String.eqb token "") eqn:Hne; [discriminate H|]. cbn [negb] in H.
    destruct (jwt_verify L token) as [decoded| |] eqn:Hver; try discriminate H.
    destruct (userId decoded) as [[| | | | |id|]|] eqn:Hid; try discriminate H.
    destruct (find _ (docs db)) as [stored|] eqn:Hfind; [| discriminate H].
    cbn [fmap option_fmap option_map] in H.
    change (isActive (set_password None stored)) with (isActive stored) in H.
    destruct (isActive stored) eqn:Hact; [| discriminate H].
    injection H as <-.
    exists token, decoded, id, stored. apply String.eqb_neq in Hne. repeat split; assumption.
  - intros r H.
    repeat match type of H with
           | (if ?c then _ else _) = _ => destruct c
           | match ?x with _ => _ end = _ => destruct x
           end;
      try discriminate H; injection H as <-; cbn; auto.
Qed.

(** X6.  [optionalAuth] attaches a user exactly when [authenticateToken] would
    let the request through, and then the same user. *)
Theorem optionalAuth_agrees_with_gate authorization db u :
  optionalAuth L authorization db = Some u <-> authenticateToken L authorization db = inr u.
Proof.
  unfold optionalAuth, authenticateToken.
  destruct (truthy (bearer_token authorization)); cbn [negb]; [| split; discriminate].
  destruct (jwt_verify L _) as [decoded| |]; try (split; discriminate).
  destruct (userId decoded) as [[| | | | |id|]|]; try (split; discriminate).
  destruct (findOne _ db) as [stored|]; [| split; discriminate].
  destruct (isActive stored); cbn [negb]; split; intros H; try discriminate H;
    injection H as <-; reflexivity.
Qed.

(** X7.  The capability guards partition the attached users: a guest passes
    [requireGuest] and is stopped by [requireAuth], a full account the
    other way round; [requireEmailVerification] passes exactly the
    verified users; without a user each guard stops the request; a guard
    only ever stops a request with 403. *)
Theorem guards_partition_users (req_user : option User) :
  (req_user = None ->
   requireGuest req_user <> None /\ requireAuth req_user <> None
   /\ requireEmailVerification req_user <> None)
  /\ (forall u, req_user = Some u ->
        (requireGuest req_user = None <-> isGuest u = true)
        /\ (requireAuth req_user = None <-> isGuest u = false)
        /\ (requireGuest req_user = None <-> requireAuth req_user <> None)
        /\ (requireEmailVerification req_user = None <-> isEmailVerified u = true))
  /\ (forall r, requireGuest req_user = Some r \/ requireAuth req_user = Some r
                \/ requireEmailVerification req_user = Some r ->
                statusCode r = 403).
Proof.
  split; [intros ->; repeat split; discriminate|].
  split.
  - intros u ->. unfold requireGuest, requireAuth, requireEmailVerification.
    destruct (isGuest u), (isEmailVerified u); cbn; repeat split; intros;
      try discriminate; try reflexivity; try congruence.
  - intros r. unfold requireGuest, requireAuth, requireEmailVerification.
    destruct req_user as [u|]; [destruct (isGuest u), (isEmailVerified u)|]; cbn;
      intros [H|[H|H]]; try discriminate H; injection H as <-; reflexivity.
Qed.

Lemma split_on_no_separator sep l :
  existsb (Ascii.eqb sep) l = false -> split_on sep l = [l].
Proof.
  induction l as [|c l IH]; [reflexivity|]. cbn [existsb split_on].
  intros H. apply orb_false_iff in H as [Hc Hl].
  rewrite Ascii.eqb_sym, Hc, (IH Hl). reflexivity.
Qed.

Lemma bearer_token_of_header token :
  includes " " token = false ->
  bearer_token (Some ("Bearer " ++ token)) = Some token.
Proof.
  intros Hspace. unfold bearer_token, includes in *.
  change (list_ascii_of_string ("Bearer " ++ token))
    with (list_ascii_of_string "Bearer" ++ " "%char :: list_ascii_of_string token)%list.
  change (split_on " " (list_ascii_of_string "Bearer"
                        ++ " "%char :: list_ascii_of_string token)%list)
    with (list_ascii_of_string "Bearer" :: split_on " " (list_ascii_of_string token)).
  rewrite (split_on_no_separator " " _ Hspace).
  cbn [nth_error fmap option_fmap option_map String.eqb append].
  rewrite string_of_list_ascii_of_string. reflexivity.
Qed.

(** X8.  A token issued for a stored, active account opens the gate for that
    account: when [jwt.verify] returns the payload that was signed and the
    token is a non-empty string without a space, the access token of
    [generateTokens], sent as [Bearer <token>], resolves to the stored
    account, for [authenticateToken], [optionalAuth] and the logout route
    alike; its claims carry the account's identifier and guest flag. *)
Theorem issued_token_passes_gate db u :
  let payload := mkPayload (Some (JId (_id u))) (Some (JStr (email u))) (isGuest u) in
  let accessToken := fst (generateTokens L (Document u)) in
  jwt_verify L (jwt_sign L AccessToken payload) = Claims payload ->
  accessToken <> "" ->
  includes " " accessToken = false ->
  find (fun d => Nat.eqb (_id d) (_id u)) (docs db) = Some u ->
  isActive u = true ->
  accessToken = jwt_sign L AccessToken payload
  /\ authenticateToken L (Some ("Bearer " ++ accessToken)) db = inr (set_password None u)
  /\ logout_handler L (Some ("Bearer " ++ accessToken)) db
     = json_message 200 "success" "Logout successful"
  /\ optionalAuth L (Some ("Bearer " ++ accessToken)) db = Some (set_password None u).
Proof.
  intros payload accessToken Hround Hne Hspace Hfind Hact.
  assert (Hgate : authenticateToken L (Some ("Bearer " ++ accessToken)) db
                  = inr (set_password None u)).
  { unfold authenticateToken. rewrite (bearer_token_of_header accessToken Hspace).
    cbn [truthy default from_option id]. apply String.eqb_neq in Hne. rewrite Hne. cbn [negb].
    change accessToken with (jwt_sign L AccessToken payload). rewrite Hround.
    cbn [userId payload]. unfold findOne. rewrite Hfind.
    cbn [fmap option_fmap option_map].
    change (isActive (set_password None u)) with (isActive u). rewrite Hact. reflexivity. }
  split; [reflexivity|]. split; [exact Hgate|].
  split; [unfold logout_handler; rewrite Hgate; reflexivity|].
  unfold optionalAuth. rewrite (bearer_token_of_header accessToken Hspace).
  cbn [truthy default from_option id]. apply String.eqb_neq in Hne. rewrite Hne. cbn [negb].
  change accessToken with (jwt_sign L AccessToken payload). rewrite Hround.
  cbn [userId payload]. unfold findOne. rewrite Hfind.
  cbn [fmap option_fmap option_map].
  change (isActive (set_password None u)) with (isActive u). rewrite Hact. reflexivity.
Qed.

End Gate.

(** ** Email verification *)

Section EmailVerification.

Variable L : Libs.

Lemma write_modified_verified tok t u cur :
  emailVerificationToken u = Some tok ->
  emailVerificationExpires u = Some t ->
  write_modified (set_password None u)
    (set_emailVerification None None (set_isEmailVerified true (set_password None u))) cur
  = set_emailVerification None None
      (set_isEmailVerified (pick (isEmailVerified u) true (isEmailVerified cur)) cur).
Proof.
  intros Htok Hexp. destruct cur.
  unfold write_modified, set_emailVerification, set_isEmailVerified, set_password.
  cbn. rewrite Htok, Hexp, !pick_same.
  rewrite (pick_changed (Some tok) None), (pick_changed (Some t) None) by discriminate.
  reflexivity.
Qed.

Lemma save_verified u db :
  validation_errors (set_password None u) = [] ->
  save L true (set_password None u)
    (set_emailVerification None None (set_isEmailVerified true (set_password None u))) db
  = let doc := set_emailVerification None None
                 (set_isEmailVerified true (set_password None u)) in
    inr (updateOne (_id u) (write_modified (set_password None u) doc) db, doc).
Proof.
  intros Hvalid. unfold save.
  change (validation_errors
            (set_emailVerification None None
               (set_isEmailVerified true (set_password None u))))
    with (validation_errors (set_password None u)).
  rewrite Hvalid. unfold pre_save.
  cbn [password isEmailVerified set_password set_isEmailVerified set_emailVerification].
  rewrite bool_decide_eq_true_2 by reflexivity. cbn [negb andb].
  destruct (negb (bool_decide (isEmailVerified u = true))); reflexivity.
Qed.

(** X9.  The verification token is single-use and expires.  For the one stored
    account that carries the hash of [token], with expiry [t]: once the
    expiry is not in the future the route answers 400 and changes nothing;
    before that (the stored record being schema-valid) it answers 200, the
    account is verified and its token and expiry are cleared, no stored
    account carries the hash any more, and a second call with the same
    token answers 400 and changes nothing. *)
Theorem verification_token_single_use token (now now2 t : Z) db u :
  truthy token = true ->
  In u (docs db) ->
  emailVerificationToken u = Some (sha256_hex L (default "" token)) ->
  emailVerificationExpires u = Some t ->
  (forall d, In d (docs db) ->
             emailVerificationToken d = Some (sha256_hex L (default "" token)) -> d = u) ->
  validation_errors (set_password None u) = [] ->
  (t <= now ->
   verify_email_handler L token now db
   = (db, json_error 400 "Invalid or expired verification token"))
  /\ (now < t ->
      exists db',
        verify_email_handler L token now db
        = (db', json_message 200 "success" "Email verified successfully")
        /\ In (set_emailVerification None None (set_isEmailVerified true u)) (docs db')
        /\ (forall d, In d (docs db') ->
                      emailVerificationToken d <> Some (sha256_hex L (default "" token)))
        /\ verify_email_handler L token now2 db'
           = (db', json_error 400 "Invalid or expired verification token")).
Proof.
  intros Htruthy Hin Htok Hexp Huniq Hvalid.
  set (hash := sha256_hex L (default "" token)) in *.
  assert (Hmiss : forall n db0,
             (forall d, In d (docs db0) -> verification_query hash n d = false) ->
             verify_email_handler L token n db0
             = (db0, json_error 400 "Invalid or expired verification token")).
  { intros n db0 Hall. unfold verify_email_handler, findOne. rewrite Htruthy. cbn [negb].
    fold hash. rewrite (find_all_false _ _ Hall). reflexivity. }
  split.
  - intros Hpast. apply Hmiss. intros d Hd. unfold verification_query.
    destruct (opt_is hash (emailVerificationToken d)) eqn:Hd_tok; [| reflexivity].
    apply opt_is_true in Hd_tok. rewrite (Huniq d Hd Hd_tok), Hexp. simpl.
    apply Z.ltb_ge. exact Hpast.
  - intros Hfuture.
    assert (Hfind : find (verification_query hash now) (docs db) = Some u).
    { apply find_unique; [exact Hin | |].
      - unfold verification_query. rewrite Htok, Hexp. simpl.
        rewrite String.eqb_refl. apply Z.ltb_lt. exact Hfuture.
      - intros d Hd Hq. unfold verification_query in Hq.
        apply andb_true_iff in Hq as [Hq _]. apply opt_is_true in Hq.
        apply Huniq; assumption. }
    set (doc := set_emailVerification None None
                  (set_isEmailVerified true (set_password None u))).
    set (db' := updateOne (_id u) (write_modified (set_password None u) doc) db).
    assert (Hgone : forall d, In d (docs db') -> emailVerificationToken d <> Some hash).
    { intros d Hd Hcarry. unfold db', updateOne in Hd. simpl in Hd.
      apply in_map_iff in Hd as (d0 & <- & Hd0).
      destruct (Nat.eqb (_id d0) (_id u)) eqn:Hid.
      - unfold doc in Hcarry. rewrite (write_modified_verified _ _ u d0 Htok Hexp) in Hcarry.
        discriminate Hcarry.
      - rewrite (Huniq d0 Hd0 Hcarry), Nat.eqb_refl in Hid. discriminate. }
    exists db'. repeat split.
    + unfold verify_email_handler, findOne. rewrite Htruthy. cbn [negb]. fold hash.
      rewrite Hfind. cbn [fmap option_fmap option_map].
      rewrite (save_verified u db Hvalid). reflexivity.
    + unfold db', updateOne. simpl. apply in_map_iff. exists u.
      rewrite Nat.eqb_refl. split; [| exact Hin].
      unfold doc. rewrite (write_modified_verified _ _ u u Htok Hexp), pick_self.
      reflexivity.
    + exact Hgone.
    + apply Hmiss. intros d Hd. unfold verification_query.
      destruct (opt_is hash (emailVerificationToken d)) eqn:Hd_tok; [| reflexivity].
      apply opt_is_true in Hd_tok. exfalso. exact (Hgone d Hd Hd_tok).
Qed.

End EmailVerification.

(** ** Token refresh *)

Section Refresh.

Variable L : Libs.

(** X10.  [POST /refresh] answers 200 exactly when the refresh token verifies
    and names a stored, active account, and then the new pair of tokens is
    signed for the account as it is stored now (identifier, email and guest
    flag of the record, not the claims of the old token); every other
    request is answered with 401 and no tokens. *)
Theorem refresh_reissues_from_store verify_refresh refreshToken db :
  let r := refresh_handler L verify_refresh refreshToken db in
  (statusCode r = 200 \/ statusCode r = 401 /\ tokens (body r) = None)
  /\ (statusCode r = 200 <->
      exists decoded id stored,
        truthy refreshToken = true
        /\ verify_refresh (default "" refreshToken) = Claims decoded
        /\ userId decoded = Some (JId id)
        /\ find (fun d => Nat.eqb (_id d) id) (docs db) = Some stored
        /\ isActive stored = true
        /\ tokens (body r) = Some (generateTokens L (Document stored))).
Proof.
  cbv zeta. unfold refresh_handler, verifyRefreshToken, findOne.
  destruct (truthy refreshToken); cbn [negb].
  2:{ split; [right; split; reflexivity|].
      split; [discriminate | intros (? & ? & ? & H & _); discriminate H]. }
  destruct (verify_refresh (default "" refreshToken)) as [decoded| |].
  2,3: (split; [right; split; reflexivity|];
        split; [discriminate | intros (? & ? & ? & _ & H & _); discriminate H]).
  destruct (userId decoded) as [[| | | | |id|]|] eqn:Hid;
    try (split; [right; split; reflexivity|];
         split; [discriminate | intros (? & ? & ? & _ & H1 & H2 & _);
                                injection H1 as <-; rewrite Hid in H2; discriminate H2]).
  destruct (find _ (docs db)) as [stored|] eqn:Hfind; cbn [fmap option_fmap option_map].
  2:{ split; [right; split; reflexivity|].
      split; [discriminate|].
      intros (? & ? & ? & _ & H1 & H2 & H3 & _).
      injection H1 as <-. rewrite Hid in H2. injection H2 as <-.
      rewrite Hfind in H3. discriminate H3. }
  change (isActive (set_password None stored)) with (isActive stored).
  destruct (isActive stored) eqn:Hact; cbn [negb].
  - split; [left; reflexivity|].
    split; [intros _ | reflexivity].
    exists decoded, id, stored. repeat split; assumption.
  - split; [right; split; reflexivity|].
    split; [discriminate|].
    intros (? & ? & ? & _ & H1 & H2 & H3 & H4 & _).
    injection H1 as <-. rewrite Hid in H2. injection H2 as <-.
    rewrite Hfind in H3. injection H3 as <-.
    rewrite Hact in H4. discriminate H4.
Qed.

End Refresh.

(** ** The user routes: changing the password, deleting the account *)

Section UserRoutes.

Variable L : Libs.

Lemma change_password_validation_ok current new confirm :
  change_password_validation current new confirm = [] ->
  exists p, new = Some p /\ (String.length p <? 8)%nat = false /\ strong_password p = true
            /\ truthy current = true /\ confirm = new.
Proof.
  unfold change_password_validation. intros Hval.
  destruct (truthy current); [| discriminate Hval]. cbn [app] in Hval.
  destruct (String.length (default "" new) <? 8)%nat eqn:Hlen; [discriminate Hval|].
  destruct (strong_password (default "" new)) eqn:Hstrong; [| discriminate Hval].
  cbn [app] in Hval.
  case_bool_decide as Hconfirm; [| discriminate Hval].
  destruct new as [p|]; [| discriminate Hlen].
  exists p. repeat split; assumption.
Qed.

Lemma write_modified_own_password h u :
  write_modified u (set_passwordReset None None (set_password (Some h) u)) u
  = set_passwordReset None None (set_password (Some h) u).
Proof.
  destruct u. unfold write_modified, set_passwordReset, set_password.
  cbn. rewrite !pick_same, !pick_self. reflexivity.
Qed.

Lemma write_modified_isActive u :
  write_modified u (set_isActive false u) u = set_isActive false u.
Proof.
  destruct u. unfold write_modified, set_isActive. cbn.
  rewrite !pick_same, !pick_self. reflexivity.
Qed.

(** X11.  Changing the password.  A wrong current password is answered with 400
    and nothing is written.  With the right one (the record being
    schema-valid and the new password not being the stored hash itself)
    the answer is 200 and the stored account carries the bcrypt hash of
    the new password, never the password itself, and no reset token; so
    when [bcrypt] accepts a password against its own hash, the new
    password passes [comparePassword] from then on. *)
Theorem change_password_rehashes req_user current new confirm db u :
  change_password_validation current new confirm = [] ->
  find (fun d => Nat.eqb (_id d) (_id req_user)) (docs db) = Some u ->
  (comparePassword L u (default "" current) = false ->
   change_password_handler L req_user current new confirm db
   = (db, json_error 400 "Current password is incorrect"))
  /\ (comparePassword L u (default "" current) = true ->
      validation_errors (set_password None u) = [] ->
      password u <> new ->
      exists db' stored,
        change_password_handler L req_user current new confirm db
        = (db', json_message 200 "success" "Password changed successfully")
        /\ find (fun d => Nat.eqb (_id d) (_id req_user)) (docs db') = Some stored
        /\ password stored = Some (bcrypt_hash L (default "" new))
        /\ passwordResetToken stored = None /\ passwordResetExpires stored = None
        /\ email stored = email u /\ isActive stored = isActive u
        /\ (bcrypt_hash L (default "" new) <> "" ->
            bcrypt_compare L (default "" new) (bcrypt_hash L (default "" new)) = true ->
            comparePassword L stored (default "" new) = true)).
Proof.
  intros Hval Hfind.
  destruct (change_password_validation_ok current new confirm Hval)
    as (p & -> & Hlen & _ & _ & _).
  cbn [default from_option id].
  split.
  - intros Hwrong. unfold change_password_handler, findOne_with_password.
    rewrite Hval, Hfind, Hwrong. reflexivity.
  - intros Hright Hvalid Hdiff.
    assert (Hschema : validation_errors (set_password (Some p) u) = []).
    { unfold validation_errors in *.
      cbn [name email password currency theme language set_password] in *.
      rewrite Hlen. exact Hvalid. }
    assert (Hsave : save L true u (set_password (Some p) u) db
                    = let doc := set_passwordReset None None
                                   (set_password (Some (bcrypt_hash L p)) u) in
                      inr (updateOne (_id u) (write_modified u doc) db, doc)).
    { unfold save. rewrite Hschema. unfold pre_save.
      cbn [password isEmailVerified set_password].
      rewrite bool_decide_eq_false_2 by exact Hdiff.
      rewrite bool_decide_eq_true_2 by reflexivity. reflexivity. }
    assert (Hid : Nat.eqb (_id u) (_id req_user) = true)
      by exact (find_some_true _ _ _ Hfind).
    set (doc := set_passwordReset None None (set_password (Some (bcrypt_hash L p)) u)).
    exists (updateOne (_id u) (write_modified u doc) db), doc.
    split.
    { unfold change_password_handler, findOne_with_password.
      rewrite Hval, Hfind, Hright. cbn [negb]. rewrite Hsave. reflexivity. }
    split.
    { pose proof (write_modified_own_password (bcrypt_hash L p) u) as Hown.
      fold doc in Hown. rewrite <- Hown at 2.
      apply (find_updateOne (fun d => Nat.eqb (_id d) (_id req_user))
               (write_modified u doc) db u); [intros d; reflexivity | exact Hfind]. }
    repeat split.
    intros Hne Hcmp. unfold comparePassword, doc. cbn.
    apply String.eqb_neq in Hne. rewrite Hne. exact Hcmp.
Qed.

(** X12.  Deleting the account deactivates it and removes nothing.  With the
    right password (the stored record being schema-valid) the answer is
    200, the collection keeps its size and the account is stored with
    [isActive] false; from then on a bearer token for that account is
    stopped at the gate with 401, [optionalAuth] attaches no user, and a
    login is refused with "Account is deactivated" while no lock is in
    force.  A wrong password is answered with 400 and nothing is written. *)
Theorem delete_account_deactivates req_user pw db u :
  truthy pw = true ->
  find (fun d => Nat.eqb (_id d) (_id req_user)) (docs db) = Some u ->
  (comparePassword L u (default "" pw) = false ->
   delete_account_handler L req_user pw db = (db, json_error 400 "Password is incorrect"))
  /\ (comparePassword L u (default "" pw) = true ->
      validation_errors u = [] ->
      exists db',
        delete_account_handler L req_user pw db
        = (db', json_message 200 "success" "Account deactivated successfully")
        /\ length (docs db') = length (docs db)
        /\ find (fun d => Nat.eqb (_id d) (_id req_user)) (docs db')
           = Some (set_isActive false u)
        /\ (forall authorization decoded,
              truthy (bearer_token authorization) = true ->
              jwt_verify L (default "" (bearer_token authorization)) = Claims decoded ->
              userId decoded = Some (JId (_id req_user)) ->
              authenticateToken L authorization db'
              = inl (json_error 401 "Account is deactivated")
              /\ optionalAuth L authorization db' = None)
        /\ (forall identifier pw' now,
              find (credentials_query identifier) (docs db) = Some u ->
              isLocked now u = false ->
              findByCredentials L identifier pw' now db' = (db', inl AccountDeactivated))).
Proof.
  intros Hpw Hfind. split.
  - intros Hwrong. unfold delete_account_handler, findOne_with_password.
    rewrite Hpw, Hfind, Hwrong. reflexivity.
  - intros Hright Hvalid.
    assert (Hsave : save L true u (set_isActive false u) db
                    = inr (updateOne (_id u) (write_modified u (set_isActive false u)) db,
                           set_isActive false u)).
    { unfold save.
      change (validation_errors (set_isActive false u)) with (validation_errors u).
      rewrite Hvalid. unfold pre_save. cbn [password isEmailVerified set_isActive].
      rewrite !bool_decide_eq_true_2 by reflexivity. reflexivity. }
    set (f := write_modified u (set_isActive false u)).
    set (db' := updateOne (_id u) f db).
    assert (Hstored : forall q, (forall d, q (f d) = q d) -> find q (docs db) = Some u ->
                                find q (docs db') = Some (set_isActive false u)).
    { intros q Hq Hq_find. rewrite <- write_modified_isActive.
      apply (find_updateOne q f db u Hq Hq_find). }
    assert (Hid : find (fun d => Nat.eqb (_id d) (_id req_user)) (docs db')
                  = Some (set_isActive false u))
      by (apply Hstored; [intros d; reflexivity | exact Hfind]).
    exists db'. split.
    { unfold delete_account_handler, findOne_with_password.
      rewrite Hpw, Hfind, Hright. cbn [negb]. rewrite Hsave. reflexivity. }
    split; [apply length_updateOne|]. split; [exact Hid|]. split.
    + intros authorization decoded Htok Hver Huser.
      unfold authenticateToken, optionalAuth, findOne.
      rewrite Htok, Hver, Huser, Hid. split; reflexivity.
    + intros identifier pw' now Hq Hlock.
      assert (Hq' : find (credentials_query identifier) (docs db')
                    = Some (set_isActive false u)).
      { apply Hstored; [| exact Hq].
        intros d. unfold f, credentials_query, by_email, write_modified.
        destruct (includes "@" identifier); cbn [email googleId facebookId];
          rewrite !pick_same; reflexivity. }
      unfold findByCredentials, findOne_with_password, credentials_query in *.
      destruct (includes "@" identifier); rewrite Hq';
        change (isLocked now (set_isActive false u)) with (isLocked now u);
        rewrite Hlock; reflexivity.
Qed.

End UserRoutes.

(** ** What the schema's email pattern accepts, and who can be created *)

Section EmailsAndCreation.

Variable L : Libs.

(** X13.  Every email the schema's pattern accepts ends in a dot followed by two
    or three more characters; so an address whose third and fourth
    characters from the end are not dots (a top-level domain of four
    letters or more, such as [.info] or [.local]) is rejected. *)
Theorem schema_emails_end_with_short_tld :
  (forall s, Regex.test email_pattern s = true ->
             ends_with_short_tld (list_ascii_of_string s))
  /\ (forall pre (x1 x2 x3 x4 : ascii),
        x1 <> "."%char -> x2 <> "."%char ->
        Regex.test email_pattern (string_of_list_ascii (pre ++ [x1; x2; x3; x4])%list)
        = false).
Proof.
  split.
  - intros s Htest. apply email_pattern_ends_with_short_tld, matches_sound, Htest.
  - intros pre x1 x2 x3 x4 H1 H2.
    destruct (Regex.test _ _) eqn:Htest; [exfalso | reflexivity].
    unfold Regex.test in Htest.
    apply matches_sound, email_pattern_ends_with_short_tld in Htest.
    rewrite list_ascii_of_string_of_list_ascii in Htest.
    revert Htest. apply no_short_tld; assumption.
Qed.

(** X14.  Guest access never creates an account, whatever the guest data
    (absent, [null] or an object), the clock and the collection.  For
    [null], [createGuestUser] throws a [TypeError] before the model is
    called; otherwise it is refused by the schema's validation of the
    synthetic email.  Either way the route answers 500 with the message
    "Guest access failed", no user and no tokens, and writes nothing. *)
Theorem guest_access_never_creates_an_account guestData now db :
  match guestData with
  | GuestNull =>
      createGuestUser L guestData now db
      = inl (TypeError "Cannot read properties of null (reading 'currency')")
  | _ =>
      exists es,
        createGuestUser L guestData now db
        = inl (ValidationFailed (("email", "Please enter a valid email") :: es))
  end
  /\ fst (guest_handler L guestData now db) = db
  /\ statusCode (snd (guest_handler L guestData now db)) = 500
  /\ message (body (snd (guest_handler L guestData now db))) = Some "Guest access failed"
  /\ user (body (snd (guest_handler L guestData now db))) = None
  /\ tokens (body (snd (guest_handler L guestData now db))) = None.
Proof.
  split; [apply createGuestUser_rejected|].
  unfold guest_handler.
  destruct (createGuestUser_fails L guestData now db) as (e & ->).
  repeat split.
Qed.

Lemma facebook_fallback_rejected id :
  Regex.test email_pattern (email_setter ("facebook_" ++ id ++ "@facebook.local")) = false.
Proof. exact (local_email_rejected id "f" "acebook_" "facebook" eq_refl). Qed.

Lemma facebook_fallback_not_empty id :
  String.eqb (email_setter ("facebook_" ++ id ++ "@facebook.local")) "" = false.
Proof. exact (local_email_not_empty id "f" "acebook_" "facebook" eq_refl). Qed.

(** X15.  A Facebook profile without an email that matches no stored account by
    its identifier is never given an account: the record built with the
    fallback email [facebook_<id>@facebook.local] is refused by the
    schema, the callback reports the validation error and writes nothing. *)
Theorem facebook_without_email_creates_no_account profile now db :
  find (fun d => opt_is (profile_id profile) (facebookId d)) (docs db) = None ->
  first_email profile = None ->
  exists es,
    facebook_verify L profile now db
    = (db, inl (ValidationFailed es))
    /\ In ("email", "Please enter a valid email") es.
Proof.
  intros Hid Hemail. unfold facebook_verify, findOne. rewrite Hid.
  cbn [fmap option_fmap option_map]. fold (first_email profile). rewrite Hemail.
  cbn [mbind option_bind]. unfold create_and_done, insert.
  set (doc := facebook_new_user profile None now (nextId db)).
  assert (Hinvalid : exists before rest,
             validation_errors doc
             = (before ++ ("email", "Please enter a valid email") :: rest)%list).
  { unfold validation_errors. cbn [email doc facebook_new_user default from_option].
    rewrite facebook_fallback_rejected, facebook_fallback_not_empty.
    eexists _, _. reflexivity. }
  destruct Hinvalid as (before & rest & Herrs).
  destruct (validation_errors doc) as [|e es] eqn:Hdoc.
  - destruct before; discriminate Herrs.
  - exists (e :: es). split; [reflexivity|].
    rewrite Herrs. apply in_or_app. right. left. reflexivity.
Qed.

End EmailsAndCreation.

(** ** The unique index on email *)

Section UniqueEmails.

Variable L : Libs.
Local Open Scope list_scope.

Lemma updateOne_emails id f db :
  (forall d, email (f d) = email d) ->
  map email (docs (updateOne id f db)) = map email (docs db).
Proof.
  intros Hf. unfold updateOne. cbn [docs]. rewrite map_map. apply map_ext.
  intros d. destruct (Nat.eqb (_id d) id); [apply Hf | reflexivity].
Qed.

Lemma pre_save_email isNew pm vm doc d :
  pre_save L isNew pm vm doc = inr d -> email d = email doc.
Proof.
  unfold pre_save. intros H.
  destruct pm; [destruct (password doc); [| discriminate H]|];
    repeat match type of H with
           | context [if ?c then _ else _] => destruct c
           end;
    injection H as <-; reflexivity.
Qed.

Lemma save_emails v loaded doc db db' doc' :
  save L v loaded doc db = inr (db', doc') ->
  email loaded = email doc ->
  map email (docs db') = map email (docs db).
Proof.
  unfold save. intros H Hemail.
  destruct (if v then validation_errors doc else []); [| discriminate H].
  destruct (pre_save L false _ _ doc) as [e|d] eqn:Hhooks; [discriminate H|].
  injection H as <- <-. apply updateOne_emails. intros cur.
  unfold write_modified. cbn [email].
  rewrite (pre_save_email _ _ _ _ _ Hhooks), Hemail. apply pick_same.
Qed.

Lemma insert_emails doc db db' doc' :
  insert L doc db = inr (db', doc') ->
  map email (docs db') = map email (docs db) ++ [email doc]
  /\ ~ In (email doc) (map email (docs db)).
Proof.
  unfold insert. intros H.
  destruct (validation_errors doc); [| discriminate H].
  destruct (pre_save L true _ true doc) as [e|d] eqn:Hhooks; [discriminate H|].
  destruct (existsb (same_email (email d)) (docs db)) eqn:Hdup; [discriminate H|].
  injection H as <- <-. cbn [docs]. rewrite map_app. cbn [map].
  rewrite (pre_save_email _ _ _ _ _ Hhooks) in *. split; [reflexivity|].
  intros Hin. apply in_map_iff in Hin as (x & Hx & Hin).
  assert (Hfalse : existsb (same_email (email doc)) (docs db) = true).
  { apply existsb_exists. exists x. split; [exact Hin|].
    unfold same_email. rewrite Hx. apply String.eqb_refl. }
  rewrite Hfalse in Hdup. discriminate Hdup.
Qed.

Lemma emails_unique_insert doc db db' doc' :
  emails_unique db -> insert L doc db = inr (db', doc') -> emails_unique db'.
Proof.
  unfold emails_unique. intros Huniq H.
  destruct (insert_emails doc db db' doc' H) as [-> Hfresh].
  apply NoDup_app. split; [exact Huniq|]. split.
  - intros x Hx Hin. apply list_elem_of_In in Hx, Hin.
    destruct Hin as [<- | []]. exact (Hfresh Hx).
  - apply NoDup_singleton.
Qed.

Lemma emails_unique_same db db' :
  emails_unique db -> map email (docs db') = map email (docs db) -> emails_unique db'.
Proof. unfold emails_unique. intros H ->. exact H. Qed.

Lemma findByCredentials_emails identifier pw now db :
  map email (docs (fst (findByCredentials L identifier pw now db))) = map email (docs db).
Proof.
  unfold findByCredentials.
  destruct (if includes "@" identifier then _ else _) as [u|]; [| reflexivity].
  destruct (isLocked now u); [reflexivity|].
  destruct (negb (isActive u)); [reflexivity|].
  destruct (truthy pw && negb (comparePassword L u (default "" pw))).
  - cbn [fst]. unfold incLoginAttempts.
    destruct (match lockUntil u with Some t => t <? now | None => false end);
      apply updateOne_emails; reflexivity.
  - assert (Hreset : map email (docs (if 0 <? loginAttempts u
                                      then resetLoginAttempts u db else db))
                     = map email (docs db)).
    { destruct (0 <? loginAttempts u); [| reflexivity].
      apply updateOne_emails. reflexivity. }
    destruct (save L false u (set_lastLogin now u) _) as [e|[db2 u']] eqn:Hsave;
      cbn [fst]; [exact Hreset|].
    rewrite (save_emails _ _ _ _ _ _ Hsave eq_refl). exact Hreset.
Qed.

Lemma touch_and_done_emails loaded doc now db :
  email loaded = email doc ->
  map email (docs (fst (touch_and_done L loaded doc now db))) = map email (docs db).
Proof.
  intros Hemail. unfold touch_and_done.
  destruct (save L false loaded (set_lastLogin now doc) db) as [e|[db' u]] eqn:Hsave;
    [reflexivity|].
  cbn [fst]. apply (save_emails _ _ _ _ _ _ Hsave). exact Hemail.
Qed.

Lemma create_and_done_unique doc db :
  emails_unique db -> emails_unique (fst (create_and_done L doc db)).
Proof.
  intros Huniq. unfold create_and_done.
  destruct (insert L doc db) as [e|[db' u]] eqn:Hinsert; [exact Huniq|].
  cbn [fst]. exact (emails_unique_insert doc db db' u Huniq Hinsert).
Qed.

(** Giving one account an email that no other account has keeps the
    emails distinct. *)
Lemma updateOne_fresh_email id f e' db :
  (forall d, email (f d) = e') ->
  NoDup (map _id (docs db)) ->
  emails_unique db ->
  existsb (fun d => same_email e' d && negb (Nat.eqb (_id d) id)) (docs db) = false ->
  emails_unique (updateOne id f db).
Proof.
  intros Hf. unfold emails_unique, updateOne. destruct db as [l n]. cbn [docs].
  induction l as [|d l IH]; [intros; constructor|].
  cbn [map existsb]. intros Hids Hemails Hfresh.
  apply NoDup_cons in Hids as [Hid Hids]. apply NoDup_cons in Hemails as [Hemail Hemails].
  apply orb_false_iff in Hfresh as [Hd Hfresh].
  rewrite list_elem_of_In in Hid. rewrite list_elem_of_In in Hemail.
  assert (Hothers : forall x, In x l -> Nat.eqb (_id x) id = false -> email x <> e').
  { intros x Hx Hne Heq.
    assert (Hdup : existsb (fun d => same_email e' d && negb (Nat.eqb (_id d) id)) l = true).
    { apply existsb_exists. exists x. split; [exact Hx|].
      unfold same_email. rewrite Heq, String.eqb_refl, Hne. reflexivity. }
    rewrite Hdup in Hfresh. discriminate Hfresh. }
  apply NoDup_cons. split; [| exact (IH Hids Hemails Hfresh)].
  rewrite list_elem_of_In. intros Hin.
  apply in_map_iff in Hin as (x & Hx & Hin). apply in_map_iff in Hin as (y & <- & Hy).
  destruct (Nat.eqb_spec (_id d) id) as [Heq|Hne].
  - destruct (Nat.eqb (_id y) id) eqn:Hy_id.
    + apply Hid. apply Nat.eqb_eq in Hy_id. rewrite Heq, <- Hy_id. apply in_map, Hy.
    + rewrite Hf in Hx. exact (Hothers y Hy Hy_id Hx).
  - destruct (Nat.eqb (_id y) id) eqn:Hy_id.
    + rewrite Hf in Hx. apply andb_false_iff in Hd as [Hd|Hd].
      * unfold same_email in Hd. rewrite Hx, String.eqb_refl in Hd. discriminate Hd.
      * discriminate Hd.
    + apply Hemail. rewrite <- Hx. apply in_map, Hy.
Qed.

Lemma upgrade_guest_handler_unique req_user req_name e pw verificationToken now db :
  NoDup (map _id (docs db)) ->
  emails_unique db ->
  emails_unique (fst (upgrade_guest_handler L req_user req_name e pw verificationToken now db)).
Proof.
  intros Hids Huniq. unfold upgrade_guest_handler.
  destruct (upgrade_validation L req_name e pw); [| exact Huniq].
  destruct (negb (isGuest req_user)); [exact Huniq|].
  destruct (findOne _ db); [exact Huniq|].
  unfold findByIdAndUpdate.
  destruct (update_validation_errors _ _ _); [| exact Huniq].
  destruct (find _ (docs db)) as [u|]; [| exact Huniq].
  destruct (existsb _ (docs db)) eqn:Hfresh; [exact Huniq|].
  assert (H1 : emails_unique
                 (updateOne (_id req_user)
                    (upgrade_update (trim (default "" req_name))
                       (normalizeEmail L (default "" e)) (default "" pw)) db)).
  { apply (updateOne_fresh_email _ _ (email_setter (normalizeEmail L (default "" e))));
      [reflexivity | exact Hids | exact Huniq | exact Hfresh]. }
  destruct (findOne _ _) as [loaded|]; [| exact H1].
  destruct (save L false loaded _ _) as [err|[db2 user2]] eqn:Hsave; [exact H1|].
  cbn [fst]. apply (emails_unique_same _ _ H1).
  exact (save_emails _ _ _ _ _ _ Hsave eq_refl).
Qed.

(** X16.  No operation breaks the uniqueness of stored emails.  The operations
    that update an account (login, password reset and its request, email
    verification, password change, account deletion, the first two OAuth
    tiers) leave the stored emails as they are; the operations that create
    an account (the third OAuth tier, guest access) go through an insert
    that refuses an email already stored; registration does not write;
    upgrading a guest, the one operation that changes a stored email,
    keeps them distinct as long as the identifiers are. *)
Theorem operations_keep_emails_unique db :
  emails_unique db ->
  (forall identifier pw now,
      emails_unique (fst (findByCredentials L identifier pw now db)))
  /\ (forall connected e pw now,
        emails_unique (fst (login_handler L connected e pw now db)))
  /\ (forall name e pw now, emails_unique (fst (register_handler L name e pw now db)))
  /\ (forall guestData now, emails_unique (fst (guest_handler L guestData now db)))
  /\ (forall sendEmail e resetToken now,
        emails_unique (fst (forgot_password_handler L sendEmail e resetToken now db)))
  /\ (forall token pw now, emails_unique (fst (reset_password_handler L token pw now db)))
  /\ (forall token now, emails_unique (fst (verify_email_handler L token now db)))
  /\ (forall profile now, emails_unique (fst (google_verify L profile now db)))
  /\ (forall profile now, emails_unique (fst (facebook_verify L profile now db)))
  /\ (forall req_user current new confirm,
        emails_unique (fst (change_password_handler L req_user current new confirm db)))
  /\ (forall req_user pw, emails_unique (fst (delete_account_handler L req_user pw db)))
  /\ (forall req_user name e pw verificationToken now,
        NoDup (map _id (docs db)) ->
        emails_unique
          (fst (upgrade_guest_handler L req_user name e pw verificationToken now db))).
Proof.
  intros Huniq.
  split.
  { intros. apply (emails_unique_same db); [exact Huniq | apply findByCredentials_emails]. }
  split.
  { intros connected e pw now. unfold login_handler.
    destruct (login_validation L e pw); [| exact Huniq].
    destruct (negb connected); [exact Huniq|].
    pose proof (findByCredentials_emails (normalizeEmail L (default "" e)) pw now db) as H.
    destruct (findByCredentials L _ pw now db) as [db' [err|u]]; cbn [fst] in *;
      apply (emails_unique_same db); assumption. }
  split.
  { intros name e pw now. unfold register_handler.
    destruct (_ || _); exact Huniq. }
  split.
  { intros guestData now. unfold guest_handler, createGuestUser.
    destruct (guest_parameter guestData) as [gd|]; [| exact Huniq].
    destruct (insert L _ db) as [err|[db' u]] eqn:Hinsert; [exact Huniq|].
    cbn [fst]. exact (emails_unique_insert _ db db' u Huniq Hinsert). }
  split.
  { intros sendEmail e resetToken now. unfold forgot_password_handler.
    destruct (negb (isEmail L (default "" e))); [exact Huniq|].
    destruct (findOne _ db) as [loaded|]; [| exact Huniq].
    unfold createPasswordResetToken.
    destruct (save L false loaded _ db) as [err|[db1 user1]] eqn:Hsave1; [exact Huniq|].
    pose proof (save_emails _ _ _ _ _ _ Hsave1 eq_refl) as H1.
    destruct (call_sendEmail sendEmail _);
      [| cbn [fst]; apply (emails_unique_same db); assumption].
    destruct (save L false user1 _ db1) as [err|[db2 user2]] eqn:Hsave2;
      cbn [fst]; apply (emails_unique_same db); try assumption.
    rewrite (save_emails _ _ _ _ _ _ Hsave2 eq_refl). exact H1. }
  split.
  { intros token pw now. unfold reset_password_handler.
    destruct (reset_validation token pw); [| exact Huniq].
    destruct (findOne _ db) as [loaded|]; [| exact Huniq].
    destruct (save L true loaded _ db) as [err|[db' u]] eqn:Hsave; [exact Huniq|].
    cbn [fst]. apply (emails_unique_same db); [exact Huniq|].
    exact (save_emails _ _ _ _ _ _ Hsave eq_refl). }
  split.
  { intros token now. unfold verify_email_handler.
    destruct (negb (truthy token)); [exact Huniq|].
    destruct (findOne _ db) as [loaded|]; [| exact Huniq].
    destruct (save L true loaded _ db) as [err|[db' u]] eqn:Hsave; [exact Huniq|].
    cbn [fst]. apply (emails_unique_same db); [exact Huniq|].
    exact (save_emails _ _ _ _ _ _ Hsave eq_refl). }
  split.
  { intros profile now. unfold google_verify.
    destruct (findOne _ db) as [u|].
    { apply (emails_unique_same db); [exact Huniq | apply touch_and_done_emails; reflexivity]. }
    destruct (emails profile) as [[|e rest]|]; try exact Huniq.
    destruct (findOne (by_email e) db) as [u|];
      (destruct (first_photo profile) as [err|photo]; [exact Huniq|]).
    - apply (emails_unique_same db); [exact Huniq | apply touch_and_done_emails; reflexivity].
    - apply create_and_done_unique, Huniq. }
  split.
  { intros profile now. unfold facebook_verify.
    destruct (findOne _ db) as [u|].
    { apply (emails_unique_same db); [exact Huniq | apply touch_and_done_emails; reflexivity]. }
    destruct (_ ≫= _) as [u|].
    - destruct (first_photo profile) as [err|photo]; [exact Huniq|].
      apply (emails_unique_same db); [exact Huniq | apply touch_and_done_emails; reflexivity].
    - apply create_and_done_unique, Huniq. }
  split.
  { intros req_user current new confirm. unfold change_password_handler.
    destruct (change_password_validation current new confirm); [| exact Huniq].
    destruct (findOne_with_password _ db) as [loaded|]; [| exact Huniq].
    destruct (negb (comparePassword L loaded _)); [exact Huniq|].
    destruct (save L true loaded _ db) as [err|[db' u]] eqn:Hsave; [exact Huniq|].
    cbn [fst]. apply (emails_unique_same db); [exact Huniq|].
    exact (save_emails _ _ _ _ _ _ Hsave eq_refl). }
  split.
  { intros req_user pw. unfold delete_account_handler.
    destruct (negb (truthy pw)); [exact Huniq|].
    destruct (findOne_with_password _ db) as [loaded|]; [| exact Huniq].
    destruct (negb (comparePassword L loaded _)); [exact Huniq|].
    destruct (save L true loaded _ db) as [err|[db' u]] eqn:Hsave; [exact Huniq|].
    cbn [fst]. apply (emails_unique_same db); [exact Huniq|].
    exact (save_emails _ _ _ _ _ _ Hsave eq_refl). }
  intros req_user name e pw verificationToken now Hids.
  apply upgrade_guest_handler_unique; assumption.
Qed.

End UniqueEmails.

(** ** [sanitizeInput] *)

Section SanitizeInput.

Local Open Scope list_scope.

Lemma trimStart_head l c r : trimStart l = c :: r -> is_space c = false.
Proof.
  induction l as [|x l IH]; cbn [trimStart]; [discriminate|].
  destruct (is_space x) eqn:Hx; [exact IH|].
  intros [= <- _]. exact Hx.
Qed.

Lemma trimStart_idempotent l : trimStart (trimStart l) = trimStart l.
Proof.
  destruct (trimStart l) as [|c r] eqn:Hl; [reflexivity|].
  apply trimStart_nonspace. exact (trimStart_head l c r Hl).
Qed.

Lemma trimStart_suffix l : exists p, l = p ++ trimStart l.
Proof.
  induction l as [|x l [p Hp]]; [exists []; reflexivity|]. cbn [trimStart].
  destruct (is_space x); [| exists []; reflexivity].
  exists (x :: p). cbn [app]. rewrite <- Hp. reflexivity.
Qed.

(** The list-level [trim]. *)
Lemma trim_list_idempotent l :
  let t := rev (trimStart (rev (trimStart l))) in
  rev (trimStart (rev (trimStart t))) = t.
Proof.
  cbv zeta. set (m := trimStart l). set (e := rev (trimStart (rev m))).
  assert (He : trimStart e = e).
  { destruct e as [|c r] eqn:Heq; [reflexivity|].
    apply trimStart_nonspace.
    destruct (trimStart_suffix (rev m)) as [p Hp].
    assert (Hm : m = e ++ rev p).
    { rewrite <- (rev_involutive m), Hp, rev_app_distr. reflexivity. }
    rewrite Heq in Hm. cbn [app] in Hm. exact (trimStart_head l c _ Hm). }
  rewrite He. unfold e. rewrite rev_involutive, trimStart_idempotent. reflexivity.
Qed.

Lemma trim_idempotent s : trim (trim s) = trim s.
Proof.
  unfold trim. rewrite list_ascii_of_string_of_list_ascii.
  f_equal. apply trim_list_idempotent.
Qed.

(** Induction on JSON values, through arrays and objects. *)
Lemma Json_induction (P : Json -> Prop) :
  P JsonNull ->
  (forall b, P (JsonBool b)) ->
  (forall n, P (JsonNumber n)) ->
  (forall s, P (JsonString s)) ->
  (forall l, Forall P l -> P (JsonArray l)) ->
  (forall entries, Forall (fun entry => P (snd entry)) entries -> P (JsonObject entries)) ->
  forall v, P v.
Proof.
  intros Hnull Hbool Hnum Hstr Harr Hobj.
  fix IH 1. intros [| b | n | s | l | entries].
  - exact Hnull.
  - apply Hbool.
  - apply Hnum.
  - apply Hstr.
  - apply Harr. induction l as [|v l IHl]; constructor; [apply IH | exact IHl].
  - apply Hobj. induction entries as [|[k v] entries IHl]; constructor;
      [apply IH | exact IHl].
Qed.

Lemma is_sanitized_object entries :
  is_sanitized (JsonObject entries) <-> Forall (fun entry => is_sanitized (snd entry)) entries.
Proof.
  induction entries as [|entry entries IH].
  - split; [constructor | intros _; exact I].
  - change (is_sanitized (JsonObject (entry :: entries)))
      with (is_sanitized (snd entry) /\ is_sanitized (JsonObject entries)).
    rewrite IH, Forall_cons. reflexivity.
Qed.

Lemma index_entries_values i l : map snd (index_entries i l) = l.
Proof.
  revert i. induction l as [|v l IH]; intros i; [reflexivity|].
  cbn [index_entries map snd]. rewrite IH. reflexivity.
Qed.

Lemma index_entries_own i l :
  List.filter defines_own_property (index_entries i l) = index_entries i l.
Proof.
  revert i. induction l as [|v l IH]; intros i; [reflexivity|].
  cbn [index_entries List.filter].
  assert (Hkey : defines_own_property (number_to_string (Z.of_nat i), v) = true).
  { unfold defines_own_property. cbn [fst]. apply negb_true_iff, String.eqb_neq.
    unfold number_to_string, NilZero.string_of_int.
    destruct (Z.to_int (Z.of_nat i)) as [d|d]; [| discriminate].
    unfold NilZero.string_of_uint. destruct d; discriminate. }
  rewrite Hkey, IH. reflexivity.
Qed.

Lemma index_entries_resanitize i l :
  Forall (fun v => sanitize v = v) l ->
  map (fun entry => (fst entry, sanitize (snd entry))) (index_entries i l)
  = index_entries i l.
Proof.
  intros Hl. revert i. induction Hl as [|v l Hv _ IH]; intros i; [reflexivity|].
  cbn [index_entries map fst snd]. rewrite Hv, IH. reflexivity.
Qed.

Lemma own_entries_resanitize entries :
  Forall (fun entry => sanitize (sanitize (snd entry)) = sanitize (snd entry)) entries ->
  let own := List.filter defines_own_property
               (map (fun entry => (fst entry, sanitize (snd entry))) entries) in
  List.filter defines_own_property
    (map (fun entry => (fst entry, sanitize (snd entry))) own) = own.
Proof.
  cbv zeta. induction 1 as [|[k v] entries Hv _ IH]; [reflexivity|].
  cbn [map fst snd List.filter] in *.
  destruct (defines_own_property (k, sanitize v)) eqn:Hown; [| exact IH].
  cbn [map fst snd List.filter].
  change (defines_own_property (k, sanitize (sanitize v)))
    with (defines_own_property (k, sanitize v)).
  rewrite Hown, Hv, IH. reflexivity.
Qed.

Lemma own_entries_keys entries :
  map fst (List.filter defines_own_property
             (map (fun entry => (fst entry, sanitize (snd entry))) entries))
  = List.filter (fun k => negb (String.eqb k "__proto__")) (map fst entries).
Proof.
  induction entries as [|[k v] entries IH]; [reflexivity|].
  cbn [map fst snd List.filter]. unfold defines_own_property at 1. cbn [fst].
  destruct (negb (String.eqb k "__proto__")); cbn [map fst]; rewrite IH; reflexivity.
Qed.

Lemma sanitize_is_sanitized v : is_sanitized (sanitize v).
Proof.
  induction v as [| b | n | s | l IH | entries IH] using Json_induction;
    try exact I.
  - cbn [sanitize is_sanitized]. apply trim_idempotent.
  - cbn [sanitize]. apply is_sanitized_object.
    apply Forall_forall. intros entry Hentry. apply list_elem_of_In in Hentry.
    assert (Hin : In (snd entry) (map sanitize l)).
    { rewrite <- (index_entries_values 0 (map sanitize l)). apply in_map, Hentry. }
    apply in_map_iff in Hin as (x & <- & Hx).
    rewrite Forall_forall in IH. apply IH, list_elem_of_In, Hx.
  - cbn [sanitize]. apply is_sanitized_object.
    apply Forall_forall. intros entry Hentry. apply list_elem_of_In in Hentry.
    apply filter_In in Hentry as [Hentry _].
    apply in_map_iff in Hentry as (x & <- & Hx). cbn [snd].
    rewrite Forall_forall in IH. apply IH, list_elem_of_In, Hx.
Qed.

Lemma sanitize_idempotent v : sanitize (sanitize v) = sanitize v.
Proof.
  induction v as [| b | n | s | l IH | entries IH] using Json_induction;
    try reflexivity.
  - cbn [sanitize]. rewrite trim_idempotent. reflexivity.
  - cbn [sanitize]. f_equal. rewrite index_entries_resanitize.
    + apply index_entries_own.
    + apply Forall_forall. intros x Hx. apply list_elem_of_In in Hx.
      apply in_map_iff in Hx as (y & <- & Hy).
      rewrite Forall_forall in IH. apply IH, list_elem_of_In, Hy.
  - cbn [sanitize]. f_equal. apply own_entries_resanitize, IH.
Qed.

Lemma own_member_entries k entries :
  k <> "__proto__" ->
  find (fun entry => String.eqb (fst entry) k)
    (List.filter defines_own_property
       (map (fun entry : string * Json => (fst entry, sanitize (snd entry))) entries))
  = (fun entry : string * Json => (fst entry, sanitize (snd entry)))
      <$> find (fun entry => String.eqb (fst entry) k) entries.
Proof.
  intros Hk. induction entries as [|[k' x] entries IH]; [reflexivity|].
  cbn [map List.filter find fst snd]. unfold defines_own_property at 1. cbn [fst].
  destruct (String.eqb_spec k' "__proto__") as [->|Hk']; cbn [negb].
  - assert (Hskip : String.eqb "__proto__" k = false)
      by (apply String.eqb_neq; congruence).
    rewrite Hskip. exact IH.
  - cbn [find fst]. destruct (String.eqb k' k); [reflexivity | exact IH].
Qed.

Lemma own_member_indices k i l :
  find (fun entry => String.eqb (fst entry) k) (index_entries i (map sanitize l))
  = (fun entry : string * Json => (fst entry, sanitize (snd entry)))
      <$> find (fun entry => String.eqb (fst entry) k) (index_entries i l).
Proof.
  revert i. induction l as [|x l IH]; intros i; [reflexivity|].
  cbn [map index_entries find fst].
  destruct (String.eqb (number_to_string (Z.of_nat i)) k); [reflexivity | apply IH].
Qed.

(** Below a key other than [__proto__], sanitizing and reading commute. *)
Lemma own_member_sanitize k v :
  k <> "__proto__" ->
  own_member k (sanitize v) = sanitize <$> own_member k v.
Proof.
  intros Hk. destruct v as [| b | n | s | l | entries]; try reflexivity.
  - cbn [sanitize own_member]. rewrite own_member_indices.
    destruct (find _ (index_entries 0 l)) as [[k' x]|]; reflexivity.
  - cbn [sanitize own_member]. rewrite (own_member_entries k entries Hk).
    destruct (find _ entries) as [[k' x]|]; reflexivity.
Qed.

(** No sanitized value has an own property [__proto__]. *)
Lemma own_member_proto v : own_member "__proto__" (sanitize v) = None.
Proof.
  destruct v as [| b | n | s | l | entries]; try reflexivity.
  - cbn [sanitize own_member]. rewrite <- (index_entries_own 0 (map sanitize l)).
    generalize (index_entries 0 (map sanitize l)). intros entries.
    induction entries as [|[k x] entries IH]; [reflexivity|].
    cbn [List.filter]. unfold defines_own_property at 1. cbn [fst].
    destruct (String.eqb k "__proto__") eqn:Hk; cbn [negb]; [exact IH|].
    cbn [find fst]. rewrite Hk. exact IH.
  - cbn [sanitize own_member].
    generalize (map (fun entry : string * Json => (fst entry, sanitize (snd entry))) entries).
    intros mapped. induction mapped as [|[k x] mapped IH]; [reflexivity|].
    cbn [List.filter]. unfold defines_own_property at 1. cbn [fst].
    destruct (String.eqb k "__proto__") eqn:Hk; cbn [negb]; [exact IH|].
    cbn [find fst]. rewrite Hk. exact IH.
Qed.

Lemma json_at_sanitize path :
  forall v, ~ In "__proto__" path ->
            json_at path (sanitize v) = sanitize <$> json_at path v.
Proof.
  induction path as [|k path IH]; intros v Hpath; [reflexivity|].
  cbn [json_at]. rewrite own_member_sanitize by (intros ->; apply Hpath; left; reflexivity).
  destruct (own_member k v) as [w|]; [| reflexivity].
  cbn [fmap option_fmap option_map mbind option_bind].
  apply IH. intros Hin. apply Hpath. right. exact Hin.
Qed.

Lemma json_at_proto path :
  forall v, In "__proto__" path -> json_at path (sanitize v) = None.
Proof.
  induction path as [|k path IH]; intros v Hpath; [destruct Hpath|].
  cbn [json_at]. destruct (String.eqb_spec k "__proto__") as [->|Hk].
  - rewrite own_member_proto. reflexivity.
  - rewrite own_member_sanitize by exact Hk.
    destruct (own_member k v) as [w|]; [| reflexivity].
    cbn [fmap option_fmap option_map mbind option_bind].
    apply IH. destruct Hpath as [Heq|Hin]; [congruence | exact Hin].
Qed.

(** X17.  [sanitizeInput] replaces every string of a body, at any depth, by
    its trim, leaves numbers, booleans and null as they are, and rebuilds
    every object and every array as a plain object: an array under its
    indices, an object under its own keys in their order, except that
    [__proto__] never becomes an own key.  Reading along any path of own
    properties commutes with sanitizing, so what the result holds at a path
    is the sanitized value the input holds there, and nothing else.  The
    result holds no array and only trimmed strings, and running the
    middleware again changes nothing. *)
Theorem sanitize_trims_and_flattens_arrays v :
  is_sanitized (sanitize v)
  /\ sanitize (sanitize v) = sanitize v
  /\ match v with
     | JsonString s => sanitize v = JsonString (trim s)
     | JsonNull | JsonBool _ | JsonNumber _ => sanitize v = v
     | JsonArray l => sanitize v = JsonObject (index_entries 0 (map sanitize l))
     | JsonObject entries =>
         exists entries',
           sanitize v = JsonObject entries'
           /\ map fst entries'
              = List.filter (fun k => negb (String.eqb k "__proto__")) (map fst entries)
     end
  /\ (forall path,
        ~ In "__proto__" path ->
        json_at path (sanitize v) = sanitize <$> json_at path v)
  /\ (forall path w,
        ~ In "__proto__" path ->
        json_at path v = Some w ->
        match w with
        | JsonString s => json_at path (sanitize v) = Some (JsonString (trim s))
        | JsonNull | JsonBool _ | JsonNumber _ => json_at path (sanitize v) = Some w
        | _ => exists entries', json_at path (sanitize v) = Some (JsonObject entries')
        end)
  /\ (forall path, In "__proto__" path -> json_at path (sanitize v) = None)
  /\ (forall entries,
        v = JsonObject entries ->
        exists entries',
          sanitize v = JsonObject entries'
          /\ map fst entries'
             = List.filter (fun k => negb (String.eqb k "__proto__")) (map fst entries))
  /\ (forall l,
        v = JsonArray l ->
        exists entries',
          sanitize v = JsonObject entries'
          /\ map snd entries' = map sanitize l /\ length entries' = length l)
  /\ (forall query,
        let req := sanitizeInput (Some v) query in
        fst req = Some (sanitize v) /\ sanitizeInput (fst req) (snd req) = req).
Proof.
  split; [apply sanitize_is_sanitized|].
  split; [apply sanitize_idempotent|].
  split.
  { destruct v as [| b | n | s | l | entries]; try reflexivity.
    eexists. split; [reflexivity|]. apply own_entries_keys. }
  split; [intros path; apply json_at_sanitize|].
  split.
  { intros path w Hpath Hw. rewrite (json_at_sanitize path v Hpath), Hw.
    destruct w as [| b | n | s | l | entries]; try reflexivity;
      eexists; reflexivity. }
  split; [intros path; apply json_at_proto|].
  split; [| split].
  - intros entries ->. eexists. split; [reflexivity|]. apply own_entries_keys.
  - intros l ->. eexists. split; [reflexivity|]. split.
    + apply index_entries_values.
    + rewrite <- (length_map snd), index_entries_values, length_map. reflexivity.
  - intros query. cbv zeta. split; [reflexivity|].
    unfold sanitizeInput. cbn [fst snd].
    destruct query as [q|]; cbn [fmap option_fmap option_map];
      rewrite ?sanitize_idempotent; reflexivity.
Qed.

End SanitizeInput.

(** ** The global error handler *)

Section ErrorHandler.

Lemma duplicate_key_branch {A : Type} (code : option ErrCode) (x y : A) :
  match code with
  | Some (NumberCode 11000) => x
  | _ => y
  end
  = if match code with Some (NumberCode n) => n =? 11000 | _ => false end then x else y.
Proof.
  destruct code as [[n|c]|]; try reflexivity.
  destruct (Z.eqb_spec n 11000) as [->|Hn]; [reflexivity|].
  destruct n as [|p|p]; try reflexivity.
  repeat (destruct p as [p|p|]; try reflexivity). contradiction.
Qed.

(** The handler as a table of priorities: a later check of the source
    overrides an earlier one. *)
Lemma errorHandler_by_priority development err :
  errorHandler development err
  = if is_duplicate_key err && bool_decide (err_keyValue err = None)
    then inl (TypeError "Cannot convert undefined or null to object")
    else if name_is "ValidationError" err && bool_decide (err_errors err = None)
    then inl (TypeError "Cannot convert undefined or null to object")
    else
      let view :=
        if is_file_too_large err then mkErrorView (Some "File too large") (Some 400)
        else if name_is "TooManyRequestsError" err
        then mkErrorView (Some "Too many requests, please try again later") (Some 429)
        else if name_is "TokenExpiredError" err
        then mkErrorView (Some "Token expired") (Some 401)
        else if name_is "JsonWebTokenError" err
        then mkErrorView (Some "Invalid token") (Some 401)
        else if name_is "ValidationError" err
        then mkErrorView (Some (join_messages (default [] (err_errors err)))) (Some 400)
        else if is_duplicate_key err
        then mkErrorView
               (Some (default "undefined" (head (default [] (err_keyValue err)))
                      ++ " already exists")) (Some 400)
        else if name_is "CastError" err
        then mkErrorView (Some "Resource not found") (Some 404)
        else mkErrorView (err_message err) (err_statusCode err) in
      inr (match view_statusCode view with
           | Some c => if c =? 0 then 500 else c
           | None => 500
           end,
           or_else (view_message view) "Server Error",
           if development then err_stack err else None).
Proof.
  unfold errorHandler, is_duplicate_key, is_file_too_large.
  rewrite duplicate_key_branch.
  destruct (match err_code err with Some (NumberCode n) => n =? 11000 | _ => false end)
    eqn:Hdup.
  - assert (Hlimit : forall (x y : ErrorView),
               match err_code err with
               | Some (StringCode c) => if String.eqb c "LIMIT_FILE_SIZE" then x else y
               | _ => y
               end = y).
    { intros x y. destruct (err_code err) as [[n|c]|]; [reflexivity | discriminate Hdup
                                                       | discriminate Hdup]. }
    assert (Hlimit' : match err_code err with
                      | Some (StringCode c) => String.eqb c "LIMIT_FILE_SIZE"
                      | _ => false
                      end = false).
    { destruct (err_code err) as [[n|c]|]; [reflexivity | discriminate Hdup
                                            | discriminate Hdup]. }
    cbv zeta. rewrite Hlimit'.
    destruct (err_keyValue err) as [keys|]; cbn [andb bool_decide decide_rel];
      [rewrite bool_decide_eq_false_2 by discriminate
      | rewrite bool_decide_eq_true_2 by reflexivity; reflexivity].
    cbn [andb].
    destruct (name_is "ValidationError" err);
      [destruct (err_errors err) as [messages|];
       [rewrite bool_decide_eq_false_2 by discriminate
       | rewrite bool_decide_eq_true_2 by reflexivity; reflexivity]|];
      cbn [andb]; rewrite Hlimit;
      destruct (name_is "TooManyRequestsError" err), (name_is "TokenExpiredError" err),
        (name_is "JsonWebTokenError" err); reflexivity.
  - cbn [andb].
    assert (Hlimit : forall (x y : ErrorView),
               match err_code err with
               | Some (StringCode c) => if String.eqb c "LIMIT_FILE_SIZE" then x else y
               | _ => y
               end
               = if match err_code err with
                    | Some (StringCode c) => String.eqb c "LIMIT_FILE_SIZE"
                    | _ => false
                    end then x else y).
    { intros x y. destruct (err_code err) as [[n|c]|]; try reflexivity. }
    cbv zeta.
    destruct (name_is "ValidationError" err);
      [destruct (err_errors err) as [messages|];
       [rewrite bool_decide_eq_false_2 by discriminate
       | rewrite bool_decide_eq_true_2 by reflexivity; reflexivity]|];
      cbn [andb]; rewrite Hlimit;
      destruct (match err_code err with
                | Some (StringCode c) => String.eqb c "LIMIT_FILE_SIZE"
                | _ => false
                end),
        (name_is "TooManyRequestsError" err), (name_is "TokenExpiredError" err),
        (name_is "JsonWebTokenError" err), (name_is "CastError" err); reflexivity.
Qed.

Lemma name_is_other k n err :
  err_name err = Some n -> n <> k -> name_is k err = false.
Proof.
  intros Hname Hne. unfold name_is. rewrite Hname. apply String.eqb_neq, Hne.
Qed.

Lemma name_is_unknown k err :
  In k known_error_names ->
  (forall n, err_name err = Some n -> ~ In n known_error_names) ->
  name_is k err = false.
Proof.
  intros Hk Hunknown. unfold name_is. destruct (err_name err) as [n|] eqn:Hname;
    [| reflexivity].
  apply String.eqb_neq. intros ->. exact (Hunknown k eq_refl Hk).
Qed.

Lemma is_duplicate_key_true err :
  is_duplicate_key err = true <-> err_code err = Some (NumberCode 11000).
Proof.
  unfold is_duplicate_key. destruct (err_code err) as [[n|c]|]; split; try discriminate.
  - intros H. apply Z.eqb_eq in H. subst. reflexivity.
  - intros [= ->]. reflexivity.
Qed.

Lemma is_file_too_large_true err :
  is_file_too_large err = true <-> err_code err = Some (StringCode "LIMIT_FILE_SIZE").
Proof.
  unfold is_file_too_large. destruct (err_code err) as [[n|c]|]; split; try discriminate.
  - intros H. apply String.eqb_eq in H. subst. reflexivity.
  - intros [= ->]. reflexivity.
Qed.

Lemma is_duplicate_key_false err :
  err_code err <> Some (NumberCode 11000) -> is_duplicate_key err = false.
Proof.
  intros H. destruct (is_duplicate_key err) eqn:Hdup; [| reflexivity].
  apply is_duplicate_key_true in Hdup. contradiction.
Qed.

Lemma is_file_too_large_false err :
  err_code err <> Some (StringCode "LIMIT_FILE_SIZE") -> is_file_too_large err = false.
Proof.
  intros H. destruct (is_file_too_large err) eqn:Hlimit; [| reflexivity].
  apply is_file_too_large_true in Hlimit. contradiction.
Qed.

(** X18.  The global error handler answers every error but two: a
    duplicate-key error (code 11000) without [keyValue] and an error named
    [ValidationError] without an [errors] map make the handler itself
    throw.  When it answers, the status is never 0 and the message is
    never empty, and the stack is sent in development only.  Which answer
    it gives follows the last check of the source that applies: 400 "File
    too large" for the code [LIMIT_FILE_SIZE]; else 429, 401, 401 for the
    names [TooManyRequestsError], [TokenExpiredError],
    [JsonWebTokenError]; else 400 with the joined messages for
    [ValidationError]; else 400 "<first key> already exists" for the code
    11000; else 404 for [CastError]; and an error of any other name (or
    none) and any other code (or none) is answered with its own status
    code, 500 when that is absent or 0, and its own message, "Server
    Error" when that is absent or empty. *)
Theorem errorHandler_answers (development : bool) (err : Err) :
  let stack_sent := if development then err_stack err else None in
  let guarded :=
    (err_code err = Some (NumberCode 11000) -> err_keyValue err <> None)
    /\ err_code err <> Some (StringCode "LIMIT_FILE_SIZE") in
  (forall e, errorHandler development err = inl e ->
             err_code err = Some (NumberCode 11000) /\ err_keyValue err = None
             \/ err_name err = Some "ValidationError" /\ err_errors err = None)
  /\ (err_code err = Some (NumberCode 11000) /\ err_keyValue err = None
      \/ err_name err = Some "ValidationError" /\ err_errors err = None ->
      errorHandler development err
      = inl (TypeError "Cannot convert undefined or null to object"))
  /\ (forall code msg stack,
        errorHandler development err = inr (code, msg, stack) ->
        code <> 0 /\ msg <> ""
        /\ (development = false -> stack = None)
        /\ (development = true -> stack = err_stack err))
  /\ ((forall n, err_name err = Some n -> ~ In n known_error_names) ->
      err_code err <> Some (NumberCode 11000) ->
      err_code err <> Some (StringCode "LIMIT_FILE_SIZE") ->
      errorHandler development err
      = inr (match err_statusCode err with
             | Some c => if c =? 0 then 500 else c
             | None => 500
             end,
             or_else (err_message err) "Server Error",
             stack_sent))
  /\ (err_name err = Some "CastError" ->
      err_code err <> Some (NumberCode 11000) ->
      err_code err <> Some (StringCode "LIMIT_FILE_SIZE") ->
      errorHandler development err = inr (404, "Resource not found", stack_sent))
  /\ (forall keys,
        err_code err = Some (NumberCode 11000) ->
        err_keyValue err = Some keys ->
        (forall n, err_name err = Some n -> ~ In n later_error_names) ->
        errorHandler development err
        = inr (400, default "undefined" (head keys) ++ " already exists", stack_sent))
  /\ (forall messages,
        err_name err = Some "ValidationError" ->
        err_errors err = Some messages ->
        guarded ->
        errorHandler development err
        = inr (400, or_else (Some (join_messages messages)) "Server Error", stack_sent))
  /\ (err_name err = Some "JsonWebTokenError" -> guarded ->
      errorHandler development err = inr (401, "Invalid token", stack_sent))
  /\ (err_name err = Some "TokenExpiredError" -> guarded ->
      errorHandler development err = inr (401, "Token expired", stack_sent))
  /\ (err_name err = Some "TooManyRequestsError" -> guarded ->
      errorHandler development err
      = inr (429, "Too many requests, please try again later", stack_sent))
  /\ (err_code err = Some (StringCode "LIMIT_FILE_SIZE") ->
      ~ (err_name err = Some "ValidationError" /\ err_errors err = None) ->
      errorHandler development err = inr (400, "File too large", stack_sent)).
Proof.
  intros stack_sent guarded.
  assert (Hthrows : forall e, errorHandler development err = inl e ->
             err_code err = Some (NumberCode 11000) /\ err_keyValue err = None
             \/ err_name err = Some "ValidationError" /\ err_errors err = None).
  { intros e. rewrite errorHandler_by_priority.
    destruct (is_duplicate_key err) eqn:Hdup; cbn [andb].
    - case_bool_decide as Hkeys.
      + intros _. left. split; [apply is_duplicate_key_true, Hdup | exact Hkeys].
      + destruct (name_is "ValidationError" err) eqn:Hname; cbn [andb]; [| discriminate].
        case_bool_decide as Herrors; [| discriminate].
        intros _. right. split; [apply opt_is_true, Hname | exact Herrors].
    - destruct (name_is "ValidationError" err) eqn:Hname; cbn [andb]; [| discriminate].
      case_bool_decide as Herrors; [| discriminate].
      intros _. right. split; [apply opt_is_true, Hname | exact Herrors]. }
  assert (Hguarded : guarded ->
             is_duplicate_key err && bool_decide (err_keyValue err = None) = false
             /\ is_file_too_large err = false).
  { intros [Hkeys Hlimit]. split; [| apply is_file_too_large_false, Hlimit].
    destruct (is_duplicate_key err) eqn:Hdup; [| reflexivity]. cbn [andb].
    apply bool_decide_eq_false_2, Hkeys, is_duplicate_key_true, Hdup. }
  split; [exact Hthrows|].
  split.
  { rewrite errorHandler_by_priority. intros [[Hcode Hkeys] | [Hname Herrors]].
    - apply is_duplicate_key_true in Hcode. rewrite Hcode.
      rewrite bool_decide_eq_true_2 by exact Hkeys. reflexivity.
    - apply opt_is_true in Hname. fold (name_is "ValidationError" err) in Hname.
      rewrite Hname. rewrite (bool_decide_eq_true_2 _ Herrors).
      destruct (_ && _); reflexivity. }
  split.
  { intros code msg stack. rewrite errorHandler_by_priority.
    destruct (_ && _); [discriminate|]. destruct (_ && _); [discriminate|].
    cbv zeta. intros H. injection H as <- <- <-.
    match goal with
    | |- context [view_statusCode ?v] => generalize v
    end.
    intros [m c]. cbn [view_statusCode view_message]. split.
    - destruct c as [c|]; [| discriminate].
      destruct (c =? 0) eqn:Hc; [discriminate | apply Z.eqb_neq, Hc].
    - split.
      + unfold or_else, truthy. destruct m as [m|]; [| discriminate].
        destruct (String.eqb m "") eqn:Hm; cbn [negb default from_option id];
          [discriminate | apply String.eqb_neq, Hm].
      + split; intros ->; reflexivity. }
  split.
  { intros Hunknown Hdup Hlimit. rewrite errorHandler_by_priority.
    rewrite (is_duplicate_key_false err Hdup), (is_file_too_large_false err Hlimit).
    rewrite !(name_is_unknown _ err) by (try exact Hunknown; vm_compute; tauto).
    reflexivity. }
  split.
  { intros Hname Hdup Hlimit. rewrite errorHandler_by_priority.
    rewrite (is_duplicate_key_false err Hdup), (is_file_too_large_false err Hlimit).
    unfold name_is. rewrite Hname. reflexivity. }
  split.
  { intros keys Hcode Hkeys Hnames. rewrite errorHandler_by_priority.
    assert (Hlimit : is_file_too_large err = false).
    { apply is_file_too_large_false. rewrite Hcode. discriminate. }
    apply is_duplicate_key_true in Hcode. rewrite Hcode, Hlimit, Hkeys.
    rewrite bool_decide_eq_false_2 by discriminate.
    assert (Hlater : forall k, In k later_error_names -> name_is k err = false).
    { intros k Hk. unfold name_is. destruct (err_name err) as [n|] eqn:Hname;
        [| reflexivity].
      apply String.eqb_neq. intros ->. exact (Hnames k eq_refl Hk). }
    rewrite !Hlater by (vm_compute; tauto).
    cbn [andb default from_option id]. cbv zeta. cbn [view_statusCode view_message].
    unfold or_else, truthy. destruct (default "undefined" (head keys)); reflexivity. }
  split.
  { intros messages Hname Herrors Hg. rewrite errorHandler_by_priority.
    destruct (Hguarded Hg) as [-> ->].
    unfold name_is. rewrite Hname, Herrors.
    rewrite bool_decide_eq_false_2 by discriminate. reflexivity. }
  split.
  { intros Hname Hg. rewrite errorHandler_by_priority.
    destruct (Hguarded Hg) as [-> ->]. unfold name_is. rewrite Hname. reflexivity. }
  split.
  { intros Hname Hg. rewrite errorHandler_by_priority.
    destruct (Hguarded Hg) as [-> ->]. unfold name_is. rewrite Hname. reflexivity. }
  split.
  { intros Hname Hg. rewrite errorHandler_by_priority.
    destruct (Hguarded Hg) as [-> ->]. unfold name_is. rewrite Hname. reflexivity. }
  intros Hcode Hnot. clear Hguarded. rewrite errorHandler_by_priority.
  assert (Hdup : is_duplicate_key err = false).
  { apply is_duplicate_key_false. rewrite Hcode. discriminate. }
  apply is_file_too_large_true in Hcode. rewrite Hdup, Hcode. cbn [andb].
  destruct (name_is "ValidationError" err) eqn:Hname; cbn [andb]; [| reflexivity].
  case_bool_decide as Herrors; [| reflexivity].
  exfalso. apply Hnot. split; [apply opt_is_true, Hname | exact Herrors].
Qed.

End ErrorHandler.

(** ** Upgrading a guest account *)

Section UpgradeGuest.

Variable L : Libs.

Lemma upgrade_validation_ok req_name e pw :
  upgrade_validation L req_name e pw = [] ->
  (String.length (trim (default "" req_name)) <? 2)%nat = false
  /\ (100 <? String.length (trim (default "" req_name)))%nat = false
  /\ exists p, pw = Some p /\ (String.length p <? 8)%nat = false.
Proof.
  unfold upgrade_validation. intros H.
  apply app_eq_nil in H as [Hname H]. apply app_eq_nil in H as [_ H].
  apply app_eq_nil in H as [Hlen _].
  destruct (String.length (trim (default "" req_name)) <? 2)%nat; [discriminate|].
  destruct (100 <? String.length (trim (default "" req_name)))%nat; [discriminate|].
  split; [reflexivity|]. split; [reflexivity|].
  destruct pw as [p|]; [| discriminate]. exists p. split; [reflexivity|].
  cbn [default from_option id] in Hlen.
  destruct (String.length p <? 8)%nat; [discriminate | reflexivity].
Qed.

Lemma unused_email_is_free e id (l : list User) :
  find (by_email e) l = None ->
  existsb (fun d => same_email (email_setter e) d && negb (Nat.eqb (_id d) id)) l = false.
Proof.
  induction l as [|d l IH]; [reflexivity|]. cbn [find existsb].
  destruct (by_email e d) eqn:Hd; [discriminate|]. intros Hl.
  change (same_email (email_setter e) d) with (by_email e d).
  rewrite Hd, (IH Hl). reflexivity.
Qed.

Lemma write_modified_token h t d :
  write_modified (set_password None d)
    (set_emailVerification (Some h) (Some t) (set_password None d)) d
  = set_emailVerification (Some h) (Some t) d.
Proof.
  destruct d. unfold write_modified, set_emailVerification, set_password.
  cbn. rewrite !pick_same.
  f_equal; unfold pick; case_decide; congruence.
Qed.

(** X19.  Upgrading a guest stores the password as it was sent.  For a guest
    whose request passes the route's validation with an email that no
    stored account has: when the schema's pattern rejects the email the
    answer is 500 and nothing is written; otherwise the answer is 200 and
    the stored account is a full, unverified account with the trimmed
    name, the new email, a fresh verification token, and the request's
    password itself in place of a bcrypt hash, so a later
    [comparePassword] hands [bcrypt.compare] the password as the hash.
    An account that is not a guest is answered with 400 and left alone. *)
Theorem upgrade_guest_stores_password_unhashed
        req_user req_name e pw verificationToken now db u :
  upgrade_validation L req_name e pw = [] ->
  find (fun d => Nat.eqb (_id d) (_id req_user)) (docs db) = Some u ->
  find (by_email (normalizeEmail L (default "" e))) (docs db) = None ->
  let address := email_setter (normalizeEmail L (default "" e)) in
  let answer := upgrade_guest_handler L req_user req_name e pw verificationToken now db in
  (isGuest req_user = false ->
   answer = (db, json_error 400 "Account is already upgraded"))
  /\ (isGuest req_user = true -> Regex.test email_pattern address = false ->
      answer = (db, json_error 500 "Failed to upgrade account"))
  /\ (isGuest req_user = true -> Regex.test email_pattern address = true ->
      exists db' stored,
        fst answer = db'
        /\ statusCode (snd answer) = 200
        /\ user (body (snd answer))
           = Some (sanitizeUser now (Document (set_password None stored)))
        /\ find (fun d => Nat.eqb (_id d) (_id req_user)) (docs db') = Some stored
        /\ password stored = pw
        /\ name stored = Some (trim (default "" req_name))
        /\ email stored = address
        /\ isGuest stored = false /\ isEmailVerified stored = false
        /\ emailVerificationToken stored = Some (sha256_hex L verificationToken)
        /\ emailVerificationExpires stored = Some (now + 24 * 60 * 60 * 1000)
        /\ comparePassword L stored (default "" pw)
           = bcrypt_compare L (default "" pw) (default "" pw)).
Proof.
  intros Hvalid Hu Hfree address answer. subst address.
  destruct (upgrade_validation_ok req_name e pw Hvalid) as (Hmin & Hmax & p & -> & Hlen).
  cbn [default from_option id] in *.
  split; [| split].
  - intros Hguest. unfold answer, upgrade_guest_handler.
    rewrite Hvalid, Hguest. reflexivity.
  - intros Hguest Hbad. unfold answer, upgrade_guest_handler.
    rewrite Hvalid, Hguest. cbn [negb].
    unfold findOne. rewrite Hfree. cbn [fmap option_fmap option_map].
    unfold findByIdAndUpdate, update_validation_errors.
    rewrite Hbad.
    destruct (String.eqb (trim (trim (default "" req_name))) "");
      [reflexivity|].
    destruct (100 <? String.length (trim (trim (default "" req_name))))%nat;
      [reflexivity|].
    destruct (String.eqb _ ""); reflexivity.
  - intros Hguest Hgood.
    assert (Hname : String.eqb (trim (default "" req_name)) "" = false).
    { apply String.eqb_neq. intros Hempty. rewrite Hempty in Hmin. discriminate Hmin. }
    assert (Haddress : String.eqb (email_setter (normalizeEmail L (default "" e))) ""
                       = false).
    { apply String.eqb_neq. intros Hempty. rewrite Hempty in Hgood. discriminate Hgood. }
    pose proof (find_some_true _ _ _ Hu) as Hid. apply Nat.eqb_eq in Hid.
    set (n := trim (default "" req_name)) in *.
    set (raw := normalizeEmail L (default "" e)) in *.
    set (updated := upgrade_update n raw p u).
    set (db1 := updateOne (_id req_user) (upgrade_update n raw p) db).
    set (loaded := set_password None updated).
    set (user1 := set_emailVerification (Some (sha256_hex L verificationToken))
                    (Some (now + 24 * 60 * 60 * 1000)) loaded).
    set (stored := set_emailVerification (Some (sha256_hex L verificationToken))
                     (Some (now + 24 * 60 * 60 * 1000)) updated).
    assert (Hfound : find (fun d => Nat.eqb (_id d) (_id req_user)) (docs db1)
                     = Some updated).
    { pose proof (find_updateOne (fun d => Nat.eqb (_id d) (_id req_user))
                    (upgrade_update n raw p) db u (fun d => eq_refl) Hu) as Hfound.
      rewrite Hid in Hfound. exact Hfound. }
    assert (Hanswer : answer
                      = (updateOne (_id req_user) (write_modified loaded user1) db1,
                         json_success 200
                           (Some "Account upgraded successfully. Please verify your email.")
                           now (Document user1) None)).
    { unfold answer, upgrade_guest_handler.
      rewrite Hvalid, Hguest. cbn [negb default from_option id].
      unfold findOne at 1. fold raw. rewrite Hfree. cbn [fmap option_fmap option_map].
      unfold findByIdAndUpdate, update_validation_errors.
      fold n. rewrite Hgood. unfold n at 1 2. rewrite trim_idempotent. fold n.
      rewrite Hmax, Hlen, Hname, Haddress. cbn [app].
      rewrite Hu, (unused_email_is_free _ (_id req_user) _ Hfree).
      fold db1. unfold findOne. rewrite Hfound. cbn [fmap option_fmap option_map].
      fold updated loaded.
      unfold save, pre_save, createEmailVerificationToken. cbn [fst].
      fold user1.
      rewrite !bool_decide_eq_true_2 by reflexivity. cbn [negb andb].
      change (_id user1) with (_id u). rewrite Hid. reflexivity. }
    exists (updateOne (_id req_user) (write_modified loaded user1) db1), stored.
    rewrite Hanswer. cbn [fst snd].
    split; [reflexivity|]. split; [reflexivity|]. split; [reflexivity|].
    split.
    { pose proof (find_updateOne (fun d => Nat.eqb (_id d) (_id req_user))
                    (write_modified loaded user1) db1 updated (fun d => eq_refl) Hfound)
        as Hsaved.
      change (_id updated) with (_id u) in Hsaved. rewrite Hid in Hsaved.
      rewrite Hsaved. unfold loaded, user1, stored. rewrite write_modified_token.
      reflexivity. }
    split; [reflexivity|].
    split.
    { change (name stored) with (Some (trim n)). unfold n.
      rewrite trim_idempotent. reflexivity. }
    repeat match goal with |- _ /\ _ => split end; try reflexivity.
    unfold comparePassword. cbn [password stored set_emailVerification updated upgrade_update].
    unfold truthy. cbn [default from_option id].
    destruct (String.eqb_spec p "") as [->|_]; [vm_compute in Hlen; discriminate Hlen|].
    reflexivity.
Qed.

End UpgradeGuest.

(** ** Further scenarios *)

(** X1 on the locked account of [alice]: two calls inside the lock, one of them
    with the right password. *)
Lemma locked_account_ignores_attempts_witness :
  login_calls fixture_libs "alice@example.com" [("Secret#123", 1000); ("wrong", 4999)]
    locked_db
  = (locked_db, [inl AccountLocked; inl AccountLocked]).
Proof.
  apply (locked_account_ignores_attempts fixture_libs "alice@example.com"
           [("Secret#123", 1000); ("wrong", 4999)] locked_db alice_locked 5000);
    [reflexivity | reflexivity |].
  repeat constructor; simpl; lia.
Defined.


(** X3 on the account of [alice]: four wrong passwords. *)
Lemma failures_below_threshold_do_not_lock_witness :
  exists db' u',
    login_calls fixture_libs "alice@example.com"
      [("wrong", 1); ("wrong", 2); ("wrong", 3); ("wrong", 4)] alice_db
    = (db', repeat (inl InvalidCredentials) 4)
    /\ find (credentials_query "alice@example.com") (docs db') = Some u'
    /\ loginAttempts u' = 4
    /\ lockUntil u' = None.
Proof.
  apply (failures_below_threshold_do_not_lock fixture_libs "alice@example.com" "wrong"
           [1; 2; 3; 4] alice_db alice); try reflexivity.
  discriminate.
Defined.

(** X8 for the access token of [alice]. *)
Lemma issued_token_passes_gate_witness :
  fst (generateTokens alice_session_libs (Document alice)) = "access.jwt"
  /\ authenticateToken alice_session_libs (Some "Bearer access.jwt") alice_db
     = inr (set_password None alice)
  /\ logout_handler alice_session_libs (Some "Bearer access.jwt") alice_db
     = json_message 200 "success" "Logout successful"
  /\ optionalAuth alice_session_libs (Some "Bearer access.jwt") alice_db
     = Some (set_password None alice).
Proof.
  apply (issued_token_passes_gate alice_session_libs alice_db alice); try reflexivity.
  discriminate.
Defined.

(** X9 on the account of [alice] waiting for the token ["vtok"]: at the
    expiry, before it, and once more. *)
Lemma verification_token_single_use_witness :
  verify_email_handler fixture_libs (Some "vtok") 90000000 verifying_db
  = (verifying_db, json_error 400 "Invalid or expired verification token")
  /\ exists db',
      verify_email_handler fixture_libs (Some "vtok") 1000 verifying_db
      = (db', json_message 200 "success" "Email verified successfully")
      /\ In (set_emailVerification None None (set_isEmailVerified true alice_verifying))
           (docs db')
      /\ verify_email_handler fixture_libs (Some "vtok") 2000 db'
         = (db', json_error 400 "Invalid or expired verification token").
Proof.
  assert (Huniq : forall d, In d (docs verifying_db) ->
            emailVerificationToken d
            = Some (sha256_hex fixture_libs (default "" (Some "vtok"))) ->
            d = alice_verifying).
  { intros d [<- | [<- | []]] Hd; [reflexivity | discriminate Hd]. }
  split.
  - apply (verification_token_single_use fixture_libs (Some "vtok") 90000000 2000 90000000
             verifying_db alice_verifying);
      try (vm_compute; reflexivity); try exact Huniq; try lia.
    left. reflexivity.
  - destruct (verification_token_single_use fixture_libs (Some "vtok") 1000 2000 90000000
                verifying_db alice_verifying) as [_ Hfresh];
      try (vm_compute; reflexivity); try exact Huniq.
    + left. reflexivity.
    + destruct (Hfresh ltac:(lia)) as (db' & Hrun & Hin & _ & Hsecond).
      exists db'. repeat split; assumption.
Defined.

(** X11 on the account of [alice]: a wrong and the right current password. *)
Lemma change_password_rehashes_witness :
  change_password_handler fixture_libs alice (Some "wrong") (Some "NewPass!1")
    (Some "NewPass!1") alice_db
  = (alice_db, json_error 400 "Current password is incorrect")
  /\ exists db' stored,
      change_password_handler fixture_libs alice (Some "Secret#123") (Some "NewPass!1")
        (Some "NewPass!1") alice_db
      = (db', json_message 200 "success" "Password changed successfully")
      /\ find (fun d => Nat.eqb (_id d) 1) (docs db') = Some stored
      /\ password stored = Some "$2a$12$NewPass!1"
      /\ comparePassword fixture_libs stored "NewPass!1" = true.
Proof.
  split.
  - destruct (change_password_rehashes fixture_libs alice (Some "wrong") (Some "NewPass!1")
                (Some "NewPass!1") alice_db alice) as [Hwrong _].
    + vm_compute; reflexivity.
    + vm_compute; reflexivity.
    + apply Hwrong. vm_compute; reflexivity.
  - destruct (change_password_rehashes fixture_libs alice (Some "Secret#123")
                (Some "NewPass!1") (Some "NewPass!1") alice_db alice) as [_ Hright].
    + vm_compute; reflexivity.
    + vm_compute; reflexivity.
    + destruct Hright as (db' & stored & Hrun & Hfind & Hpw & _ & _ & _ & _ & Hlogin).
      * vm_compute; reflexivity.
      * vm_compute; reflexivity.
      * discriminate.
      * exists db', stored.
        split; [exact Hrun|]. split; [exact Hfind|]. split; [exact Hpw|].
        apply Hlogin; [discriminate | vm_compute; reflexivity].
Defined.

(** X12 on the account of [alice]: a wrong and the right password, and the
    gate and the login afterwards. *)
Lemma delete_account_deactivates_witness :
  delete_account_handler alice_session_libs alice (Some "wrong") alice_db
  = (alice_db, json_error 400 "Password is incorrect")
  /\ exists db',
      delete_account_handler alice_session_libs alice (Some "Secret#123") alice_db
      = (db', json_message 200 "success" "Account deactivated successfully")
      /\ length (docs db') = 1%nat
      /\ find (fun d => Nat.eqb (_id d) 1) (docs db') = Some (set_isActive false alice)
      /\ authenticateToken alice_session_libs (Some "Bearer access.jwt") db'
         = inl (json_error 401 "Account is deactivated")
      /\ findByCredentials alice_session_libs "alice@example.com" (Some "Secret#123") 1000 db'
         = (db', inl AccountDeactivated).
Proof.
  split.
  - destruct (delete_account_deactivates alice_session_libs alice (Some "wrong")
                alice_db alice) as [Hwrong _].
    + reflexivity.
    + reflexivity.
    + apply Hwrong. vm_compute; reflexivity.
  - destruct (delete_account_deactivates alice_session_libs alice (Some "Secret#123")
                alice_db alice) as [_ Hright].
    + reflexivity.
    + reflexivity.
    + destruct Hright as (db' & Hrun & Hlen & Hfind & Hgate & Hlogin).
      * vm_compute; reflexivity.
      * vm_compute; reflexivity.
      * exists db'.
        split; [exact Hrun|]. split; [exact Hlen|]. split; [exact Hfind|].
        split.
        -- apply (Hgate (Some "Bearer access.jwt")
                    (mkPayload (Some (JId 1)) (Some (JStr "alice@example.com")) false));
             reflexivity.
        -- apply Hlogin; reflexivity.
Defined.

(** X15 for a Facebook profile without an email. *)
Lemma facebook_without_email_creates_no_account_witness :
  exists es,
    facebook_verify fixture_libs dave_facebook 1000 two_users_db
    = (two_users_db, inl (ValidationFailed es))
    /\ In ("email", "Please enter a valid email") es.
Proof.
  apply (facebook_without_email_creates_no_account fixture_libs dave_facebook 1000
           two_users_db); reflexivity.
Defined.

(** X16 on two collections: a Google sign-up and the upgrade of a guest. *)
Lemma operations_keep_emails_unique_witness :
  emails_unique (fst (google_verify fixture_libs erin_google 1000 two_users_db))
  /\ emails_unique
       (fst (upgrade_guest_handler fixture_libs gina (Some "Gina") (Some "gina@example.com")
               (Some "NewPass!1") "vtok" 1000 guest_db)).
Proof.
  assert (Htwo : emails_unique two_users_db).
  { unfold emails_unique. vm_compute.
    apply NoDup_cons_2; [| apply NoDup_singleton].
    rewrite list_elem_of_In. intros [H|[]]. discriminate H. }
  assert (Hguest : emails_unique guest_db).
  { unfold emails_unique. vm_compute.
    apply NoDup_cons_2; [| apply NoDup_singleton].
    rewrite list_elem_of_In. intros [H|[]]. discriminate H. }
  split.
  - destruct (operations_keep_emails_unique fixture_libs two_users_db Htwo)
      as (_ & _ & _ & _ & _ & _ & _ & Hgoogle & _).
    exact (Hgoogle erin_google 1000).
  - destruct (operations_keep_emails_unique fixture_libs guest_db Hguest)
      as (_ & _ & _ & _ & _ & _ & _ & _ & _ & _ & _ & Hupgrade).
    apply Hupgrade. vm_compute.
    apply NoDup_cons_2; [| apply NoDup_singleton].
    rewrite list_elem_of_In. intros [H|[]]. discriminate H.
Defined.

(** X19 on the guest account of [gina]; the fixture [bcrypt.compare] rejects
    the password against itself. *)
Lemma upgrade_guest_stores_password_unhashed_witness :
  exists db' stored,
    fst (upgrade_guest_handler fixture_libs gina (Some " Gina ") (Some "Gina@Example.com")
           (Some "NewPass!1") "vtok" 1000 guest_db) = db'
    /\ statusCode (snd (upgrade_guest_handler fixture_libs gina (Some " Gina ")
                          (Some "Gina@Example.com") (Some "NewPass!1") "vtok" 1000 guest_db))
       = 200
    /\ find (fun d => Nat.eqb (_id d) 3) (docs db') = Some stored
    /\ password stored = Some "NewPass!1"
    /\ name stored = Some "Gina"
    /\ email stored = "gina@example.com"
    /\ isGuest stored = false
    /\ comparePassword fixture_libs stored "NewPass!1" = false.
Proof.
  destruct (upgrade_guest_stores_password_unhashed fixture_libs gina (Some " Gina ")
              (Some "Gina@Example.com") (Some "NewPass!1") "vtok" 1000 guest_db gina)
    as (_ & _ & Hgood).
  - vm_compute; reflexivity.
  - vm_compute; reflexivity.
  - vm_compute; reflexivity.
  - destruct Hgood as (db' & stored & Hdb & Hcode & _ & Hfind & Hpw & Hname & Hemail
                       & Hguest & _ & _ & _ & Hcompare).
    + reflexivity.
    + vm_compute; reflexivity.
    + exists db', stored.
      split; [exact Hdb|]. split; [exact Hcode|]. split; [exact Hfind|].
      split; [exact Hpw|]. split; [exact Hname|]. split; [exact Hemail|].
      split; [exact Hguest|].
      cbn [default from_option id] in Hcompare. rewrite Hcompare. vm_compute. reflexivity.
Defined.

(** X17 on a body with a [__proto__] member. *)
Lemma sanitize_trims_and_flattens_arrays_witness :
  (exists entries',
      sanitize padded_body = JsonObject entries' /\ map fst entries' = ["name"; "tags"])
  /\ json_at ["name"] (sanitize padded_body) = Some (JsonString "Alice")
  /\ json_at ["tags"; "0"] (sanitize padded_body) = Some (JsonString "a")
  /\ json_at ["tags"; "1"] (sanitize padded_body) = Some (JsonNumber 2)
  /\ json_at ["__proto__"; "isAdmin"] (sanitize padded_body) = None.
Proof.
  destruct (sanitize_trims_and_flattens_arrays padded_body)
    as (_ & _ & _ & _ & Hleaf & Hproto & Hkeys & _).
  split; [exact (Hkeys _ eq_refl)|].
  split; [apply (Hleaf ["name"] (JsonString "  Alice ")); [| reflexivity]|].
  { intros [H|[]]. discriminate H. }
  split; [apply (Hleaf ["tags"; "0"] (JsonString " a")); [| reflexivity]|].
  { intros [H|[H|[]]]; discriminate H. }
  split; [apply (Hleaf ["tags"; "1"] (JsonNumber 2)); [| reflexivity]|].
  { intros [H|[H|[]]]; discriminate H. }
  apply Hproto. left. reflexivity.
Defined.

(** X18 on a duplicate-key error without [keyValue], on [new Error('boom')]
    and on an error without name, code or message. *)
Lemma errorHandler_answers_witness :
  errorHandler false duplicate_key_error
  = inl (TypeError "Cannot convert undefined or null to object")
  /\ errorHandler false plain_error = inr (500, "boom", None)
  /\ errorHandler true plain_error = inr (500, "boom", Some "at handler")
  /\ errorHandler false bare_error = inr (500, "Server Error", None).
Proof.
  split; [| split; [| split]].
  - destruct (errorHandler_answers false duplicate_key_error) as (_ & Hthrows & _).
    apply Hthrows. left. split; reflexivity.
  - destruct (errorHandler_answers false plain_error) as (_ & _ & _ & Hown & _).
    apply Hown; [| discriminate | discriminate].
    intros n [= <-]. vm_compute. intuition discriminate.
  - destruct (errorHandler_answers true plain_error) as (_ & _ & _ & Hown & _).
    apply Hown; [| discriminate | discriminate].
    intros n [= <-]. vm_compute. intuition discriminate.
  - destruct (errorHandler_answers false bare_error) as (_ & _ & _ & Hown & _).
    apply Hown; [| discriminate | discriminate].
    intros n Hn. discriminate Hn.
Defined.
